(** * logger_system: a shallow embedding of the logging facade

    The development follows the five source files of the package
    [logger_system]:

      - [errors.py]           the [DBRecordsErrors] exception class
      - [log_models.py]       the [Log] row of the [logs.logs] table
      - [loggers.py]          [ErrorTracker], [AutoTracker], [Logger],
                              [SQLAlchemyLogHandler], [PostgreSQLLogger]
      - [logging.py]          the earlier variant of [ErrorTracker],
                              [AutoTracker] and [Logger]
      - [logging_manager.py]  [LoggerManager]

    Python objects are modelled by a small universe of values, Python
    dictionaries by [gmap string _], exceptions by an error result, and the
    interpreter state the code reads and writes (the process-wide record
    factory of the standard [logging] module, the table of named loggers, the
    handler objects, the SQLAlchemy sessions, the clock) by one record
    [World] that every effectful function threads through.

    The parts of the Python standard library and of SQLAlchemy that the
    package calls are modelled in the modules [PyInspect], [PyTraceback],
    [PyLogging] and [SQLAlchemy]; each says which library function it
    stands for. *)

From Stdlib Require Import ZArith Ascii.
From stdpp Require Import gmap strings list fin_maps pretty.

Open Scope Z_scope.
Open Scope string_scope.

(** ** Python values, dictionaries and exceptions *)

Module Py.

(** The values that flow through the package: [None], strings, integers,
    instances of a class (only the class name is ever inspected), tuples and
    lists. *)
#[warnings="-register-all"]
Inductive PyVal : Type :=
| PyNone
| PyStr (s : string)
| PyInt (z : Z)
| PyInst (cls : string)
| PyTuple (items : list PyVal)
| PyList (items : list PyVal).

(** A Python [dict] with string keys. *)
Abbreviation PyDict := (gmap string PyVal).

(** [type(v).__name__] *)
Definition type_name (v : PyVal) : string :=
  match v with
  | PyNone => "NoneType"
  | PyStr _ => "str"
  | PyInt _ => "int"
  | PyInst cls => cls
  | PyTuple _ => "tuple"
  | PyList _ => "list"
  end.

(** Truth value of an object, as [if v:] tests it. *)
Definition truthy (v : PyVal) : bool :=
  match v with
  | PyNone => false
  | PyStr s => negb (String.eqb s "")
  | PyInt z => negb (Z.eqb z 0)
  | PyInst _ => true
  | PyTuple l => match l with [] => false | _ => true end
  | PyList l => match l with [] => false | _ => true end
  end.

(** The exceptions the model can raise.  [DBError] stands for whatever the
    database driver raises on a lost connection or a failed commit
    ([sqlalchemy.exc.OperationalError] and the like); [OSError] for a failed
    [os.makedirs] or [open]. *)
Inductive PyExc : Type :=
| AttributeError (what : string)
| KeyError (key : string)
| TypeError (what : string)
| ValueError (what : string)
| DBError (what : string)
| OSError (what : string).

(** The outcome of evaluating a Python expression: a value or a raised
    exception. *)
Inductive PyResult (A : Type) : Type :=
| Ok (a : A)
| Raise (e : PyExc).
Arguments Ok {A} a.
Arguments Raise {A} e.

Definition is_ok {A} (r : PyResult A) : bool :=
  match r with Ok _ => true | Raise _ => false end.

Definition bindR {A B} (r : PyResult A) (k : A -> PyResult B) : PyResult B :=
  match r with
  | Ok a => k a
  | Raise e => Raise e
  end.

(** [d.get(k)]: the value, or [None] when the key is missing. *)
Definition dict_get (d : PyDict) (k : string) : PyVal :=
  default PyNone (d !! k).

(** [d[k]]: the value, or [KeyError]. *)
Definition dict_index (d : PyDict) (k : string) : PyResult PyVal :=
  match d !! k with
  | Some v => Ok v
  | None => Raise (KeyError k)
  end.

End Py.
Export Py.

(** ** Call stacks: the part of [inspect] that the resolver uses *)

Module PyInspect.

(** A frame object: [f_code.co_name], [f_lineno], [f_globals] and
    [f_locals].  [f_lineno] is the line the frame is currently executing,
    which for a frame suspended in a call is the line of the call. *)
Record Frame : Type := mkFrame {
  co_name : string;
  f_lineno : Z;
  f_globals : PyDict;
  f_locals : PyDict;
}.

(** The active call stack, innermost frame first.  A reference to a frame is
    the suffix of the stack that starts at it, so that [f_back] is the tail;
    the empty stack is the [None] frame reference. *)
Abbreviation FrameRef := (list Frame).

(** [inspect.currentframe()]: the frame of the function that calls it, or
    [None] on an interpreter without frame support.  The caller's own frame
    is the head of the stack it runs on. *)
Definition currentframe (stack : list Frame) : FrameRef := stack.

(** [frame.f_back] of a frame reference that is not [None]. *)
Definition f_back (fr : FrameRef) : FrameRef := tl fr.

(** [frame.f_back] as an attribute access: on [None] it raises. *)
Definition getattr_f_back (fr : FrameRef) : PyResult FrameRef :=
  match fr with
  | [] => Raise (AttributeError "'NoneType' object has no attribute 'f_back'")
  | _ :: back => Ok back
  end.

End PyInspect.
Export PyInspect.

(** ** [loggers.py], part 1: [AutoTracker] *)

Module loggers_AutoTracker.

(** The loop of [get_execution_info] (lines 43-49): up to [n] times, step to
    [f_back] while the current reference is not [None], remembering the last
    reference that was a frame.  Returns [last_available_frame]. *)
Fixpoint traverse (n : nat) (frame last_available_frame : FrameRef) : FrameRef :=
  match n with
  | O => last_available_frame
  | S n' =>
      match frame with
      | _ :: _ =>
          let frame' := f_back frame in
          match frame' with
          | _ :: _ => traverse n' frame' frame'
          | [] => traverse n' frame' last_available_frame
          end
      | [] => last_available_frame
      end
  end.

(** ["class"] entry: the class name of the local [self] when the frame has
    one, else [None]. *)
Definition class_of_self (f : Frame) : PyVal :=
  match f_locals f !! "self" with
  | Some v => PyStr (type_name v)
  | None => PyNone
  end.

(** [AutoTracker.get_execution_info] (loggers.py, lines 30-65).  [stack] is
    the stack on which the body runs: its head is the frame of
    [get_execution_info] itself. *)
Definition get_execution_info (stack : list Frame) : PyResult PyDict :=
  let frame := currentframe stack in
  let last_available_frame := traverse 3 frame frame in
  match last_available_frame with
  | f :: _ =>
      Ok (<["function" := PyStr (co_name f)]>
          (<["lineno" := PyInt (f_lineno f)]>
          (<["module" := dict_get (f_globals f) "__name__"]>
          (<["class" := class_of_self f]> ∅))))
  | [] =>
      Ok (<["function" := PyNone]>
          (<["lineno" := PyNone]>
          (<["module" := PyNone]>
          (<["class" := PyNone]> ∅))))
  end.

End loggers_AutoTracker.

(** ** [logging.py], part 1: [AutoTracker] *)

Module logging_AutoTracker.

(** [AutoTracker.get_execution_info] (logging.py, lines 22-30):
    [inspect.currentframe().f_back.f_back.f_back], every attribute access
    unguarded. *)
Definition get_execution_info (stack : list Frame) : PyResult PyDict :=
  bindR (getattr_f_back (currentframe stack)) (fun f1 =>
  bindR (getattr_f_back f1) (fun f2 =>
  bindR (getattr_f_back f2) (fun frame =>
  match frame with
  | f :: _ =>
      Ok (<["function" := PyStr (co_name f)]>
          (<["lineno" := PyInt (f_lineno f)]>
          (<["module" := dict_get (f_globals f) "__name__"]> ∅)))
  | [] => Raise (AttributeError "'NoneType' object has no attribute 'f_code'")
  end))).

End logging_AutoTracker.

(** ** Strings: the [%d] format and trailing newlines *)

Module PyStrings.

(** [%d] applied to [v]: an integer, anything else is a [TypeError]. *)
Definition fmt_d (v : PyVal) : PyResult string :=
  match v with
  | PyInt z => Ok (pretty z)
  | _ => Raise (TypeError "%d format: a real number is required")
  end.

(** [s.rstrip] of one trailing newline, as [formatException] does with the
    text it gets from [traceback]. *)
Fixpoint strip_newline (s : string) : string :=
  match s with
  | EmptyString => EmptyString
  | String c EmptyString => if Ascii.eqb c "010"%char then EmptyString else s
  | String c rest => String c (strip_newline rest)
  end.

Definition NL : string := String "010"%char EmptyString.


(** [s[-1:] == "\n"] *)
Fixpoint ends_with_newline (s : string) : bool :=
  match s with
  | EmptyString => false
  | String c EmptyString => Ascii.eqb c "010"%char
  | String _ rest => ends_with_newline rest
  end.

End PyStrings.
Export PyStrings.

(** ** Error objects and what [traceback] renders for them *)

Module PyTraceback.

(** An exception object, as far as the package looks at it:
    [type(error).__name__] and [type(error).__module__], the outcome of
    [str(error)] (a class may override [__str__], and [__str__] may itself
    raise), [error.args], and [error.__traceback__]: [None] for an exception
    that was constructed and never raised, otherwise the calls on its stack
    (file, line and function of each), oldest first.  The model does not
    render tracebacks itself: see [traceback_of] below. *)
Record ErrorObj : Type := mkErrorObj {
  exc_type : string;
  exc_module : string;
  exc_str : PyResult string;
  exc_args : list PyVal;
  exc_traceback : option (list string);
}.

(** The list [traceback.format_exception] returns.  Whatever comes first
    (the traces of [__cause__] and [__context__], the header and the entries
    of the stack), the function ends with the lines of
    [format_exception_only], which yields at least one line; so the list is
    never empty, and is kept as its last line and the lines before it. *)
Record Rendered : Type := mkRendered {
  tb_init : list string;
  tb_last : string;
}.

Definition tb_lines (r : Rendered) : list string := tb_init r ++ [tb_last r].

End PyTraceback.
Export PyTraceback.

(** ** The surroundings of the process *)

Module Surroundings.

(** What the code reads from its surroundings and never writes:
    - [clock]: the time, already rendered;
    - [handling]: the exception being handled ([sys.exc_info()]);
    - [db_up]: whether the database does what it is asked, that is,
      answers when a connection is made and accepts the rows of a commit;
    - [io_ok]: whether stream and file operations succeed;
    - [text_of]: [str(v)] for a tuple, a list or an object, as the
      interpreter renders it (the quoting and the escapes of [repr], the
      address in the default text of an object);
    - [traceback_of]: [traceback.format_exception(type(e), e,
      e.__traceback__)] as the interpreter computes it at this moment: it
      reads the source lines of the stack entries from the files, follows
      [__cause__] and [__context__], and its wording depends on the version
      of Python.
    The last two are taken as given: the model does not compute them. *)
Record Env : Type := mkEnv {
  clock : string;
  handling : option ErrorObj;
  db_up : bool;
  io_ok : bool;
  text_of : PyVal -> string;
  traceback_of : ErrorObj -> Rendered;
}.

(** [str(v)], which is also what [%s] and an f-string field produce. *)
Definition py_str (env : Env) (v : PyVal) : string :=
  match v with
  | PyNone => "None"
  | PyStr s => s
  | PyInt z => pretty z
  | _ => text_of env v
  end.

(** [traceback.format_exception(type(e), e, e.__traceback__)] *)
Definition format_exception (env : Env) (e : ErrorObj) : list string :=
  tb_lines (traceback_of env e).

(** What [logging.Formatter.formatException] renders for the [exc_info]
    triple of a record: the text [traceback] prints for the exception,
    without its last newline; for the triple [(None, None, None)], which is
    [sys.exc_info()] outside of any [except] block, the text is
    ["NoneType: None"]. *)
Definition formatException (env : Env) (ei : option ErrorObj) : string :=
  match ei with
  | Some e => strip_newline (String.concat "" (format_exception env e))
  | None => "NoneType: None"
  end.

End Surroundings.
Export Surroundings.

(** ** [errors.py] *)

Module errors.

(** [DBRecordsErrors(message, code, record)] (errors.py, lines 3-13),
    constructed and not raised.  [record_dict] is the rendering of
    [record.__dict__].  [__init__] passes only [message] to
    [Exception.__init__], so [args] is [(message,)]; [__str__] returns the
    formatted text when [code] is truthy and [self.message] itself
    otherwise, which [str] refuses unless it is a string. *)
Definition DBRecordsErrors (env : Env) (message code : PyVal) (record_dict : string)
    : ErrorObj :=
  {| exc_type := "DBRecordsErrors";
     exc_module := "logger_system.errors";
     exc_str :=
       if truthy code
       then Ok ("[Error code " ++ py_str env code ++ "]: " ++ py_str env message
                ++ ". " ++ NL ++ " " ++ record_dict)
       else match message with
            | PyStr s => Ok s
            | _ => Raise (TypeError "__str__ returned non-string")
            end;
     exc_args := [message];
     exc_traceback := None |}.

End errors.

(** ** Data of the standard [logging] module *)

Module PyLoggingData.

Definition NOTSET : Z := 0.
Definition DEBUG : Z := 10.
Definition INFO : Z := 20.
Definition WARNING : Z := 30.
Definition ERROR : Z := 40.
Definition CRITICAL : Z := 50.

(** [logging.getLevelName(level)] *)
Definition getLevelName (level : Z) : string :=
  if Z.eqb level CRITICAL then "CRITICAL"
  else if Z.eqb level ERROR then "ERROR"
  else if Z.eqb level WARNING then "WARNING"
  else if Z.eqb level INFO then "INFO"
  else if Z.eqb level DEBUG then "DEBUG"
  else if Z.eqb level NOTSET then "NOTSET"
  else "Level " ++ pretty level.

(** A [logging.LogRecord].  The attributes the package reads are fields;
    [rec_created] is the creation time as [%(asctime)s] renders it;
    [rec_exc_info] is [None] when the call gave no [exc_info], [Some None]
    for the triple [(None, None, None)] and [Some (Some e)] for the triple of
    an exception; [rec_attrs] holds every attribute added to
    [record.__dict__] after construction. *)
Record LogRecord : Type := mkLogRecord {
  rec_name : string;
  rec_levelno : Z;
  rec_levelname : string;
  rec_msg : string;
  rec_created : string;
  rec_exc_info : option (option ErrorObj);
  rec_attrs : PyDict;
}.

(** The attribute names a freshly constructed [LogRecord] already has; the
    keys of [extra] must avoid them. *)
Definition std_record_keys : list string :=
  [ "name"; "msg"; "args"; "levelname"; "levelno"; "pathname"; "filename";
    "module"; "exc_info"; "exc_text"; "stack_info"; "lineno"; "funcName";
    "created"; "msecs"; "relativeCreated"; "thread"; "threadName";
    "processName"; "process"; "message"; "asctime" ].

(** [setattr(record, k, v)] for an added attribute. *)
Definition rec_setattr (r : LogRecord) (k : string) (v : PyVal) : LogRecord :=
  {| rec_name := rec_name r; rec_levelno := rec_levelno r;
     rec_levelname := rec_levelname r; rec_msg := rec_msg r;
     rec_created := rec_created r; rec_exc_info := rec_exc_info r;
     rec_attrs := <[k := v]> (rec_attrs r) |}.

(** [getattr(record, k, default)] for an added attribute. *)
Definition rec_getattr (r : LogRecord) (k : string) (dflt : PyVal) : PyVal :=
  default dflt (rec_attrs r !! k).

(** The value of the process-wide record factory.  It is either the
    [LogRecord] class, which is what [logging] installs at import, or a
    closure [record_factory] made by a [_log] call (loggers.py, lines
    121-126), which holds the factory it replaced and the [exec_info] of its
    call. *)
Inductive Factory : Type :=
| LogRecord_class
| record_factory (old_factory : Factory) (exec_info : PyDict).

(** Calling a factory.  The closure calls the factory it holds and then sets
    the three [custom_] attributes from its [exec_info]. *)
Fixpoint call_factory (f : Factory) (name : string) (level : Z) (msg : string)
    (exc_info : option (option ErrorObj)) (created : string) : PyResult LogRecord :=
  match f with
  | LogRecord_class =>
      Ok {| rec_name := name; rec_levelno := level;
            rec_levelname := getLevelName level; rec_msg := msg;
            rec_created := created; rec_exc_info := exc_info;
            rec_attrs := ∅ |}
  | record_factory old_factory exec_info =>
      bindR (call_factory old_factory name level msg exc_info created) (fun record =>
      bindR (dict_index exec_info "function") (fun fn =>
      let record := rec_setattr record "custom_function" fn in
      bindR (dict_index exec_info "lineno") (fun ln =>
      let record := rec_setattr record "custom_lineno" ln in
      bindR (dict_index exec_info "module") (fun md =>
      let record := rec_setattr record "custom_module" md in
      Ok record))))
  end.

(** The two format strings of the package: with [%(asctime)s] in front
    (formatter type ["local"]) and without. *)
Inductive Formatter : Type :=
| FormatterLocal
| FormatterPlain.

(** [%(k)s] or [%(k)d] of a format string looks the field up in
    [record.__dict__]; a missing field is a [ValueError] (the [KeyError] of
    the [%] operator, converted as Python 3.8 and later do, which loggers.py
    requires). *)
Definition record_field (r : LogRecord) (k : string) : PyResult PyVal :=
  match rec_attrs r !! k with
  | Some v => Ok v
  | None => Raise (ValueError ("Formatting field not found in record: '" ++ k ++ "'"))
  end.

(** [Formatter.formatMessage]: the format string applied to
    [record.__dict__], field by field from the left; [%d] of a value that is
    not a number is a [TypeError]. *)
Definition formatMessage (env : Env) (fmt : Formatter) (r : LogRecord) : PyResult string :=
  bindR (record_field r "custom_module") (fun md =>
  bindR (record_field r "custom_function") (fun fn =>
  bindR (record_field r "custom_lineno") (fun ln =>
  bindR (fmt_d ln) (fun lineno =>
  Ok ((match fmt with
       | FormatterLocal => rec_created r ++ " - "
       | FormatterPlain => ""
       end)
      ++ rec_name r ++ " - " ++ rec_levelname r ++ " - " ++ rec_msg r
      ++ " -> " ++ py_str env md ++ " - " ++ py_str env fn ++ " - " ++ lineno))))).

(** The end of [Formatter.format]: the exception text, if it is not empty,
    goes on a new line after the formatted message; a message that already
    ends in a newline gets no second one. *)
Definition add_exc_text (s text : string) : string :=
  if String.eqb text "" then s
  else (if ends_with_newline s then s else s ++ NL) ++ text.

(** [Formatter.format]: the formatted message, followed by the exception
    text when the record has [exc_info].  The package passes no positional
    arguments, so [getMessage()] is [record.msg]. *)
Definition format (env : Env) (fmt : Formatter) (r : LogRecord) : PyResult string :=
  bindR (formatMessage env fmt r) (fun s =>
  match rec_exc_info r with
  | Some ei => Ok (add_exc_text s (formatException env ei))
  | None => Ok s
  end).

(** [format] of a handler without a formatter of its own, as
    [logging.lastResort] is: the format string is [%(message)s]. *)
Definition default_format (env : Env) (r : LogRecord) : string :=
  match rec_exc_info r with
  | Some ei => add_exc_text (rec_msg r) (formatException env ei)
  | None => rec_msg r
  end.

(** The handler classes the package attaches: [logging.StreamHandler] (on
    [sys.stderr]), [logging.FileHandler] and the package's own
    [SQLAlchemyLogHandler]. *)
Inductive HandlerClass : Type :=
| StreamHandler
| FileHandler (baseFilename : string)
| SQLAlchemyLogHandler.

(** A handler object after [setLevel] and [setFormatter]. *)
Record Handler : Type := mkHandler {
  h_class : HandlerClass;
  h_level : Z;
  h_formatter : Formatter;
}.

(** A [logging.Logger]: its level and its handlers in the order they were
    added, each with its object identity.  A handler is not modified once it
    is attached, so the list holds the objects themselves. *)
Record PyLogger : Type := mkPyLogger {
  lg_level : Z;
  lg_handlers : list (nat * Handler);
}.

End PyLoggingData.
Export PyLoggingData.

(** ** [log_models.py] and the SQLAlchemy session *)

Module log_models.

(** The [Log] row (log_models.py, lines 9-25), without the two columns the
    database fills in ([id], [created_at]).  A column holds the Python value
    given to the constructor; [PyNone] is SQL NULL. *)
Record Log : Type := mkLog {
  name_logger : PyVal;
  level : PyVal;
  message : PyVal;
  module : PyVal;
  classname : PyVal;
  func_name : PyVal;
  lineno : PyVal;
  error_type : PyVal;
  error_message : PyVal;
  error_args : PyVal;
  error_traceback : PyVal;
}.

End log_models.
Export log_models.

Module SQLAlchemyData.

(** A [Session] object: the rows added and not yet flushed
    ([session.new]), whether a transaction was begun and has not been ended
    by a commit that went through, by [rollback()] or by [close()], and
    whether [rollback()] and [close()] were called. *)
Record Session : Type := mkSession {
  s_pending : list Log;
  s_in_transaction : bool;
  s_rolled_back : bool;
  s_closed : bool;
}.

End SQLAlchemyData.
Export SQLAlchemyData.

(** ** The interpreter state and the monad of effectful code *)

Module Runtime.

(** The classes of logger objects: [Logger] and [PostgreSQLLogger] of
    loggers.py.  ([LokiLoggerService] only forwards records to the handler
    of an external package and is left out.) *)
Inductive LoggerClass : Type :=
| Logger
| PostgreSQLLogger.

(** A logger object of the package.  [_logger] is the attribute that holds
    the [logging.Logger]; [logging.getLogger] returns one object per name, so
    the reference is the name. *)
Record LoggerObj : Type := mkLoggerObj {
  lo_class : LoggerClass;
  log_file : option string;
  name : option string;
  formatter_type : string;
  _logger : string;
}.

(** What was written, in order: a line on [sys.stderr], a line in a file,
    or the report that [Handler.handleError] prints when a handler of the
    standard library fails. *)
Inductive Output : Type :=
| ToStderr (line : string)
| ToFile (path : string) (line : string)
| HandleError (handler : nat) (e : PyExc).

(** The state of the process.
    - [w_factory]: the record factory of [logging]
      ([getLogRecordFactory] / [setLogRecordFactory]);
    - [w_loggers]: the loggers [logging.getLogger] has created, by name,
      and the root logger under the empty name when it has been configured;
    - [w_objects], [w_sessions]: logger objects of the package and
      SQLAlchemy sessions, by object identity;
    - [w_next]: the next fresh object identity;
    - [w_registry]: [LoggerManager._loggers];
    - [w_db]: the committed rows of [logs.logs];
    - [w_output]: what was written so far;
    - [w_offered]: every call [handler.handle(record)] made so far on a
      handler that is attached to a logger, oldest first (a history, not
      read by the code);
    - [w_env]: the surroundings. *)
Record World : Type := mkWorld {
  w_factory : Factory;
  w_loggers : gmap string PyLogger;
  w_objects : gmap nat LoggerObj;
  w_sessions : gmap nat Session;
  w_next : nat;
  w_registry : gmap string nat;
  w_db : list Log;
  w_output : list Output;
  w_offered : list (nat * LogRecord);
  w_env : Env;
}.

Definition set_factory (f : Factory) (w : World) : World :=
  mkWorld f (w_loggers w) (w_objects w) (w_sessions w) (w_next w)
    (w_registry w) (w_db w) (w_output w) (w_offered w) (w_env w).
Definition set_loggers (x : gmap string PyLogger) (w : World) : World :=
  mkWorld (w_factory w) x (w_objects w) (w_sessions w) (w_next w)
    (w_registry w) (w_db w) (w_output w) (w_offered w) (w_env w).
Definition set_objects (x : gmap nat LoggerObj) (w : World) : World :=
  mkWorld (w_factory w) (w_loggers w) x (w_sessions w) (w_next w)
    (w_registry w) (w_db w) (w_output w) (w_offered w) (w_env w).
Definition set_sessions (x : gmap nat Session) (w : World) : World :=
  mkWorld (w_factory w) (w_loggers w) (w_objects w) x (w_next w)
    (w_registry w) (w_db w) (w_output w) (w_offered w) (w_env w).
Definition set_next (x : nat) (w : World) : World :=
  mkWorld (w_factory w) (w_loggers w) (w_objects w) (w_sessions w) x
    (w_registry w) (w_db w) (w_output w) (w_offered w) (w_env w).
Definition set_registry (x : gmap string nat) (w : World) : World :=
  mkWorld (w_factory w) (w_loggers w) (w_objects w) (w_sessions w) (w_next w)
    x (w_db w) (w_output w) (w_offered w) (w_env w).
Definition set_db (x : list Log) (w : World) : World :=
  mkWorld (w_factory w) (w_loggers w) (w_objects w) (w_sessions w) (w_next w)
    (w_registry w) x (w_output w) (w_offered w) (w_env w).
Definition set_output (x : list Output) (w : World) : World :=
  mkWorld (w_factory w) (w_loggers w) (w_objects w) (w_sessions w) (w_next w)
    (w_registry w) (w_db w) x (w_offered w) (w_env w).
Definition set_offered (x : list (nat * LogRecord)) (w : World) : World :=
  mkWorld (w_factory w) (w_loggers w) (w_objects w) (w_sessions w) (w_next w)
    (w_registry w) (w_db w) (w_output w) x (w_env w).
Definition set_env (x : Env) (w : World) : World :=
  mkWorld (w_factory w) (w_loggers w) (w_objects w) (w_sessions w) (w_next w)
    (w_registry w) (w_db w) (w_output w) (w_offered w) x.

(** A freshly started process: [logging] just imported, nothing created. *)
Definition fresh_world (env : Env) : World :=
  mkWorld LogRecord_class ∅ ∅ ∅ 0%nat ∅ [] [] [] env.

(** Effectful code: a state transformer that ends in a value or in a raised
    exception.  The state survives an exception, as in Python. *)
Definition M (A : Type) : Type := World -> PyResult A * World.

Definition ret {A} (a : A) : M A := fun w => (Ok a, w).

Definition bind {A B} (m : M A) (k : A -> M B) : M B :=
  fun w =>
    match m w with
    | (Ok a, w') => k a w'
    | (Raise e, w') => (Raise e, w')
    end.

Definition raise {A} (e : PyExc) : M A := fun w => (Raise e, w).

(** A pure computation that may raise. *)
Definition lift {A} (r : PyResult A) : M A := fun w => (r, w).

Definition gets {A} (f : World -> A) : M A := fun w => (Ok (f w), w).

Definition modify (f : World -> World) : M unit := fun w => (Ok tt, f w).

(** [try: body finally: cleanup].  The cleanup runs on both exits; the
    outcome is the body's unless the cleanup itself raises. *)
Definition try_finally {A} (body : M A) (cleanup : M unit) : M A :=
  fun w =>
    let '(r, w1) := body w in
    match cleanup w1 with
    | (Ok _, w2) => (r, w2)
    | (Raise e, w2) => (Raise e, w2)
    end.

(** [try: body except Exception as e: handler(e)] *)
Definition try_except {A} (body : M A) (handler : PyExc -> M A) : M A :=
  fun w =>
    match body w with
    | (Ok a, w1) => (Ok a, w1)
    | (Raise e, w1) => handler e w1
    end.

(** A fresh object identity. *)
Definition fresh : M nat :=
  fun w => (Ok (w_next w), set_next (S (w_next w)) w).

End Runtime.
Export Runtime.

Declare Scope py_scope.
Delimit Scope py_scope with py.
Notation "x <- m ;; k" := (bind m (fun x => k))
  (at level 100, m at next level, right associativity) : py_scope.
Notation "m ;;; k" := (bind m (fun _ => k))
  (at level 100, right associativity) : py_scope.
Open Scope py_scope.

(** ** [ErrorTracker], in both files *)

Module loggers_ErrorTracker.

(** [ErrorTracker.capture_error] (loggers.py, lines 18-27).  The entries of
    the dictionary literal are evaluated in order, so a [str(error)] that
    raises ends the call. *)
Definition capture_error (error : ErrorObj) : M PyDict :=
  error_message <- lift (exc_str error) ;;
  error_traceback <- gets (fun w => format_exception (w_env w) error) ;;
  ret (<["error_type" := PyStr (exc_type error)]>
       (<["error_message" := PyStr error_message]>
       (<["error_args" := PyTuple (exc_args error)]>
       (<["error_traceback" := PyList (PyStr <$> error_traceback)]> ∅)))).

End loggers_ErrorTracker.

Module logging_ErrorTracker.

(** [datetime.now().isoformat()] *)
Definition datetime_now_isoformat : M string := gets (fun w => clock (w_env w)).

(** [ErrorTracker.capture_error] (logging.py, lines 9-19): the same four
    entries under other keys, and the time of the call. *)
Definition capture_error (error : ErrorObj) : M PyDict :=
  message <- lift (exc_str error) ;;
  traceback <- gets (fun w => format_exception (w_env w) error) ;;
  timestamp <- datetime_now_isoformat ;;
  ret (<["type" := PyStr (exc_type error)]>
       (<["message" := PyStr message]>
       (<["args" := PyTuple (exc_args error)]>
       (<["traceback" := PyList (PyStr <$> traceback)]>
       (<["timestamp" := PyStr timestamp]> ∅))))).

End logging_ErrorTracker.

(** ** SQLAlchemy sessions *)

Module SQLAlchemy.

Definition update_session (s : nat) (f : Session -> Session) (w : World) : World :=
  set_sessions (alter f s (w_sessions w)) w.

(** [self.Session()]: a new session, no transaction yet. *)
Definition Session_new : M nat :=
  s <- fresh ;;
  modify (fun w => set_sessions (<[s := mkSession [] false false false]> (w_sessions w)) w) ;;;
  ret s.

(** [session.add(log)]: the row is pending and the session has begun its
    transaction. *)
Definition Session_add (s : nat) (log : Log) : M unit :=
  modify (update_session s (fun x =>
    mkSession (s_pending x ++ [log]) true (s_rolled_back x) (s_closed x))).

(** [session.commit()]: when the database answers, the pending rows are
    written and the transaction ends; when it does not, the session undoes
    the flush that failed, which drops the new objects from the session, and
    the call raises: nothing is pending any more, and neither [rollback()]
    nor [close()] has been called. *)
Definition Session_commit (s : nat) : M unit :=
  up <- gets (fun w => db_up (w_env w)) ;;
  if up
  then modify (fun w =>
         let rows := match w_sessions w !! s with
                     | Some x => s_pending x
                     | None => []
                     end in
         set_db (w_db w ++ rows)
           (update_session s (fun x =>
              mkSession [] false (s_rolled_back x) (s_closed x)) w))
  else
    modify (update_session s (fun x =>
      mkSession [] (s_in_transaction x) (s_rolled_back x) (s_closed x))) ;;;
    raise (DBError "commit failed").

(** [session.rollback()] *)
Definition Session_rollback (s : nat) : M unit :=
  modify (update_session s (fun x => mkSession [] false true (s_closed x))).

(** [session.close()]: ends any transaction, drops what is pending and
    releases the connection. *)
Definition Session_close (s : nat) : M unit :=
  modify (update_session s (fun x => mkSession [] false (s_rolled_back x) true)).

(** [base._create_engine()] followed by [Base.metadata.create_all(...)],
    which connects to the database. *)
Definition create_engine_and_tables : M unit :=
  up <- gets (fun w => db_up (w_env w)) ;;
  if up then ret tt else raise (DBError "cannot connect").

End SQLAlchemy.
Export SQLAlchemy.

(** ** Operations of the standard [logging] module *)

Module PyLogging.

(** [for x in xs: body(x)] *)
Fixpoint for_each {A} (xs : list A) (body : A -> M unit) : M unit :=
  match xs with
  | [] => ret tt
  | x :: rest => body x ;;; for_each rest body
  end.

(** A logger as [logging] creates it: without handlers and without a
    level of its own.  The empty name is the root logger
    ([logging.getLogger("")]), which exists from the start with the level
    [WARNING]. *)
Definition new_logger (lname : string) : PyLogger :=
  mkPyLogger (if String.eqb lname "" then WARNING else NOTSET) [].

(** The logger of a name, as [logging.getLogger] would return it: the one
    in the table, or a new one. *)
Definition logger_of (lname : string) (w : World) : PyLogger :=
  default (new_logger lname) (w_loggers w !! lname).

(** *** The hierarchy of loggers *)

(** The prefixes of a name that end just before one of its dots, shortest
    first. *)
Fixpoint dot_prefixes (s : string) : list string :=
  match s with
  | EmptyString => []
  | String c rest =>
      (if Ascii.eqb c "."%char then [EmptyString] else [])
      ++ (String c <$> dot_prefixes rest)
  end.

(** The prefixes [Manager._fixupParents] tries, longest first.  Its loop is
    [i = name.rfind(".")], [while i > 0: ... i = name.rfind(".", 0, i - 1)]:
    a prefix is tried when it is not empty and at least two characters
    shorter than the one tried before it.  [ps] are the prefixes at the dots,
    longest first, and [bound] is the length of the prefix tried last. *)
Fixpoint tried_after (bound : option nat) (ps : list string) : list string :=
  match ps with
  | [] => []
  | p :: rest =>
      if (0 <? String.length p)%nat
         && match bound with
            | Some b => (String.length p + 2 <=? b)%nat
            | None => true
            end
      then p :: tried_after (Some (String.length p)) rest
      else tried_after bound rest
  end.

Definition parent_candidates (lname : string) : list string :=
  tried_after None (reverse (dot_prefixes lname)).

(** [logger.parent], given the table of loggers: the first of the prefixes
    tried that is a logger, and the root logger when none is; the root logger
    has no parent.  This is how [Manager._fixupParents] and
    [Manager._fixupChildren] link the loggers, apart from two cases that are
    left out: Python 3.9 and later return the root logger for the name
    ["root"] too, and a logger named by a proper prefix of the word ["root"]
    does not become the parent of those of its descendants that were created
    before it.  The properties below that look at the loggers above a logger
    are stated so that they hold in both cases as well (see [above] in
    [Spec]). *)
Definition parent_of (lname : string) (loggers : gmap string PyLogger) : option string :=
  if String.eqb lname "" then None
  else Some (default ""
               (head (filter (fun p => is_Some (loggers !! p))
                             (parent_candidates lname)))).

(** The ancestors of a logger, nearest first, the root logger last.  A
    parent has a shorter name than its child, so a logger has no more
    ancestors than its name has characters, which is the [fuel] that
    [ancestors_of] gives. *)
Fixpoint ancestors (fuel : nat) (lname : string) (loggers : gmap string PyLogger)
    : list string :=
  match fuel with
  | O => []
  | S fuel' =>
      match parent_of lname loggers with
      | Some p => p :: ancestors fuel' p loggers
      | None => []
      end
  end.

Definition ancestors_of (lname : string) (w : World) : list string :=
  ancestors (String.length lname) lname (w_loggers w).

(** The handlers a record of the logger goes to: its own, then those of
    its ancestors, nearest first; no logger of the model has [propagate]
    switched off. *)
Definition handlers_in_reach (lname : string) (w : World) : list (nat * Handler) :=
  lg_handlers (logger_of lname w)
  ++ mjoin ((fun p => lg_handlers (logger_of p w)) <$> ancestors_of lname w).

(** [logger.getEffectiveLevel()]: the first level that is set, from the
    logger up to the root; [NOTSET] when none is. *)
Definition getEffectiveLevel (lname : string) (w : World) : Z :=
  default NOTSET
    (head (filter (fun l => l ≠ NOTSET)
                  ((fun p => lg_level (logger_of p w)) <$> lname :: ancestors_of lname w))).

(** [logging.getLogger(name)]: enters the logger in the table if it is not
    there. *)
Definition getLogger (lname : string) : M unit :=
  modify (fun w => set_loggers (<[lname := logger_of lname w]> (w_loggers w)) w).

Definition update_logger (lname : string) (f : PyLogger -> PyLogger) (w : World) : World :=
  set_loggers (<[lname := f (logger_of lname w)]> (w_loggers w)) w.

(** [logger.setLevel(level)] *)
Definition setLevel (lname : string) (lvl : Z) : M unit :=
  modify (update_logger lname (fun l => mkPyLogger lvl (lg_handlers l))).

(** [logger.handlers[:]] *)
Definition handlers_copy (lname : string) : M (list (nat * Handler)) :=
  gets (fun w => lg_handlers (logger_of lname w)).

(** [logger.removeHandler(hdlr)] *)
Definition removeHandler (lname : string) (hdlr : nat * Handler) : M unit :=
  modify (update_logger lname (fun l =>
    mkPyLogger (lg_level l)
      (filter (fun h => h.1 ≠ hdlr.1) (lg_handlers l)))).

(** [logger.addHandler(hdlr)] *)
Definition addHandler (lname : string) (hdlr : nat * Handler) : M unit :=
  modify (update_logger lname (fun l =>
    mkPyLogger (lg_level l)
      (if bool_decide (hdlr.1 ∈ (lg_handlers l).*1)
       then lg_handlers l
       else lg_handlers l ++ [hdlr]))).

(** [logging.getLogRecordFactory()] and [logging.setLogRecordFactory(f)] *)
Definition getLogRecordFactory : M Factory := gets w_factory.
Definition setLogRecordFactory (f : Factory) : M unit := modify (set_factory f).

(** [stream.write(text)] on [sys.stderr] or on the open file of a
    [FileHandler]. *)
Definition write (out : Output) : M unit :=
  ok <- gets (fun w => io_ok (w_env w)) ;;
  if ok
  then modify (fun w => set_output (w_output w ++ [out]) w)
  else raise (OSError "write failed").

(** [Handler.handleError(record)]: reports the failure on the last-resort
    channel and returns. *)
Definition handleError (hid : nat) (e : PyExc) : M unit :=
  modify (fun w => set_output (w_output w ++ [HandleError hid e]) w).

(** [StreamHandler.emit(record)], which [FileHandler.emit] calls on its own
    stream: formatting and writing happen inside [try], and every exception
    goes to [handleError]. *)
Definition StreamHandler_emit (hid : nat) (h : Handler) (record : LogRecord) : M unit :=
  try_except
    (env <- gets w_env ;;
     msg <- lift (format env (h_formatter h) record) ;;
     write (match h_class h with
            | FileHandler path => ToFile path msg
            | _ => ToStderr msg
            end))
    (fun e => handleError hid e).

Section Dispatch.

(** [hdlr.emit(record)], by the class of the handler. *)
Variable emit : nat -> Handler -> LogRecord -> M unit.

(** [Handler.handle(record)]: no filter is installed, so the record is
    emitted. *)
Definition Handler_handle (hdlr : nat * Handler) (record : LogRecord) : M unit :=
  modify (fun w => set_offered (w_offered w ++ [(hdlr.1, record)]) w) ;;;
  emit hdlr.1 hdlr.2 record.

(** [Logger.callHandlers(record)]: the record goes to the handlers of the
    logger and of its ancestors, each taking it when its level allows.  When
    there is no handler at all on the way, it goes to [logging.lastResort],
    a stream handler on [sys.stderr] of level [WARNING] without a formatter
    of its own. *)
Definition callHandlers (lname : string) (record : LogRecord) : M unit :=
  hs <- gets (handlers_in_reach lname) ;;
  match hs with
  | [] =>
      if Z.leb WARNING (rec_levelno record)
      then try_except
             (env <- gets w_env ;;
              write (ToStderr (default_format env record)))
             (fun e => handleError 0 e)
      else ret tt
  | _ =>
      for_each hs (fun hdlr =>
        if Z.leb (h_level hdlr.2) (rec_levelno record)
        then Handler_handle hdlr record
        else ret tt)
  end.

(** [Logger.isEnabledFor(level)]; [logging.disable] is not in use. *)
Definition isEnabledFor (lname : string) (lvl : Z) : M bool :=
  gets (fun w => Z.leb (getEffectiveLevel lname w) lvl).

(** [Logger.makeRecord]: the record comes from the process-wide factory as
    it is at this moment; then the entries of [extra] are added, none of
    which may name an attribute the record already has. *)
Definition makeRecord (lname : string) (lvl : Z) (msg : string)
    (exc_info : option (option ErrorObj)) (extra : option PyDict) : M LogRecord :=
  factory <- getLogRecordFactory ;;
  created <- gets (fun w => clock (w_env w)) ;;
  rv <- lift (call_factory factory lname lvl msg exc_info created) ;;
  match extra with
  | None => ret rv
  | Some extra =>
      match filter (fun kv => kv.1 ∈ std_record_keys ∨ is_Some (rec_attrs rv !! kv.1))
                   (map_to_list extra) with
      | [] =>
          ret (mkLogRecord (rec_name rv) (rec_levelno rv) (rec_levelname rv)
                 (rec_msg rv) (rec_created rv) (rec_exc_info rv)
                 (extra ∪ rec_attrs rv))
      | kv :: _ => raise (KeyError ("Attempt to overwrite '" ++ kv.1 ++ "' in LogRecord"))
      end
  end.

(** [logger.log(level, msg, exc_info=..., extra=...)]: when the logger is
    enabled for the level, [exc_info=True] is replaced by
    [sys.exc_info()], the record is made and handed to the handlers. *)
Definition Logger_log (lname : string) (lvl : Z) (msg : string)
    (exc_info : bool) (extra : option PyDict) : M unit :=
  enabled <- isEnabledFor lname lvl ;;
  if enabled
  then
    ei <- gets (fun w => if exc_info then Some (handling (w_env w)) else None) ;;
    record <- makeRecord lname lvl msg ei extra ;;
    callHandlers lname record
  else ret tt.

End Dispatch.

End PyLogging.
Export PyLogging.

(** ** [loggers.py], part 2: [SQLAlchemyLogHandler] *)

Module loggers_SQLAlchemyLogHandler.

(** [SQLAlchemyLogHandler.store_log] (loggers.py, lines 169-178) *)
Definition store_log (name_logger level message module classname func_name
    lineno error_type error_message error_args error_traceback : PyVal) : M unit :=
  session <- Session_new ;;
  let log := mkLog name_logger level message module classname func_name
               lineno error_type error_message error_args error_traceback in
  Session_add session log ;;;
  Session_commit session ;;;
  Session_close session.

(** [SQLAlchemyLogHandler.emit] (loggers.py, lines 180-194) *)
Definition emit (h : Handler) (record : LogRecord) : M unit :=
  env <- gets w_env ;;
  log_entry <- lift (format env (h_formatter h) record) ;;
  store_log
    (PyStr (rec_name record))
    (PyStr (rec_levelname record))
    (PyStr log_entry)
    (rec_getattr record "custom_module" (PyStr "NA"))
    (rec_getattr record "custom_class" (PyStr "NA"))
    (rec_getattr record "custom_function" (PyStr "NA"))
    (rec_getattr record "custom_lineno" (PyInt (-1)))
    (rec_getattr record "error_type" (PyStr "NA"))
    (rec_getattr record "error_message" (PyStr "NA"))
    (rec_getattr record "error_args" (PyStr "NA"))
    (rec_getattr record "error_traceback" (PyStr "NA")).

(** [SQLAlchemyLogHandler.__init__] (loggers.py, lines 162-167): the engine
    and the table are set up, which needs the database. *)
Definition __init__ : M nat :=
  create_engine_and_tables ;;;
  fresh.

End loggers_SQLAlchemyLogHandler.

(** [hdlr.emit(record)] for the three handler classes. *)
Definition emit (hid : nat) (h : Handler) (record : LogRecord) : M unit :=
  match h_class h with
  | SQLAlchemyLogHandler => loggers_SQLAlchemyLogHandler.emit h record
  | StreamHandler => StreamHandler_emit hid h record
  | FileHandler _ => StreamHandler_emit hid h record
  end.

(** ** Logger objects *)

Module Objects.

(** [self.<attribute>] of a logger object. *)
Definition get_object (self : nat) : M LoggerObj :=
  fun w =>
    match w_objects w !! self with
    | Some o => (Ok o, w)
    | None => (Raise (AttributeError "no such object"), w)
    end.

Definition update_object (self : nat) (f : LoggerObj -> LoggerObj) : M unit :=
  modify (fun w => set_objects (alter f self (w_objects w)) w).

(** [self.name = new_name] *)
Definition set_attr_name (new_name : option string) (o : LoggerObj) : LoggerObj :=
  mkLoggerObj (lo_class o) (log_file o) new_name (formatter_type o) (_logger o).

(** [self._logger = logging.getLogger(lname)] *)
Definition set_attr_logger (lname : string) (o : LoggerObj) : LoggerObj :=
  mkLoggerObj (lo_class o) (log_file o) (name o) (formatter_type o) lname.

Definition class_name (c : LoggerClass) : string :=
  match c with
  | Logger => "Logger"
  | PostgreSQLLogger => "PostgreSQLLogger"
  end.

(** [x or dflt] for an optional string. *)
Definition str_or (x : option string) (dflt : string) : string :=
  match x with
  | Some s => if String.eqb s "" then dflt else s
  | None => dflt
  end.

Fixpoint has_slash (s : string) : bool :=
  match s with
  | EmptyString => false
  | String c rest => Ascii.eqb c "/"%char || has_slash rest
  end.

(** [os.makedirs(os.path.dirname(path), exist_ok=True)]: a path without a
    directory part has the empty [dirname], which [makedirs] refuses. *)
Definition makedirs_dirname (path : string) : M unit :=
  if has_slash path
  then ok <- gets (fun w => io_ok (w_env w)) ;;
       if ok then ret tt else raise (OSError "makedirs failed")
  else raise (OSError "FileNotFoundError: ''").

(** [logging.FileHandler(path)]: opens the file. *)
Definition FileHandler_new (path : string) : M nat :=
  ok <- gets (fun w => io_ok (w_env w)) ;;
  if ok then fresh else raise (OSError "open failed").

(** [logging.StreamHandler()] *)
Definition StreamHandler_new : M nat := fresh.

End Objects.
Export Objects.

(** ** [loggers.py], part 3: [Logger] and [PostgreSQLLogger] *)

Module loggers_Logger.

Definition __name__ : string := "logger_system.loggers".

(** The frame of a function of loggers.py while it waits in a call at
    [line]. *)
Definition own_frame (co : string) (line : Z) (locals : PyDict) : Frame :=
  mkFrame co line {["__name__" := PyStr __name__]} locals.

Definition method_frame (co : string) (line : Z) (o : LoggerObj) : Frame :=
  own_frame co line {["self" := PyInst (class_name (lo_class o))]}.

(** [Logger._setup_logger] (loggers.py, lines 80-109) *)
Definition Logger_setup_logger (self : nat) : M unit :=
  o <- get_object self ;;
  let lname := str_or (name o) __name__ in
  getLogger lname ;;;
  update_object self (set_attr_logger lname) ;;;
  setLevel lname DEBUG ;;;
  hs <- handlers_copy lname ;;
  for_each hs (removeHandler lname) ;;;
  let formatter :=
    if String.eqb (formatter_type o) "local" then FormatterLocal else FormatterPlain in
  (if String.eqb (str_or (log_file o) "") ""
   then ret tt
   else
     let path := str_or (log_file o) "" in
     makedirs_dirname path ;;;
     file_handler <- FileHandler_new path ;;
     addHandler lname (file_handler, mkHandler (FileHandler path) DEBUG formatter)) ;;;
  console_handler <- StreamHandler_new ;;
  addHandler lname (console_handler, mkHandler StreamHandler DEBUG formatter).

(** [PostgreSQLLogger._setup_logger] (loggers.py, lines 211-233) *)
Definition PostgreSQLLogger_setup_logger (self : nat) : M unit :=
  o <- get_object self ;;
  let lname := str_or (name o) __name__ in
  getLogger lname ;;;
  update_object self (set_attr_logger lname) ;;;
  setLevel lname DEBUG ;;;
  hs <- handlers_copy lname ;;
  for_each hs (removeHandler lname) ;;;
  let formatter := FormatterLocal in
  db_handler <- loggers_SQLAlchemyLogHandler.__init__ ;;
  addHandler lname (db_handler, mkHandler SQLAlchemyLogHandler DEBUG formatter) ;;;
  console_handler <- StreamHandler_new ;;
  addHandler lname (console_handler, mkHandler StreamHandler INFO formatter).

(** [self._setup_logger()]: the method of the object's class. *)
Definition _setup_logger (self : nat) : M unit :=
  o <- get_object self ;;
  match lo_class o with
  | Logger => Logger_setup_logger self
  | PostgreSQLLogger => PostgreSQLLogger_setup_logger self
  end.

(** [Logger.__init__] (loggers.py, lines 69-78); the object is allocated
    first, as [Logger(...)] does. *)
Definition __init__ (formatter_type : string) (log_file name : option string) : M nat :=
  self <- fresh ;;
  modify (fun w => set_objects
    (<[self := mkLoggerObj Logger log_file name formatter_type ""]> (w_objects w)) w) ;;;
  _setup_logger self ;;;
  ret self.

(** [Logger.set_name] (loggers.py, lines 111-113) *)
Definition set_name (self : nat) (new_name : option string) : M unit :=
  update_object self (set_attr_name new_name) ;;;
  _setup_logger self.

(** Lines 116-128 of [Logger._log]: the caller context is resolved, and a
    closure over it and over the current factory is installed as the
    process-wide record factory.  Returns [old_factory]. *)
Definition _log_install (self : nat) (caller_stack : list Frame) : M Factory :=
  o <- get_object self ;;
  let stack := method_frame "_log" 116 o :: caller_stack in
  exec_info <- lift (loggers_AutoTracker.get_execution_info
                       (own_frame "get_execution_info" 40 ∅ :: stack)) ;;
  old_factory <- getLogRecordFactory ;;
  setLogRecordFactory (record_factory old_factory exec_info) ;;;
  ret old_factory.

(** Line 131 of [Logger._log]: [self._logger.log(level, message, ...)] *)
Definition _log_dispatch (self : nat) (level : Z) (message : string)
    (exc_info : bool) (extra : option PyDict) : M unit :=
  o <- get_object self ;;
  Logger_log emit (_logger o) level message exc_info extra.

(** [Logger._log] (loggers.py, lines 115-134).  [caller_stack] is the stack
    of the calling level method, its own frame first. *)
Definition _log (self : nat) (level : Z) (message : string)
    (exc_info : bool) (extra : option PyDict) (caller_stack : list Frame) : M unit :=
  old_factory <- _log_install self caller_stack ;;
  try_finally
    (_log_dispatch self level message exc_info extra)
    (setLogRecordFactory old_factory).

(** The level methods (loggers.py, lines 136-151), called with the message
    alone: no positional arguments and no keyword arguments of the caller.
    [caller_stack] is the stack of the code that calls the method, the
    calling frame first. *)
Definition debug (self : nat) (message : string) (caller_stack : list Frame) : M unit :=
  o <- get_object self ;;
  _log self DEBUG ("Debug: " ++ message) false None
    (method_frame "debug" 137 o :: caller_stack).

Definition info (self : nat) (message : string) (caller_stack : list Frame) : M unit :=
  o <- get_object self ;;
  _log self INFO ("Info: " ++ message) false None
    (method_frame "info" 140 o :: caller_stack).

Definition warning (self : nat) (message : string) (caller_stack : list Frame) : M unit :=
  o <- get_object self ;;
  _log self WARNING ("Warning: " ++ message) false None
    (method_frame "warning" 143 o :: caller_stack).

Definition error (self : nat) (message : string) (caller_stack : list Frame) : M unit :=
  o <- get_object self ;;
  _log self ERROR ("Error: " ++ message) true None
    (method_frame "error" 146 o :: caller_stack).

Definition critical (self : nat) (message : string) (caller_stack : list Frame) : M unit :=
  o <- get_object self ;;
  _log self CRITICAL ("Critical: " ++ message) true None
    (method_frame "critical" 149 o :: caller_stack).

(** [Logger._close_logger] (loggers.py, lines 153-157); closing a handler
    of these classes changes nothing the model records. *)
Definition _close_logger (self : nat) : M unit :=
  o <- get_object self ;;
  hs <- handlers_copy (_logger o) ;;
  for_each hs (removeHandler (_logger o)).

End loggers_Logger.

Module loggers_PostgreSQLLogger.
Import loggers_Logger.

(** [PostgreSQLLogger.__init__] (loggers.py, lines 198-209) *)
Definition __init__ (name : option string) (formatter_type : string) : M nat :=
  self <- fresh ;;
  modify (fun w => set_objects
    (<[self := mkLoggerObj PostgreSQLLogger None name formatter_type ""]> (w_objects w)) w) ;;;
  _setup_logger self ;;;
  ret self.

(** [PostgreSQLLogger.error] and [critical] (loggers.py, lines 235-239):
    [extra=error_info or {}]. *)
Definition error (self : nat) (message : string) (error_info : option PyDict)
    (caller_stack : list Frame) : M unit :=
  o <- get_object self ;;
  _log self ERROR ("Error: " ++ message) true (Some (default ∅ error_info))
    (method_frame "error" 236 o :: caller_stack).

Definition critical (self : nat) (message : string) (error_info : option PyDict)
    (caller_stack : list Frame) : M unit :=
  o <- get_object self ;;
  _log self CRITICAL ("Critical: " ++ message) true (Some (default ∅ error_info))
    (method_frame "critical" 239 o :: caller_stack).

End loggers_PostgreSQLLogger.

(** ** [logging.py], part 2: [Logger] *)

Module logging_Logger.

Definition __name__ : string := "logger_system.logging".

Definition own_frame (co : string) (line : Z) (locals : PyDict) : Frame :=
  mkFrame co line {["__name__" := PyStr __name__]} locals.

Definition method_frame (co : string) (line : Z) (o : LoggerObj) : Frame :=
  own_frame co line {["self" := PyInst (class_name (lo_class o))]}.

(** [Logger._setup_logger] (logging.py, lines 38-60): one format string,
    the one with the time.  The attribute is called [logger] in this file;
    the model keeps it in the same field. *)
Definition _setup_logger (self : nat) : M unit :=
  o <- get_object self ;;
  let lname := str_or (name o) __name__ in
  getLogger lname ;;;
  update_object self (set_attr_logger lname) ;;;
  setLevel lname DEBUG ;;;
  hs <- handlers_copy lname ;;
  for_each hs (removeHandler lname) ;;;
  let formatter := FormatterLocal in
  (if String.eqb (str_or (log_file o) "") ""
   then ret tt
   else
     let path := str_or (log_file o) "" in
     makedirs_dirname path ;;;
     file_handler <- FileHandler_new path ;;
     addHandler lname (file_handler, mkHandler (FileHandler path) DEBUG formatter)) ;;;
  console_handler <- StreamHandler_new ;;
  addHandler lname (console_handler, mkHandler StreamHandler DEBUG formatter).

(** [Logger.__init__] (logging.py, lines 33-36) *)
Definition __init__ (log_file name : option string) : M nat :=
  self <- fresh ;;
  modify (fun w => set_objects
    (<[self := mkLoggerObj Logger log_file name "local" ""]> (w_objects w)) w) ;;;
  _setup_logger self ;;;
  ret self.

(** [Logger.set_name] (logging.py, lines 62-64) *)
Definition set_name (self : nat) (new_name : option string) : M unit :=
  update_object self (set_attr_name new_name) ;;;
  _setup_logger self.

(** Lines 67-78 of [Logger._log] *)
Definition _log_install (self : nat) (caller_stack : list Frame) : M Factory :=
  o <- get_object self ;;
  let stack := method_frame "_log" 67 o :: caller_stack in
  exec_info <- lift (logging_AutoTracker.get_execution_info
                       (own_frame "get_execution_info" 25 ∅ :: stack)) ;;
  old_factory <- getLogRecordFactory ;;
  setLogRecordFactory (record_factory old_factory exec_info) ;;;
  ret old_factory.

(** Line 81 of [Logger._log] *)
Definition _log_dispatch (self : nat) (level : Z) (message : string)
    (exc_info : bool) (extra : option PyDict) : M unit :=
  o <- get_object self ;;
  Logger_log emit (_logger o) level message exc_info extra.

(** [Logger._log] (logging.py, lines 66-84) *)
Definition _log (self : nat) (level : Z) (message : string)
    (exc_info : bool) (extra : option PyDict) (caller_stack : list Frame) : M unit :=
  old_factory <- _log_install self caller_stack ;;
  try_finally
    (_log_dispatch self level message exc_info extra)
    (setLogRecordFactory old_factory).

(** The level methods (logging.py, lines 86-99) *)
Definition debug (self : nat) (message : string) (caller_stack : list Frame) : M unit :=
  o <- get_object self ;;
  _log self DEBUG ("Debug: " ++ message) false None
    (method_frame "debug" 87 o :: caller_stack).

Definition info (self : nat) (message : string) (caller_stack : list Frame) : M unit :=
  o <- get_object self ;;
  _log self INFO ("Info: " ++ message) false None
    (method_frame "info" 90 o :: caller_stack).

Definition warning (self : nat) (message : string) (caller_stack : list Frame) : M unit :=
  o <- get_object self ;;
  _log self WARNING ("Warning: " ++ message) false None
    (method_frame "warning" 93 o :: caller_stack).

Definition error (self : nat) (message : string) (caller_stack : list Frame) : M unit :=
  o <- get_object self ;;
  _log self ERROR ("Error: " ++ message) true None
    (method_frame "error" 96 o :: caller_stack).

Definition critical (self : nat) (message : string) (caller_stack : list Frame) : M unit :=
  o <- get_object self ;;
  _log self CRITICAL ("Critical: " ++ message) true None
    (method_frame "critical" 99 o :: caller_stack).

End logging_Logger.

(** ** [logging_manager.py] *)

Module logging_manager_LoggerManager.

(** [LoggerManager.get_logger] (logging_manager.py, lines 8-19) *)
Definition get_logger (log_file : string) (formatter_type : string)
    (name : option string) : M nat :=
  _loggers <- gets w_registry ;;
  (match _loggers !! log_file with
   | None =>
       logger <- loggers_Logger.__init__ formatter_type (Some log_file) name ;;
       modify (fun w => set_registry (<[log_file := logger]> (w_registry w)) w)
   | Some logger =>
       loggers_Logger.set_name logger name
   end) ;;;
  _loggers <- gets w_registry ;;
  lift (match _loggers !! log_file with
        | Some logger => Ok logger
        | None => Raise (KeyError log_file)
        end).

(** [logger.logger]: the objects in the registry are [Logger]s of
    loggers.py, whose attribute is [_logger]. *)
Definition getattr_logger (logger : nat) : M string :=
  raise (AttributeError "'Logger' object has no attribute 'logger'").

(** [LoggerManager.close_all_loggers] (logging_manager.py, lines 21-27) *)
Definition close_all_loggers : M unit :=
  _loggers <- gets w_registry ;;
  for_each (map_to_list _loggers).*2 (fun logger =>
    lname <- getattr_logger logger ;;
    hs <- handlers_copy lname ;;
    for_each hs (removeHandler lname)) ;;;
  modify (set_registry ∅).

(** [LoggerManager.close_logger] (logging_manager.py, lines 29-35) *)
Definition close_logger (log_file : string) : M unit :=
  _loggers <- gets w_registry ;;
  match _loggers !! log_file with
  | Some logger =>
      lname <- getattr_logger logger ;;
      hs <- handlers_copy lname ;;
      for_each hs (removeHandler lname) ;;;
      modify (fun w => set_registry (delete log_file (w_registry w)) w)
  | None => ret tt
  end.

End logging_manager_LoggerManager.

(** ** [logging.py], part 3: [CustomException] *)

Module logging_CustomException.

(** The frame of [CustomException.__init__] while it calls [logger.error]
    at line 111: its locals are [self], [message] and [logger]. *)
Definition init_frame (message : string) : Frame :=
  logging_Logger.own_frame "__init__" 111
    (<["self" := PyInst "CustomException"]>
     (<["message" := PyStr message]>
     (<["logger" := PyInst "Logger"]> ∅))).

(** [CustomException.__init__] (logging.py, lines 108-112), which returns
    the new exception object: [Exception.__init__] gets the message, so
    [args] is [(message,)] and [str] gives the message; the exception has not
    been raised yet, so it has no traceback; [logger] is a [Logger] of this
    file; the dictionary of [capture_error] is dropped. *)
Definition __init__ (message : string) (logger : nat) (caller_stack : list Frame)
    : M ErrorObj :=
  let self := mkErrorObj "CustomException" logging_Logger.__name__ (Ok message)
                [PyStr message] None in
  logging_Logger.error logger message (init_frame message :: caller_stack) ;;;
  _ <- logging_ErrorTracker.capture_error self ;;
  ret self.

End logging_CustomException.

(** ** [logging.py], part 4: the finalizer of [Logger] *)

Module logging_Logger_finalizer.

(** [Logger.__del__] (logging.py, lines 101-105), which the interpreter
    runs when the last reference to the object goes away; closing a handler of
    these classes changes nothing the model records. *)
Definition __del__ (self : nat) : M unit :=
  o <- get_object self ;;
  hs <- handlers_copy (_logger o) ;;
  for_each hs (removeHandler (_logger o)).

End logging_Logger_finalizer.

(** ** Vocabulary of the properties *)

Module Spec.

(** The five level methods of a logger. *)
Inductive LevelMethod : Type :=
| m_debug
| m_info
| m_warning
| m_error
| m_critical.

(** [obj.debug(message)], ..., [obj.critical(message)] on an object of
    loggers.py: the method of the object's class.  [PostgreSQLLogger]
    overrides [error] and [critical]; called with the message alone, the
    overrides get [error_info=None]. *)
Definition loggers_call (m : LevelMethod) (self : nat) (message : string)
    (caller_stack : list Frame) : M unit :=
  o <- get_object self ;;
  match lo_class o, m with
  | PostgreSQLLogger, m_error =>
      loggers_PostgreSQLLogger.error self message None caller_stack
  | PostgreSQLLogger, m_critical =>
      loggers_PostgreSQLLogger.critical self message None caller_stack
  | _, m_debug => loggers_Logger.debug self message caller_stack
  | _, m_info => loggers_Logger.info self message caller_stack
  | _, m_warning => loggers_Logger.warning self message caller_stack
  | _, m_error => loggers_Logger.error self message caller_stack
  | _, m_critical => loggers_Logger.critical self message caller_stack
  end.

(** The level method of [Logger] in logging.py. *)
Definition logging_call (m : LevelMethod) : nat -> string -> list Frame -> M unit :=
  match m with
  | m_debug => logging_Logger.debug
  | m_info => logging_Logger.info
  | m_warning => logging_Logger.warning
  | m_error => logging_Logger.error
  | m_critical => logging_Logger.critical
  end.

(** The capitalized level name. *)
Definition capitalized (m : LevelMethod) : string :=
  match m with
  | m_debug => "Debug"
  | m_info => "Info"
  | m_warning => "Warning"
  | m_error => "Error"
  | m_critical => "Critical"
  end.

Definition levelno_of (m : LevelMethod) : Z :=
  match m with
  | m_debug => DEBUG
  | m_info => INFO
  | m_warning => WARNING
  | m_error => ERROR
  | m_critical => CRITICAL
  end.

(** The handlers of a list that take a record of level [lvl]. *)
Definition accepting (lvl : Z) (hs : list (nat * Handler)) : list (nat * Handler) :=
  filter (fun h => (h_level h.2 <= lvl)%Z) hs.

(** The history entries of one record handed to the handlers [hs]. *)
Definition offers (record : LogRecord) (hs : list (nat * Handler)) : list (nat * LogRecord) :=
  (fun h => (h.1, record)) <$> hs.

(** The record carries the context of the frame [caller]. *)
Definition has_context_of (caller : Frame) (r : LogRecord) : Prop :=
  rec_attrs r !! "custom_function" = Some (PyStr (co_name caller)) /\
  rec_attrs r !! "custom_lineno" = Some (PyInt (f_lineno caller)) /\
  rec_attrs r !! "custom_module" = Some (dict_get (f_globals caller) "__name__").

(** What a dispatch leaves alone: the record factory, the loggers, the
    logger objects, the registry and the surroundings. *)
Definition dispatch_frame (w w' : World) : Prop :=
  w_factory w' = w_factory w /\
  w_loggers w' = w_loggers w /\
  w_objects w' = w_objects w /\
  w_registry w' = w_registry w /\
  w_env w' = w_env w.

(** Every closure in the factory holds an [exec_info] with the three
    entries it reads. *)
Fixpoint factory_ok (f : Factory) : Prop :=
  match f with
  | LogRecord_class => True
  | record_factory old_factory exec_info =>
      factory_ok old_factory /\
      is_Some (exec_info !! "function") /\
      is_Some (exec_info !! "lineno") /\
      is_Some (exec_info !! "module")
  end.

(** Whether [emit] of a handler raises for a record: a stream or file
    handler never does; the database handler does when formatting fails or
    the database does not answer. *)
Definition emit_raises (env : Env) (h : Handler) (record : LogRecord) : bool :=
  match h_class h with
  | SQLAlchemyLogHandler =>
      negb (is_ok (format env (h_formatter h) record)) || negb (db_up env)
  | _ => false
  end.

(** The handlers of [hs] that are handed the record, in order: those that
    take its level, up to and including the first whose [emit] raises. *)
Fixpoint offered_to (env : Env) (record : LogRecord) (hs : list (nat * Handler))
    : list (nat * Handler) :=
  match hs with
  | [] => []
  | h :: rest =>
      if Z.leb (h_level h.2) (rec_levelno record)
      then h :: (if emit_raises env h.2 record then [] else offered_to env record rest)
      else offered_to env record rest
  end.

(** The loop body of [callHandlers]. *)
Definition offer (record : LogRecord) (hdlr : nat * Handler) : M unit :=
  if Z.leb (h_level hdlr.2) (rec_levelno record)
  then Handler_handle emit hdlr record
  else ret tt.

(** [Logger.isEnabledFor(level)] as a function of the state. *)
Definition enabled_at (lname : string) (lvl : Z) (w : World) : bool :=
  Z.leb (getEffectiveLevel lname w) lvl.

(** The names of the loggers a record of the logger [lname] can go up to:
    the root logger, which has the empty name and which Python 3.9 and later
    also return for the name ["root"], and the loggers named by a prefix of
    [lname] that ends before one of its dots. *)
Definition above (lname : string) : list string :=
  "" :: "root" :: dot_prefixes lname.

(** None of the loggers above [lname] has a handler. *)
Definition no_handlers_above (lname : string) (w : World) : Prop :=
  forall p, p ∈ above lname -> p <> lname -> lg_handlers (logger_of p w) = [].

(** The same, as a test to run on a given state. *)
Definition no_handlers_above_b (lname : string) (w : World) : bool :=
  forallb (fun p => String.eqb p lname
                    || match lg_handlers (logger_of p w) with
                       | [] => true
                       | _ => false
                       end)
          (above lname).

(** The handlers [hs] are handlers of loggers above [lname]. *)
Definition from_above (lname : string) (w : World) (hs : list (nat * Handler)) : Prop :=
  forall h, h ∈ hs ->
    exists p, p ∈ above lname /\ p <> lname /\ h ∈ lg_handlers (logger_of p w).

(** The handlers of the ancestors of a logger, nearest ancestor first. *)
Definition handlers_above (lname : string) (w : World) : list (nat * Handler) :=
  mjoin ((fun p => lg_handlers (logger_of p w)) <$> ancestors_of lname w).

(** Name, [exc_info] argument and line of the [_log] call of each level
    method, in loggers.py and in logging.py. *)
Definition method_name (m : LevelMethod) : string :=
  match m with
  | m_debug => "debug"
  | m_info => "info"
  | m_warning => "warning"
  | m_error => "error"
  | m_critical => "critical"
  end.

Definition passes_exc_info (m : LevelMethod) : bool :=
  match m with
  | m_error | m_critical => true
  | _ => false
  end.

Definition loggers_line (m : LevelMethod) : Z :=
  match m with
  | m_debug => 137
  | m_info => 140
  | m_warning => 143
  | m_error => 146
  | m_critical => 149
  end.

Definition logging_line (m : LevelMethod) : Z :=
  match m with
  | m_debug => 87
  | m_info => 90
  | m_warning => 93
  | m_error => 96
  | m_critical => 99
  end.

(** What [traceback.format_exception] gives for an exception that was
    constructed and never raised, has no cause, no context and no notes, and
    is not a [SyntaxError]: the final line alone, the name of the class
    (with its module unless that is [builtins] or [__main__]), then a colon
    and the text of the exception when the text is not empty. *)
Definition final_line_only (e : ErrorObj) : Rendered :=
  let cls :=
    (if String.eqb (exc_module e) "builtins" || String.eqb (exc_module e) "__main__"
     then "" else exc_module e ++ ".") ++ exc_type e in
  mkRendered []
    (match exc_str e with
     | Ok text => if String.eqb text "" then cls ++ NL else cls ++ ": " ++ text ++ NL
     | Raise _ => cls ++ ": <exception str() failed>" ++ NL
     end).

(** [str] of a value that is not a string, a number or [None], in the
    examples, none of which converts such a value. *)
Definition text_of_type (v : PyVal) : string := "<" ++ type_name v ++ ">".

(** A running process used in the examples: a clock reading, no exception
    being handled, database and streams working, and only exceptions that
    were never raised. *)
Definition env_up : Env :=
  mkEnv "2024-05-01 12:00:00,000" None true true text_of_type final_line_only.

(** The same surroundings with the database down. *)
Definition env_db_down : Env :=
  mkEnv "2024-05-01 12:00:00,000" None false true text_of_type final_line_only.

(** An application frame: function [handle_request] of module [app.views],
    at line 42. *)
Definition app_frame : Frame :=
  mkFrame "handle_request" 42 {["__name__" := PyStr "app.views"]} ∅.

(** The state after [Logger("local", "logs/app.log", "svc")] in a fresh
    process: object 0 with a file handler 1 and a console handler 2. *)
Definition world_file_logger : World :=
  snd (loggers_Logger.__init__ "local" (Some "logs/app.log") (Some "svc")
         (fresh_world env_up)).

(** The state after [PostgreSQLLogger(base, "db")] in a fresh process, the
    database going down afterwards: object 0 with a database handler 1 and a
    console handler 2. *)
Definition world_db_logger_down : World :=
  set_env env_db_down
    (snd (loggers_PostgreSQLLogger.__init__ (Some "db") "local" (fresh_world env_up))).

(** The dictionary the resolver of loggers.py builds from a frame. *)
Definition context_of (f : Frame) : PyDict :=
  <["function" := PyStr (co_name f)]>
  (<["lineno" := PyInt (f_lineno f)]>
  (<["module" := dict_get (f_globals f) "__name__"]>
  (<["class" := loggers_AutoTracker.class_of_self f]> ∅))).

(** The logger object made by [Logger("local", "logs/app.log", "svc")]. *)
Definition file_logger_object : LoggerObj :=
  mkLoggerObj Logger (Some "logs/app.log") (Some "svc") "local" "svc".

(** Two [debug] calls on two threads, [a.debug(msg_a)] from the stack
    [caller_a] and [b.debug(msg_b)] from the stack [caller_b], interleaved at
    the statement boundaries of [_log] (loggers.py): thread A runs lines
    116-128, thread B runs lines 116-128, then A runs lines 130-134, then B
    does. *)
Definition interleaved_debug (a b : nat) (msg_a msg_b : string)
    (caller_a caller_b : list Frame) : M unit :=
  oa <- get_object a ;;
  ob <- get_object b ;;
  old_a <- loggers_Logger._log_install a
             (loggers_Logger.method_frame "debug" 137 oa :: caller_a) ;;
  old_b <- loggers_Logger._log_install b
             (loggers_Logger.method_frame "debug" 137 ob :: caller_b) ;;
  try_finally (loggers_Logger._log_dispatch a DEBUG ("Debug: " ++ msg_a) false None)
              (setLogRecordFactory old_a) ;;;
  try_finally (loggers_Logger._log_dispatch b DEBUG ("Debug: " ++ msg_b) false None)
              (setLogRecordFactory old_b).

(** A second application frame, for the other thread. *)
Definition worker_frame : Frame :=
  mkFrame "run_job" 7 {["__name__" := PyStr "app.worker"]} ∅.

(** The logger object made by [PostgreSQLLogger(base, "db")]. *)
Definition db_logger_object : LoggerObj :=
  mkLoggerObj PostgreSQLLogger None (Some "db") "local" "db".

(** The handler is of a class of the standard library. *)
Definition is_stdlib_handler (h : nat * Handler) : Prop :=
  h_class h.2 <> SQLAlchemyLogHandler.

(** A record as [info("hello")] from [handle_request] makes it on the
    logger named ["db"]: the three [custom_] attributes and nothing else. *)
Definition info_record : LogRecord :=
  mkLogRecord "db" INFO "INFO" "Info: hello" "2024-05-01 12:00:00,000" None
    (<["custom_function" := PyStr "handle_request"]>
     (<["custom_lineno" := PyInt 42]>
     (<["custom_module" := PyStr "app.views"]> ∅))).

(** The database handler as [PostgreSQLLogger._setup_logger] configures
    it. *)
Definition db_handler : Handler := mkHandler SQLAlchemyLogHandler DEBUG FormatterLocal.

(** The row [SQLAlchemyLogHandler.emit] builds from a record and its
    formatted line. *)
Definition row_of (record : LogRecord) (line : string) : Log :=
  mkLog (PyStr (rec_name record)) (PyStr (rec_levelname record)) (PyStr line)
    (default (PyStr "NA") (rec_attrs record !! "custom_module"))
    (default (PyStr "NA") (rec_attrs record !! "custom_class"))
    (default (PyStr "NA") (rec_attrs record !! "custom_function"))
    (default (PyInt (-1)) (rec_attrs record !! "custom_lineno"))
    (default (PyStr "NA") (rec_attrs record !! "error_type"))
    (default (PyStr "NA") (rec_attrs record !! "error_message"))
    (default (PyStr "NA") (rec_attrs record !! "error_args"))
    (default (PyStr "NA") (rec_attrs record !! "error_traceback")).

(** [ValueError("boom")], constructed and never raised. *)
Definition value_error_never_raised : ErrorObj :=
  mkErrorObj "ValueError" "builtins" (Ok "boom") [PyStr "boom"] None.


(** The value is [None], a string or an integer. *)
Definition plain (v : PyVal) : Prop :=
  match v with
  | PyNone | PyStr _ | PyInt _ => True
  | _ => False
  end.





(** The formatter [Logger._setup_logger] picks for an object. *)
Definition formatter_of (o : LoggerObj) : Formatter :=
  if String.eqb (formatter_type o) "local" then FormatterLocal else FormatterPlain.

(** The handlers [Logger._setup_logger] creates for an object when [n] is
    the next fresh identity: a file handler when the object has a log file,
    and a console handler. *)
Definition provisioned (o : LoggerObj) (n : nat) : list (nat * Handler) :=
  if String.eqb (str_or (log_file o) "") ""
  then [(n, mkHandler StreamHandler DEBUG (formatter_of o))]
  else [(n, mkHandler (FileHandler (str_or (log_file o) "")) DEBUG (formatter_of o));
        (S n, mkHandler StreamHandler DEBUG (formatter_of o))].

(** Whether the file handler of the object can be created: there is no
    log file, or its path has a directory part and the file system works. *)
Definition can_open (o : LoggerObj) (env : Env) : bool :=
  String.eqb (str_or (log_file o) "") ""
  || (has_slash (str_or (log_file o) "") && io_ok env).

(** The state in which [_setup_logger] starts to create handlers: the
    logger of the name is in the table with level [DEBUG] and without
    handlers, and the object's [_logger] refers to it. *)
Definition setup_cleared (lname : string) (self : nat) (w : World) : World :=
  set_loggers (<[lname := mkPyLogger DEBUG []]> (w_loggers w))
    (set_objects (alter (set_attr_logger lname) self (w_objects w)) w).

(** Lines 88-109 of [Logger._setup_logger]: the handlers are created and
    added. *)
Definition Logger_provision (o : LoggerObj) (lname : string) : M unit :=
  (if String.eqb (str_or (log_file o) "") ""
   then ret tt
   else
     makedirs_dirname (str_or (log_file o) "") ;;;
     file_handler <- FileHandler_new (str_or (log_file o) "") ;;
     addHandler lname
       (file_handler,
        mkHandler (FileHandler (str_or (log_file o) "")) DEBUG (formatter_of o))) ;;;
  console_handler <- StreamHandler_new ;;
  addHandler lname (console_handler, mkHandler StreamHandler DEBUG (formatter_of o)).

(** The state after the first [get_logger("logs/app.log", "local", "svc")]
    of a process. *)
Definition world_after_first_lookup : World :=
  snd (logging_manager_LoggerManager.get_logger "logs/app.log" "local" (Some "svc")
         (fresh_world env_up)).

(** The dictionary the resolver of loggers.py returns when it has no frame
    at all. *)
Definition no_context : PyDict :=
  <["function" := PyNone]>
  (<["lineno" := PyNone]>
  (<["module" := PyNone]>
  (<["class" := PyNone]> ∅))).

(** The dictionary the resolver of logging.py builds from a frame. *)
Definition legacy_context_of (f : Frame) : PyDict :=
  <["function" := PyStr (co_name f)]>
  (<["lineno" := PyInt (f_lineno f)]>
  (<["module" := dict_get (f_globals f) "__name__"]> ∅)).

(** The attributes a closure of [_log] leaves on a record: the three
    [custom_] entries, taken from its [exec_info]. *)
Definition custom_attrs (d : PyDict) : PyDict :=
  <["custom_module" := dict_get d "module"]>
  (<["custom_lineno" := dict_get d "lineno"]>
  (<["custom_function" := dict_get d "function"]> ∅)).

(** The attribute names the closures of [_log] write. *)
Definition custom_keys : list string :=
  ["custom_function"; "custom_lineno"; "custom_module"].

(** What the handler loops of a logger leave alone: everything but the
    table of loggers. *)
Definition dispatch_frame_but_loggers (w w' : World) : Prop :=
  w_factory w' = w_factory w /\
  w_objects w' = w_objects w /\
  w_registry w' = w_registry w /\
  w_offered w' = w_offered w /\
  w_output w' = w_output w /\
  w_db w' = w_db w /\
  w_env w' = w_env w.

(** The handlers [PostgreSQLLogger._setup_logger] creates when [n] is the
    next fresh identity: the database handler at [DEBUG] and a console
    handler at [INFO], both with the format that has the time. *)
Definition pg_provisioned (n : nat) : list (nat * Handler) :=
  [(n, mkHandler SQLAlchemyLogHandler DEBUG FormatterLocal);
   (S n, mkHandler StreamHandler INFO FormatterLocal)].

(** Lines 219-233 of [PostgreSQLLogger._setup_logger]: the handlers are
    created and added. *)
Definition PostgreSQLLogger_provision (lname : string) : M unit :=
  db_handler <- loggers_SQLAlchemyLogHandler.__init__ ;;
  addHandler lname (db_handler, mkHandler SQLAlchemyLogHandler DEBUG FormatterLocal) ;;;
  console_handler <- StreamHandler_new ;;
  addHandler lname (console_handler, mkHandler StreamHandler INFO FormatterLocal).

(** The attributes of a record after [makeRecord] has added [extra]. *)
Definition with_extra (extra : option PyDict) (attrs : PyDict) : PyDict :=
  match extra with
  | Some ex => ex ∪ attrs
  | None => attrs
  end.

(** The keys of [extra] that [makeRecord] accepts on a record of the
    facade: none of the attribute names of a [LogRecord], none of the three
    [custom_] names. *)
Definition extra_accepted (extra : option PyDict) : Prop :=
  match extra with
  | Some ex => forall k, is_Some (ex !! k) -> (k ∉ std_record_keys) /\ (k ∉ custom_keys)
  | None => True
  end.

(** The record [_log] makes. *)
Definition facade_record (lname : string) (lvl : Z) (message : string) (exc_info : bool)
    (extra : option PyDict) (d : PyDict) (env : Env) : LogRecord :=
  mkLogRecord lname lvl (getLevelName lvl) message (clock env)
    (if exc_info then Some (handling env) else None)
    (with_extra extra (custom_attrs d)).

(** The record a level method makes for a call from the frame [caller]
    with the message alone: the level of the method, the prefixed message,
    the time of the call, the [exc_info] of [error] and [critical], and the
    context of [caller] as the only added attributes. *)
Definition call_record (o : LoggerObj) (m : LevelMethod) (message : string)
    (caller : Frame) (env : Env) : LogRecord :=
  facade_record (_logger o) (levelno_of m) (capitalized m ++ ": " ++ message)
    (passes_exc_info m) None (context_of caller) env.

(** The line a handler of the package writes for a record of the facade
    whose context is the frame [caller]: with the time in front for the
    formatter of type ["local"], and with the exception text on a second line
    when the level method passes [exc_info]. *)
Definition facade_line (fmt : Formatter) (lname : string) (lvl : Z) (message : string)
    (exc_info : bool) (caller : Frame) (env : Env) : string :=
  let line :=
    (match fmt with
     | FormatterLocal => clock env ++ " - "
     | FormatterPlain => ""
     end)
    ++ lname ++ " - " ++ getLevelName lvl ++ " - " ++ message
    ++ " -> " ++ py_str env (dict_get (f_globals caller) "__name__")
    ++ " - " ++ co_name caller ++ " - " ++ pretty (f_lineno caller) in
  if exc_info then add_exc_text line (formatException env (handling env)) else line.

(** The level methods as a [PostgreSQLLogger] object has them: [debug],
    [info] and [warning] are inherited from [Logger]; [error] and [critical]
    are the overrides, which take [error_info]. *)
Definition postgres_call (m : LevelMethod) (self : nat) (message : string)
    (error_info : option PyDict) (caller_stack : list Frame) : M unit :=
  match m with
  | m_error => loggers_PostgreSQLLogger.error self message error_info caller_stack
  | m_critical => loggers_PostgreSQLLogger.critical self message error_info caller_stack
  | _ => loggers_call m self message caller_stack
  end.

(** Line of the [_log] call and [extra] argument of each of them. *)
Definition postgres_line (m : LevelMethod) : Z :=
  match m with
  | m_error => 236
  | m_critical => 239
  | _ => loggers_line m
  end.

(** The line of the [_log] call in the level method [m] that an object of
    the class has. *)
Definition call_line (c : LoggerClass) (m : LevelMethod) : Z :=
  match c with
  | Logger => loggers_line m
  | PostgreSQLLogger => postgres_line m
  end.

Definition postgres_extra (m : LevelMethod) (error_info : option PyDict) : option PyDict :=
  if passes_exc_info m then Some (default ∅ error_info) else None.


(** The state after [PostgreSQLLogger(base, "db")] in a fresh process
    whose database answers: object 0 with a database handler 1 and a console
    handler 2. *)
Definition world_db_logger : World :=
  snd (loggers_PostgreSQLLogger.__init__ (Some "db") "local" (fresh_world env_up)).

(** What each handler of a list writes for one line. *)
Definition lines_written (line : string) (hs : list (nat * Handler)) : list Output :=
  (fun h => match h_class h.2 with
            | FileHandler path => ToFile path line
            | _ => ToStderr line
            end) <$> hs.

(** What [capture_error] of logging.py and of loggers.py return for
    [ValueError("boom")] in a fresh process. *)
Definition legacy_capture : PyDict :=
  match fst (logging_ErrorTracker.capture_error value_error_never_raised
               (fresh_world env_up)) with
  | Ok d => d
  | Raise _ => ∅
  end.

Definition loggers_capture : PyDict :=
  match fst (loggers_ErrorTracker.capture_error value_error_never_raised
               (fresh_world env_up)) with
  | Ok d => d
  | Raise _ => ∅
  end.



(** The state after [Logger("logs/app.log", "svc")] of logging.py in a
    fresh process: object 0 with a file handler 1 and a console handler 2. *)
Definition world_legacy_logger : World :=
  snd (logging_Logger.__init__ (Some "logs/app.log") (Some "svc") (fresh_world env_up)).

End Spec.
Export Spec.
(** * Properties *)

(** ** Reasoning about effectful code *)

Lemma bind_ok {A B} (m : M A) (k : A -> M B) (w w' : World) (a : A) :
  m w = (Ok a, w') -> bind m k w = k a w'.
Proof. intros H. unfold bind. now rewrite H. Qed.

Lemma bind_raise {A B} (m : M A) (k : A -> M B) (w w' : World) (e : PyExc) :
  m w = (Raise e, w') -> bind m k w = (Raise e, w').
Proof. intros H. unfold bind. now rewrite H. Qed.

Lemma get_object_some (self : nat) (o : LoggerObj) (w : World) :
  w_objects w !! self = Some o -> get_object self w = (Ok o, w).
Proof. intros H. unfold get_object. now rewrite H. Qed.

Lemma get_object_none (self : nat) (w : World) :
  w_objects w !! self = None ->
  get_object self w = (Raise (AttributeError "no such object"), w).
Proof. intros H. unfold get_object. now rewrite H. Qed.

Lemma get_object_world (self : nat) (w : World) : snd (get_object self w) = w.
Proof. unfold get_object. now destruct (w_objects w !! self). Qed.

(** ** The hierarchy of loggers *)

Lemma dot_prefixes_length (s p : string) :
  p ∈ dot_prefixes s -> (String.length p < String.length s)%nat.
Proof.
  revert p. induction s as [|c rest IH]; intros p Hp; simpl in Hp.
  - by apply not_elem_of_nil in Hp.
  - apply elem_of_app in Hp as [Hp|Hp].
    + destruct (Ascii.eqb c "."%char); [|by apply not_elem_of_nil in Hp].
      apply list_elem_of_singleton in Hp as ->. simpl. lia.
    + apply list_elem_of_fmap in Hp as (q & -> & Hq). simpl.
      specialize (IH q Hq). lia.
Qed.

Lemma dot_prefixes_trans (s p q : string) :
  p ∈ dot_prefixes s -> q ∈ dot_prefixes p -> q ∈ dot_prefixes s.
Proof.
  revert p q. induction s as [|c rest IH]; intros p q Hp Hq; simpl in Hp.
  - by apply not_elem_of_nil in Hp.
  - apply elem_of_app in Hp as [Hp|Hp].
    + destruct (Ascii.eqb c "."%char); [|by apply not_elem_of_nil in Hp].
      apply list_elem_of_singleton in Hp as ->. by apply not_elem_of_nil in Hq.
    + apply list_elem_of_fmap in Hp as (p' & -> & Hp'). simpl in Hq. simpl.
      apply elem_of_app in Hq as [Hq|Hq]; apply elem_of_app; [left; exact Hq|right].
      apply list_elem_of_fmap in Hq as (q' & -> & Hq').
      apply list_elem_of_fmap. exists q'. split; [reflexivity|]. eapply IH; eassumption.
Qed.

Lemma tried_after_subset (bound : option nat) (ps : list string) (p : string) :
  p ∈ tried_after bound ps -> p ∈ ps.
Proof.
  revert bound. induction ps as [|x rest IH]; intros bound Hp; simpl in Hp.
  - exact Hp.
  - destruct (_ && _) in Hp.
    + apply elem_of_cons in Hp as [->|Hp]; [left|right; eapply IH; exact Hp].
    + right. eapply IH; exact Hp.
Qed.

(** The parent of a logger is the root logger or is named by a prefix of
    its name that ends before a dot. *)
Lemma parent_of_above (lname p : string) (loggers : gmap string PyLogger) :
  parent_of lname loggers = Some p ->
  lname <> "" /\ (p = "" \/ p ∈ dot_prefixes lname).
Proof.
  unfold parent_of. destruct (String.eqb lname "") eqn:E; [discriminate|].
  intros [= <-]. split; [intros ->; discriminate|].
  destruct (head _) as [x|] eqn:Hh; [right|left; reflexivity]. simpl.
  apply head_Some_elem_of in Hh. apply list_elem_of_filter in Hh as [_ Hx].
  apply tried_after_subset in Hx. now rewrite elem_of_reverse in Hx.
Qed.

Lemma ancestors_above (fuel : nat) (lname p : string) (loggers : gmap string PyLogger) :
  p ∈ ancestors fuel lname loggers ->
  lname <> "" /\ (p = "" \/ p ∈ dot_prefixes lname).
Proof.
  revert lname. induction fuel as [|fuel IH]; intros lname Hp; simpl in Hp.
  - by apply not_elem_of_nil in Hp.
  - destruct (parent_of lname loggers) as [q|] eqn:Hq; [|by apply not_elem_of_nil in Hp].
    apply parent_of_above in Hq as [Hne Hq]. split; [exact Hne|].
    apply elem_of_cons in Hp as [->|Hp]; [exact Hq|].
    apply IH in Hp as [_ [->|Hp]]; [left; reflexivity|].
    destruct Hq as [->|Hq]; [by apply not_elem_of_nil in Hp|].
    right. eapply dot_prefixes_trans; eassumption.
Qed.

(** Every ancestor of a logger is one of the loggers [above] it, and is
    not the logger itself. *)
Lemma ancestors_of_above (lname p : string) (w : World) :
  p ∈ ancestors_of lname w -> p ∈ above lname /\ p <> lname.
Proof.
  intros Hp. apply ancestors_above in Hp as [Hne [->|Hp]].
  - split; [left|congruence].
  - split; [right; right; exact Hp|].
    apply dot_prefixes_length in Hp. intros ->. lia.
Qed.

Lemma handlers_in_reach_split (lname : string) (w : World) :
  handlers_in_reach lname w
    = (lg_handlers (logger_of lname w) ++ handlers_above lname w)%list.
Proof. reflexivity. Qed.

Lemma handlers_above_from_above (lname : string) (w : World) :
  from_above lname w (handlers_above lname w).
Proof.
  intros h Hh. unfold handlers_above in Hh.
  apply list_elem_of_join in Hh as (l & Hh & Hl).
  apply list_elem_of_fmap in Hl as (p & -> & Hp).
  apply ancestors_of_above in Hp as [Hp Hne]. eauto.
Qed.

(** When no logger above has a handler, a record of the logger goes to the
    logger's own handlers and to no other. *)
Lemma handlers_above_none (lname : string) (w : World) :
  no_handlers_above lname w -> handlers_above lname w = [].
Proof.
  intros Hno. destruct (handlers_above lname w) as [|h rest] eqn:E; [reflexivity|].
  destruct (handlers_above_from_above lname w h) as (p & Hp & Hne & Hh).
  { rewrite E. left. }
  rewrite (Hno p Hp Hne) in Hh. by apply not_elem_of_nil in Hh.
Qed.

Lemma handlers_in_reach_own (lname : string) (w : World) :
  no_handlers_above lname w ->
  handlers_in_reach lname w = lg_handlers (logger_of lname w).
Proof.
  intros Hno. rewrite handlers_in_reach_split, handlers_above_none by exact Hno.
  apply app_nil_r.
Qed.

Lemma from_above_none (lname : string) (w : World) (hs : list (nat * Handler)) :
  no_handlers_above lname w -> from_above lname w hs -> hs = [].
Proof.
  intros Hno Hfrom. destruct hs as [|h rest]; [reflexivity|].
  destruct (Hfrom h) as (p & Hp & Hne & Hh); [left|].
  rewrite (Hno p Hp Hne) in Hh. by apply not_elem_of_nil in Hh.
Qed.

(** A logger that has a level of its own is enabled by that level alone. *)
Lemma getEffectiveLevel_own (lname : string) (w : World) :
  lg_level (logger_of lname w) <> NOTSET ->
  getEffectiveLevel lname w = lg_level (logger_of lname w).
Proof.
  intros Hl. unfold getEffectiveLevel. rewrite fmap_cons, filter_cons_True by exact Hl.
  reflexivity.
Qed.

Lemma enabled_at_own (lname : string) (lvl : Z) (w : World) :
  lg_level (logger_of lname w) <> NOTSET ->
  enabled_at lname lvl w = Z.leb (lg_level (logger_of lname w)) lvl.
Proof. intros Hl. unfold enabled_at. now rewrite getEffectiveLevel_own. Qed.

Lemma enabled_at_DEBUG (lname : string) (lvl : Z) (hs : list (nat * Handler)) (w : World) :
  logger_of lname w = mkPyLogger DEBUG hs ->
  enabled_at lname lvl w = Z.leb DEBUG lvl.
Proof.
  intros Hlg. rewrite enabled_at_own; rewrite Hlg; [reflexivity|discriminate].
Qed.

(** ** The caller-context resolver on arbitrary stacks *)

(** The frame the loop of loggers.py ends on, spelled out by the depth of
    the stack: the fourth frame when there is one, otherwise the outermost
    frame, and no frame only when there is no stack at all. *)
Lemma traverse_3 (stack : list Frame) :
  loggers_AutoTracker.traverse 3 stack stack =
    match stack with
    | _ :: _ :: _ :: f3 :: rest => f3 :: rest
    | [_; _; f2] => [f2]
    | [_; f1] => [f1]
    | [f0] => [f0]
    | [] => []
    end.
Proof.
  destruct stack as [|f0 [|f1 [|f2 [|f3 rest]]]]; reflexivity.
Qed.

(** The resolver of loggers.py returns a dictionary with the four keys on
    every stack, the empty one included. *)
Lemma loggers_get_execution_info_total (stack : list Frame) :
  exists d,
    loggers_AutoTracker.get_execution_info stack = Ok d /\
    dom d = ({["function"; "lineno"; "module"; "class"]} : gset string).
Proof.
  unfold loggers_AutoTracker.get_execution_info, currentframe.
  destruct (loggers_AutoTracker.traverse 3 stack stack) as [|f ?];
    eexists; (split; [reflexivity|]); rewrite !dom_insert_L, dom_empty_L; set_solver.
Qed.

(** On a stack shallower than the three skipped frames the resolver of
    loggers.py reports the outermost frame: every entry is filled from
    it. *)
Lemma loggers_get_execution_info_shallow (f0 f1 : Frame) :
  loggers_AutoTracker.get_execution_info [f0; f1] =
    Ok (<["function" := PyStr (co_name f1)]>
        (<["lineno" := PyInt (f_lineno f1)]>
        (<["module" := dict_get (f_globals f1) "__name__"]>
        (<["class" := loggers_AutoTracker.class_of_self f1]> ∅)))).
Proof. reflexivity. Qed.

(** The resolver of logging.py returns exactly when the stack holds the
    three skipped frames and a fourth one. *)
Lemma logging_get_execution_info_ok_iff (stack : list Frame) :
  is_ok (logging_AutoTracker.get_execution_info stack) = true <->
  (4 <= length stack)%nat.
Proof.
  destruct stack as [|f0 [|f1 [|f2 [|f3 rest]]]]; simpl; split; intros H;
    try discriminate; try lia; reflexivity.
Qed.

(** C2, at the failing input: [get_execution_info] of logging.py called
    from module level (its own frame and the module's frame are the whole
    stack) raises [AttributeError] instead of returning a context. *)
Lemma logging_get_execution_info_raises_on_shallow_stack :
  logging_AutoTracker.get_execution_info
    [ logging_Logger.own_frame "get_execution_info" 25 ∅;
      mkFrame "<module>" 3 {["__name__" := PyStr "__main__"]} ∅ ]
  = Raise (AttributeError "'NoneType' object has no attribute 'f_back'").
Proof. reflexivity. Qed.

(** On the stack of a direct call (resolver, [_log], level method, caller)
    the resolver of loggers.py reports the caller's frame. *)
Lemma loggers_get_execution_info_caller (ge lg lv caller : Frame) (rest : list Frame) :
  loggers_AutoTracker.get_execution_info (ge :: lg :: lv :: caller :: rest) =
    Ok (<["function" := PyStr (co_name caller)]>
        (<["lineno" := PyInt (f_lineno caller)]>
        (<["module" := dict_get (f_globals caller) "__name__"]>
        (<["class" := loggers_AutoTracker.class_of_self caller]> ∅)))).
Proof. reflexivity. Qed.

Lemma logging_get_execution_info_caller (ge lg lv caller : Frame) (rest : list Frame) :
  logging_AutoTracker.get_execution_info (ge :: lg :: lv :: caller :: rest) =
    Ok (<["function" := PyStr (co_name caller)]>
        (<["lineno" := PyInt (f_lineno caller)]>
        (<["module" := dict_get (f_globals caller) "__name__"]> ∅))).
Proof. reflexivity. Qed.

(** ** Records and the factory *)

Lemma call_factory_fields (f : Factory) (lname : string) (lvl : Z) (msg : string)
    (ei : option (option ErrorObj)) (created : string) (r : LogRecord) :
  call_factory f lname lvl msg ei created = Ok r ->
  rec_name r = lname /\ rec_levelno r = lvl /\ rec_levelname r = getLevelName lvl /\
  rec_msg r = msg /\ rec_created r = created /\ rec_exc_info r = ei.
Proof.
  revert r. induction f as [|old IH info]; intros r; simpl.
  - intros [= <-]. simpl. repeat split.
  - destruct (call_factory old lname lvl msg ei created) as [r0|e]; simpl; [|discriminate].
    destruct (dict_index info "function") as [fn|]; simpl; [|discriminate].
    destruct (dict_index info "lineno") as [ln|]; simpl; [|discriminate].
    destruct (dict_index info "module") as [md|]; simpl; [|discriminate].
    intros [= <-]. simpl. now apply IH.
Qed.

Lemma dict_index_ok (d : PyDict) (k : string) (v : PyVal) :
  dict_index d k = Ok v <-> d !! k = Some v.
Proof.
  unfold dict_index. destruct (d !! k); split; intros H; congruence.
Qed.

(** A record made by a closure carries the three entries of the closure's
    [exec_info], whatever the factory it wraps has set. *)
Lemma call_factory_closure (old : Factory) (info : PyDict) (lname : string) (lvl : Z)
    (msg : string) (ei : option (option ErrorObj)) (created : string) (r : LogRecord) :
  call_factory (record_factory old info) lname lvl msg ei created = Ok r ->
  rec_attrs r !! "custom_function" = info !! "function" /\
  rec_attrs r !! "custom_lineno" = info !! "lineno" /\
  rec_attrs r !! "custom_module" = info !! "module".
Proof.
  simpl.
  destruct (call_factory old lname lvl msg ei created) as [r0|e]; simpl; [|discriminate].
  destruct (dict_index info "function") as [fn|] eqn:Hf; simpl; [|discriminate].
  destruct (dict_index info "lineno") as [ln|] eqn:Hl; simpl; [|discriminate].
  destruct (dict_index info "module") as [md|] eqn:Hm; simpl; [|discriminate].
  intros [= <-]. simpl.
  apply dict_index_ok in Hf, Hl, Hm. rewrite Hf, Hl, Hm.
  repeat split; by simplify_map_eq.
Qed.

(** A factory whose closures are well formed always makes a record. *)
Lemma call_factory_ok (f : Factory) (lname : string) (lvl : Z) (msg : string)
    (ei : option (option ErrorObj)) (created : string) :
  factory_ok f -> exists r, call_factory f lname lvl msg ei created = Ok r.
Proof.
  induction f as [|old IH info]; simpl.
  - eauto.
  - intros (Hold & [fn Hf] & [ln Hl] & [md Hm]).
    destruct (IH Hold) as [r0 ->]. simpl.
    unfold dict_index. rewrite Hf, Hl, Hm. simpl. eauto.
Qed.


Ltac unfold_m :=
  unfold getLogRecordFactory, setLogRecordFactory in *;
  unfold bind, ret, raise, lift, gets, modify, try_except, try_finally, fresh in *;
  cbn beta iota in *.

(** [makeRecord] reads the state and leaves it as it is. *)
Lemma makeRecord_world (lname : string) (lvl : Z) (msg : string)
    (ei : option (option ErrorObj)) (extra : option PyDict) (w : World) :
  snd (makeRecord lname lvl msg ei extra w) = w.
Proof.
  unfold makeRecord. unfold_m.
  destruct (call_factory _ _ _ _ _ _); simpl; [|reflexivity].
  destruct extra as [extra|]; [|reflexivity].
  destruct (filter _ _); reflexivity.
Qed.



(** ** Dispatch to the handlers *)

Lemma dispatch_frame_refl (w : World) : dispatch_frame w w.
Proof. repeat split. Qed.

Lemma dispatch_frame_trans (w1 w2 w3 : World) :
  dispatch_frame w1 w2 -> dispatch_frame w2 w3 -> dispatch_frame w1 w3.
Proof.
  unfold dispatch_frame. intros (?&?&?&?&?) (?&?&?&?&?).
  repeat split; congruence.
Qed.

(** [StreamHandler.emit] never raises: what goes wrong inside it ends in
    [handleError]. *)
Lemma StreamHandler_emit_ok (hid : nat) (h : Handler) (record : LogRecord) (w : World) :
  fst (StreamHandler_emit hid h record w) = Ok tt.
Proof.
  unfold StreamHandler_emit, write, handleError. unfold_m.
  destruct (format _ _ _); simpl; [|reflexivity].
  destruct (io_ok _); reflexivity.
Qed.

Lemma StreamHandler_emit_frame (hid : nat) (h : Handler) (record : LogRecord) (w : World) :
  dispatch_frame w (snd (StreamHandler_emit hid h record w)) /\
  w_offered (snd (StreamHandler_emit hid h record w)) = w_offered w.
Proof.
  unfold StreamHandler_emit, write, handleError. unfold_m.
  destruct (format _ _ _); simpl; [|repeat split].
  destruct (io_ok _); simpl; repeat split.
Qed.

Lemma store_log_frame (a b c d e f g h i j k : PyVal) (w : World) :
  dispatch_frame w (snd (loggers_SQLAlchemyLogHandler.store_log a b c d e f g h i j k w)) /\
  w_offered (snd (loggers_SQLAlchemyLogHandler.store_log a b c d e f g h i j k w))
    = w_offered w.
Proof.
  unfold loggers_SQLAlchemyLogHandler.store_log, Session_new, Session_add,
    Session_commit, Session_close. unfold_m. simpl.
  destruct (db_up (w_env w)); simpl; repeat split.
Qed.

(** [SQLAlchemyLogHandler.emit] formats the record and, when that works,
    stores the row. *)
Lemma db_emit_unfold (h : Handler) (record : LogRecord) (w : World) :
  loggers_SQLAlchemyLogHandler.emit h record w =
    match format (w_env w) (h_formatter h) record with
    | Ok log_entry =>
        loggers_SQLAlchemyLogHandler.store_log
          (PyStr (rec_name record)) (PyStr (rec_levelname record)) (PyStr log_entry)
          (rec_getattr record "custom_module" (PyStr "NA"))
          (rec_getattr record "custom_class" (PyStr "NA"))
          (rec_getattr record "custom_function" (PyStr "NA"))
          (rec_getattr record "custom_lineno" (PyInt (-1)))
          (rec_getattr record "error_type" (PyStr "NA"))
          (rec_getattr record "error_message" (PyStr "NA"))
          (rec_getattr record "error_args" (PyStr "NA"))
          (rec_getattr record "error_traceback" (PyStr "NA")) w
    | Raise e => (Raise e, w)
    end.
Proof.
  unfold loggers_SQLAlchemyLogHandler.emit.
  unfold bind at 1. unfold gets at 1. unfold bind at 1. unfold lift at 1.
  destruct (format _ _ _); reflexivity.
Qed.

Lemma emit_frame (hid : nat) (h : Handler) (record : LogRecord) (w : World) :
  dispatch_frame w (snd (emit hid h record w)) /\
  w_offered (snd (emit hid h record w)) = w_offered w.
Proof.
  unfold emit. destruct (h_class h); try apply StreamHandler_emit_frame.
  rewrite db_emit_unfold.
  destruct (format _ _ _); [apply store_log_frame|].
  simpl. split; [apply dispatch_frame_refl|reflexivity].
Qed.

(** Whether [emit] raises depends on the handler, the record and the
    surroundings only. *)
Lemma emit_is_ok (hid : nat) (h : Handler) (record : LogRecord) (w : World) :
  is_ok (fst (emit hid h record w)) = negb (emit_raises (w_env w) h record).
Proof.
  unfold emit, emit_raises.
  destruct (h_class h); try (rewrite StreamHandler_emit_ok; reflexivity).
  rewrite db_emit_unfold.
  destruct (format _ _ _); [|reflexivity].
  unfold loggers_SQLAlchemyLogHandler.store_log, Session_new, Session_add,
    Session_commit, Session_close. unfold_m. simpl.
  destruct (db_up (w_env w)); reflexivity.
Qed.

Lemma for_each_cons {A} (body : A -> M unit) (x : A) (rest : list A) (w : World) :
  for_each (x :: rest) body w =
    match body x w with
    | (Ok _, w') => for_each rest body w'
    | (Raise e, w') => (Raise e, w')
    end.
Proof. reflexivity. Qed.

Lemma offer_unfold (record : LogRecord) (h : nat * Handler) (w : World) :
  offer record h w =
    if Z.leb (h_level h.2) (rec_levelno record)
    then emit h.1 h.2 record (set_offered (w_offered w ++ [(h.1, record)]) w)
    else (Ok tt, w).
Proof.
  unfold offer. destruct (Z.leb _ _); reflexivity.
Qed.

(** The loop of [callHandlers]: which handlers are handed the record, and
    whether the loop ends normally. *)
Lemma for_each_offer (record : LogRecord) (hs : list (nat * Handler)) (w : World) :
  dispatch_frame w (snd (for_each hs (offer record) w)) /\
  w_offered (snd (for_each hs (offer record) w))
    = (w_offered w ++ offers record (offered_to (w_env w) record hs))%list /\
  is_ok (fst (for_each hs (offer record) w)) =
    forallb (fun h => negb (emit_raises (w_env w) h.2 record))
            (offered_to (w_env w) record hs).
Proof.
  revert w. induction hs as [|h rest IH]; intros w.
  - simpl. split; [apply dispatch_frame_refl|]. split; [|reflexivity].
    unfold offers. simpl. now rewrite app_nil_r.
  - rewrite for_each_cons, offer_unfold. simpl offered_to.
    destruct (Z.leb (h_level h.2) (rec_levelno record)) eqn:Hlvl.
    + set (w1 := set_offered (w_offered w ++ [(h.1, record)]) w).
      pose proof (emit_frame h.1 h.2 record w1) as [Hfr Hoff].
      pose proof (emit_is_ok h.1 h.2 record w1) as Hok.
      destruct (emit h.1 h.2 record w1) as [[[]|e] w2] eqn:Hemit; simpl in Hfr, Hoff, Hok.
      * assert (Henv : w_env w2 = w_env w) by (destruct Hfr as (_&_&_&_&->); reflexivity).
        specialize (IH w2). destruct IH as (IHfr & IHoff & IHok).
        rewrite Henv in IHoff, IHok.
        destruct (emit_raises (w_env w) h.2 record) eqn:Hr; [discriminate|].
        split; [|split].
        -- eapply dispatch_frame_trans; [|exact IHfr].
           eapply dispatch_frame_trans; [|exact Hfr]. repeat split.
        -- rewrite IHoff, Hoff. unfold offers. simpl. now rewrite <- app_assoc.
        -- simpl. rewrite Hr. exact IHok.
      * destruct (emit_raises (w_env w) h.2 record) eqn:Hr; [|discriminate].
        split; [|split].
        -- eapply dispatch_frame_trans; [|exact Hfr]. repeat split.
        -- simpl. rewrite Hoff. reflexivity.
        -- simpl. now rewrite Hr.
    + apply IH.
Qed.

(** [callHandlers] by cases: without any handler in reach the record goes
    to [logging.lastResort] when its level is [WARNING] or above; otherwise it
    goes through the handlers in reach. *)
Lemma callHandlers_unfold (lname : string) (record : LogRecord) (w : World) :
  callHandlers emit lname record w =
    match handlers_in_reach lname w with
    | [] =>
        if Z.leb WARNING (rec_levelno record)
        then (Ok tt,
              set_output
                (w_output w ++
                 [if io_ok (w_env w)
                  then ToStderr (default_format (w_env w) record)
                  else HandleError 0 (OSError "write failed")]) w)
        else (Ok tt, w)
    | hs => for_each hs (offer record) w
    end.
Proof.
  unfold callHandlers. unfold bind at 1. unfold gets at 1.
  destruct (handlers_in_reach lname w) as [|h rest]; [|reflexivity].
  destruct (Z.leb WARNING (rec_levelno record)); [|reflexivity].
  unfold write, handleError. unfold_m.
  destruct (io_ok (w_env w)); reflexivity.
Qed.

(** [callHandlers]: the handlers that are handed the record are those of
    the logger and of its ancestors, as far as [offered_to] goes. *)
Lemma callHandlers_spec (lname : string) (record : LogRecord) (w : World) :
  let hs := handlers_in_reach lname w in
  dispatch_frame w (snd (callHandlers emit lname record w)) /\
  w_offered (snd (callHandlers emit lname record w))
    = (w_offered w ++ offers record (offered_to (w_env w) record hs))%list /\
  is_ok (fst (callHandlers emit lname record w)) =
    forallb (fun h => negb (emit_raises (w_env w) h.2 record))
            (offered_to (w_env w) record hs).
Proof.
  intros hs. rewrite callHandlers_unfold.
  fold hs. destruct hs as [|h rest] eqn:Hhs.
  - simpl offered_to. unfold offers. simpl. rewrite app_nil_r.
    destruct (Z.leb WARNING (rec_levelno record)); simpl; repeat split.
  - apply (for_each_offer record (h :: rest) w).
Qed.

Lemma Logger_log_unfold (lname : string) (lvl : Z) (msg : string) (exc_info : bool)
    (extra : option PyDict) (w : World) :
  Logger_log emit lname lvl msg exc_info extra w =
    if enabled_at lname lvl w
    then match makeRecord lname lvl msg
                 (if exc_info then Some (handling (w_env w)) else None) extra w with
         | (Ok r, w1) => callHandlers emit lname r w1
         | (Raise e, w1) => (Raise e, w1)
         end
    else (Ok tt, w).
Proof.
  unfold Logger_log, isEnabledFor, enabled_at. unfold bind at 1. unfold gets at 1.
  destruct (Z.leb _ lvl); reflexivity.
Qed.

(** [logger.log]: the state outside the history and the outputs is left
    alone; every record handed to a handler is the one [makeRecord] returns
    in the state of the call; and when the logger is enabled for the level
    and the record is made, it goes to the handlers as [callHandlers]
    says. *)
Lemma Logger_log_spec (lname : string) (lvl : Z) (msg : string) (exc_info : bool)
    (extra : option PyDict) (w : World) :
  let ei := if exc_info then Some (handling (w_env w)) else None in
  let hs := handlers_in_reach lname w in
  let res := Logger_log emit lname lvl msg exc_info extra w in
  dispatch_frame w (snd res) /\
  (exists new, w_offered (snd res) = (w_offered w ++ new)%list /\
     forall x, x ∈ new -> fst (makeRecord lname lvl msg ei extra w) = Ok x.2) /\
  (forall r,
     enabled_at lname lvl w = true ->
     fst (makeRecord lname lvl msg ei extra w) = Ok r ->
     w_offered (snd res) = (w_offered w ++ offers r (offered_to (w_env w) r hs))%list /\
     is_ok (fst res) =
       forallb (fun h => negb (emit_raises (w_env w) h.2 r))
               (offered_to (w_env w) r hs)).
Proof.
  intros ei hs res. subst res. rewrite Logger_log_unfold. fold ei.
  destruct (enabled_at lname lvl w) eqn:Hen.
  - pose proof (makeRecord_world lname lvl msg ei extra w) as Hw.
    destruct (makeRecord lname lvl msg ei extra w) as [[r|e] w1] eqn:Hmk;
      simpl in Hw; subst w1.
    + destruct (callHandlers_spec lname r w) as (Hfr & Hoff & Hok). fold hs in Hoff, Hok.
      split; [exact Hfr|]. split.
      * eexists. split; [exact Hoff|].
        intros x Hx. unfold offers in Hx. apply list_elem_of_fmap in Hx.
        destruct Hx as (h & -> & _). reflexivity.
      * intros r' _ [= <-]. split; assumption.
    + simpl. split; [apply dispatch_frame_refl|]. split.
      * exists []. rewrite app_nil_r. split; [reflexivity|].
        intros x Hx. by apply not_elem_of_nil in Hx.
      * intros r' _ [=].
  - simpl. split; [apply dispatch_frame_refl|]. split.
    + exists []. rewrite app_nil_r. split; [reflexivity|].
      intros x Hx. by apply not_elem_of_nil in Hx.
    + intros r' [=].
Qed.

(** ** [_log] and the level methods *)

(** [Logger._log] of loggers.py on an existing object, step by step: the
    resolver runs on the stack of [_log]; the closure is installed; the
    dispatch runs in that state; the old factory is put back. *)
Lemma loggers_log_unfold (self : nat) (o : LoggerObj) (lvl : Z) (message : string)
    (exc_info : bool) (extra : option PyDict) (stack : list Frame) (w : World) :
  w_objects w !! self = Some o ->
  loggers_Logger._log self lvl message exc_info extra stack w =
    match loggers_AutoTracker.get_execution_info
            (loggers_Logger.own_frame "get_execution_info" 40 ∅
               :: loggers_Logger.method_frame "_log" 116 o :: stack) with
    | Ok exec_info =>
        let w1 := set_factory (record_factory (w_factory w) exec_info) w in
        let res := Logger_log emit (_logger o) lvl message exc_info extra w1 in
        (fst res, set_factory (w_factory w) (snd res))
    | Raise e => (Raise e, w)
    end.
Proof.
  intros Ho.
  unfold loggers_Logger._log, loggers_Logger._log_install, loggers_Logger._log_dispatch.
  unfold bind at 1 2. rewrite (get_object_some _ _ _ Ho).
  unfold bind at 1. unfold lift at 1.
  destruct (loggers_AutoTracker.get_execution_info _) as [d|e]; [|reflexivity].
  unfold_m.
  rewrite (get_object_some self o (set_factory _ w)) by exact Ho.
  destruct (Logger_log emit _ _ _ _ _ _) as [r w2]. reflexivity.
Qed.

Lemma logging_log_unfold (self : nat) (o : LoggerObj) (lvl : Z) (message : string)
    (exc_info : bool) (extra : option PyDict) (stack : list Frame) (w : World) :
  w_objects w !! self = Some o ->
  logging_Logger._log self lvl message exc_info extra stack w =
    match logging_AutoTracker.get_execution_info
            (logging_Logger.own_frame "get_execution_info" 25 ∅
               :: logging_Logger.method_frame "_log" 67 o :: stack) with
    | Ok exec_info =>
        let w1 := set_factory (record_factory (w_factory w) exec_info) w in
        let res := Logger_log emit (_logger o) lvl message exc_info extra w1 in
        (fst res, set_factory (w_factory w) (snd res))
    | Raise e => (Raise e, w)
    end.
Proof.
  intros Ho.
  unfold logging_Logger._log, logging_Logger._log_install, logging_Logger._log_dispatch.
  unfold bind at 1 2. rewrite (get_object_some _ _ _ Ho).
  unfold bind at 1. unfold lift at 1.
  destruct (logging_AutoTracker.get_execution_info _) as [d|e]; [|reflexivity].
  unfold_m.
  rewrite (get_object_some self o (set_factory _ w)) by exact Ho.
  destruct (Logger_log emit _ _ _ _ _ _) as [r w2]. reflexivity.
Qed.

(** On a missing object [_log] raises at once and changes nothing. *)
Lemma loggers_log_missing (self : nat) (lvl : Z) (message : string)
    (exc_info : bool) (extra : option PyDict) (stack : list Frame) (w : World) :
  w_objects w !! self = None ->
  snd (loggers_Logger._log self lvl message exc_info extra stack w) = w.
Proof.
  intros Ho.
  unfold loggers_Logger._log, loggers_Logger._log_install.
  unfold bind at 1 2. now rewrite (get_object_none _ _ Ho).
Qed.

Lemma logging_log_missing (self : nat) (lvl : Z) (message : string)
    (exc_info : bool) (extra : option PyDict) (stack : list Frame) (w : World) :
  w_objects w !! self = None ->
  snd (logging_Logger._log self lvl message exc_info extra stack w) = w.
Proof.
  intros Ho.
  unfold logging_Logger._log, logging_Logger._log_install.
  unfold bind at 1 2. now rewrite (get_object_none _ _ Ho).
Qed.

Lemma loggers_log_missing_eq (self : nat) (lvl : Z) (message : string)
    (exc_info : bool) (extra : option PyDict) (stack : list Frame) (w : World) :
  w_objects w !! self = None ->
  loggers_Logger._log self lvl message exc_info extra stack w
    = (Raise (AttributeError "no such object"), w).
Proof.
  intros Ho.
  unfold loggers_Logger._log, loggers_Logger._log_install.
  unfold bind at 1 2. now rewrite (get_object_none _ _ Ho).
Qed.

(** An empty [extra] adds nothing to the record. *)
Lemma makeRecord_empty_extra (lname : string) (lvl : Z) (msg : string)
    (ei : option (option ErrorObj)) (w : World) :
  makeRecord lname lvl msg ei (Some ∅) w = makeRecord lname lvl msg ei None w.
Proof.
  unfold makeRecord. unfold_m.
  destruct (call_factory _ _ _ _ _ _) as [rv|e]; [|reflexivity].
  rewrite map_to_list_empty. cbn [filter list_filter].
  rewrite (left_id_L ∅ (∪)). destruct rv; reflexivity.
Qed.

Lemma Logger_log_empty_extra (lname : string) (lvl : Z) (msg : string) (exc_info : bool)
    (w : World) :
  Logger_log emit lname lvl msg exc_info (Some ∅) w
    = Logger_log emit lname lvl msg exc_info None w.
Proof.
  rewrite !Logger_log_unfold. destruct (enabled_at lname lvl w); [|reflexivity].
  now rewrite makeRecord_empty_extra.
Qed.

Lemma loggers_log_empty_extra (self : nat) (lvl : Z) (message : string)
    (exc_info : bool) (stack : list Frame) (w : World) :
  loggers_Logger._log self lvl message exc_info (Some ∅) stack w
    = loggers_Logger._log self lvl message exc_info None stack w.
Proof.
  destruct (w_objects w !! self) as [o|] eqn:Ho.
  - rewrite !(loggers_log_unfold _ _ _ _ _ _ _ _ Ho).
    destruct (loggers_AutoTracker.get_execution_info _); [|reflexivity].
    cbv zeta. now rewrite Logger_log_empty_extra.
  - now rewrite !loggers_log_missing_eq.
Qed.

(** Each level method is [_log] with its level, the prefixed message and
    its own frame pushed on the caller's stack; the empty [extra] that the
    overrides of [PostgreSQLLogger] pass when they get no [error_info] is as
    good as none. *)
Lemma loggers_call_unfold (m : LevelMethod) (self : nat) (o : LoggerObj)
    (message : string) (caller_stack : list Frame) (w : World) :
  w_objects w !! self = Some o ->
  loggers_call m self message caller_stack w =
    loggers_Logger._log self (levelno_of m) (capitalized m ++ ": " ++ message)
      (passes_exc_info m) None
      (loggers_Logger.method_frame (method_name m) (call_line (lo_class o) m) o
         :: caller_stack) w.
Proof.
  intros Ho. unfold loggers_call.
  unfold bind at 1. rewrite (get_object_some _ _ _ Ho).
  destruct (lo_class o), m; cbn [call_line postgres_line loggers_line];
    unfold loggers_Logger.debug, loggers_Logger.info, loggers_Logger.warning,
      loggers_Logger.error, loggers_Logger.critical,
      loggers_PostgreSQLLogger.error, loggers_PostgreSQLLogger.critical;
    unfold bind at 1; rewrite (get_object_some _ _ _ Ho);
    cbn [default]; rewrite ?loggers_log_empty_extra; reflexivity.
Qed.

Lemma logging_call_unfold (m : LevelMethod) (self : nat) (o : LoggerObj)
    (message : string) (caller_stack : list Frame) (w : World) :
  w_objects w !! self = Some o ->
  logging_call m self message caller_stack w =
    logging_Logger._log self (levelno_of m) (capitalized m ++ ": " ++ message)
      (passes_exc_info m) None
      (logging_Logger.method_frame (method_name m) (logging_line m) o :: caller_stack) w.
Proof.
  intros Ho.
  destruct m; simpl;
    unfold logging_Logger.debug, logging_Logger.info, logging_Logger.warning,
      logging_Logger.error, logging_Logger.critical;
    unfold bind at 1; rewrite (get_object_some _ _ _ Ho); reflexivity.
Qed.

Lemma loggers_call_missing (m : LevelMethod) (self : nat)
    (message : string) (caller_stack : list Frame) (w : World) :
  w_objects w !! self = None ->
  snd (loggers_call m self message caller_stack w) = w.
Proof.
  intros Ho. unfold loggers_call.
  unfold bind at 1. now rewrite (get_object_none _ _ Ho).
Qed.

Lemma logging_call_missing (m : LevelMethod) (self : nat)
    (message : string) (caller_stack : list Frame) (w : World) :
  w_objects w !! self = None ->
  snd (logging_call m self message caller_stack w) = w.
Proof.
  intros Ho.
  destruct m; simpl;
    unfold logging_Logger.debug, logging_Logger.info, logging_Logger.warning,
      logging_Logger.error, logging_Logger.critical;
    unfold bind at 1; rewrite (get_object_none _ _ Ho); reflexivity.
Qed.

(** ** The record of a facade call *)

Lemma loggers_exec_info_keys (stack : list Frame) (d : PyDict) :
  loggers_AutoTracker.get_execution_info stack = Ok d ->
  is_Some (d !! "function") /\ is_Some (d !! "lineno") /\ is_Some (d !! "module").
Proof.
  intros Hd.
  destruct (loggers_get_execution_info_total stack) as (d' & Hd' & Hdom).
  rewrite Hd in Hd'. injection Hd' as <-.
  repeat split; apply elem_of_dom; rewrite Hdom; set_solver.
Qed.


Lemma is_ok_unit (r : PyResult unit) : is_ok r = true -> r = Ok tt.
Proof. destruct r as [[]|]; [reflexivity|discriminate]. Qed.


Lemma is_not_ok (A : Type) (r : PyResult A) : is_ok r = false -> exists e, r = Raise e.
Proof. destruct r; [discriminate|eauto]. Qed.


Lemma makeRecord_no_extra (lname : string) (lvl : Z) (msg : string)
    (ei : option (option ErrorObj)) (w : World) :
  makeRecord lname lvl msg ei None w =
    (call_factory (w_factory w) lname lvl msg ei (clock (w_env w)), w).
Proof.
  unfold makeRecord. unfold_m.
  destruct (call_factory _ _ _ _ _ _); reflexivity.
Qed.


Lemma context_of_entries (f : Frame) :
  context_of f !! "function" = Some (PyStr (co_name f)) /\
  context_of f !! "lineno" = Some (PyInt (f_lineno f)) /\
  context_of f !! "module" = Some (dict_get (f_globals f) "__name__").
Proof. unfold context_of. repeat split; by simplify_map_eq. Qed.


Lemma filter_none {A} (P : A -> Prop) `{!forall x, Decision (P x)} (l : list A) :
  (forall x, x ∈ l -> ~ P x) -> filter P l = [].
Proof.
  induction l as [|x l IH]; intros HP; [reflexivity|].
  rewrite filter_cons_False by (apply HP; left).
  apply IH. intros y Hy. apply HP. now right.
Qed.


(** The factories of the process add no attribute but the three [custom_]
    ones. *)
Lemma call_factory_only_custom (f : Factory) (lname : string) (lvl : Z) (msg : string)
    (ei : option (option ErrorObj)) (created : string) (r : LogRecord) (k : string) :
  call_factory f lname lvl msg ei created = Ok r ->
  k ∉ custom_keys -> rec_attrs r !! k = None.
Proof.
  revert r. induction f as [|old IH info]; intros r; simpl.
  - intros [= <-] _. apply lookup_empty.
  - destruct (call_factory old lname lvl msg ei created) as [r0|e]; simpl; [|discriminate].
    destruct (dict_index info "function") as [fn|]; simpl; [|discriminate].
    destruct (dict_index info "lineno") as [ln|]; simpl; [|discriminate].
    destruct (dict_index info "module") as [md|]; simpl; [|discriminate].
    intros [= <-] Hk. simpl. pose proof Hk as Hk'.
    unfold custom_keys in Hk'. rewrite !not_elem_of_cons in Hk'.
    destruct Hk' as (H1 & H2 & H3 & _).
    rewrite !lookup_insert_ne by congruence. now apply IH.
Qed.


(** A record made by a closure has exactly the three [custom_] attributes
    of the closure, whatever the factory under it is. *)
Lemma call_factory_closure_attrs (old : Factory) (info : PyDict) (lname : string)
    (lvl : Z) (msg : string) (ei : option (option ErrorObj)) (created : string)
    (r : LogRecord) :
  call_factory (record_factory old info) lname lvl msg ei created = Ok r ->
  rec_attrs r = custom_attrs info.
Proof.
  intros Hr.
  destruct (call_factory_closure _ _ _ _ _ _ _ _ Hr) as (H1 & H2 & H3).
  assert (Hkeys : is_Some (info !! "function") /\ is_Some (info !! "lineno")
                  /\ is_Some (info !! "module")).
  { simpl in Hr.
    destruct (call_factory old lname lvl msg ei created); simpl in Hr; [|discriminate].
    unfold dict_index in Hr.
    destruct (info !! "function"); simpl in Hr; [|discriminate].
    destruct (info !! "lineno"); simpl in Hr; [|discriminate].
    destruct (info !! "module"); simpl in Hr; [|discriminate].
    eauto. }
  destruct Hkeys as ([fn Hfn] & [ln Hln] & [md Hmd]).
  apply map_eq. intros k. unfold custom_attrs, dict_get.
  rewrite Hfn, Hln, Hmd. simpl.
  destruct (decide (k = "custom_module")) as [->|?];
    [rewrite H3, Hmd; by simplify_map_eq|].
  destruct (decide (k = "custom_lineno")) as [->|?];
    [rewrite H2, Hln; by simplify_map_eq|].
  destruct (decide (k = "custom_function")) as [->|?];
    [rewrite H1, Hfn; by simplify_map_eq|].
  rewrite !lookup_insert_ne by congruence. rewrite lookup_empty.
  apply (call_factory_only_custom _ _ _ _ _ _ _ _ Hr).
  unfold custom_keys. rewrite !not_elem_of_cons. repeat split; try congruence.
  apply not_elem_of_nil.
Qed.


Ltac not_custom_key :=
  unfold custom_keys; rewrite !not_elem_of_cons;
  repeat split; try discriminate; apply not_elem_of_nil.


Lemma custom_attrs_keys (d : PyDict) (k : string) :
  is_Some (custom_attrs d !! k) -> k ∈ custom_keys.
Proof.
  unfold custom_attrs, custom_keys. intros [v Hv].
  destruct (decide (k = "custom_module")) as [->|?]; [set_solver|].
  destruct (decide (k = "custom_lineno")) as [->|?]; [set_solver|].
  destruct (decide (k = "custom_function")) as [->|?]; [set_solver|].
  rewrite !lookup_insert_ne in Hv by congruence. by rewrite lookup_empty in Hv.
Qed.


(** [makeRecord] while a closure of [_log] is installed: the record is the
    closure's, with the accepted [extra] added. *)
Lemma makeRecord_facade (lname : string) (lvl : Z) (message : string) (exc_info : bool)
    (extra : option PyDict) (d : PyDict) (old : Factory) (w : World) :
  w_factory w = record_factory old d ->
  factory_ok old ->
  is_Some (d !! "function") -> is_Some (d !! "lineno") -> is_Some (d !! "module") ->
  extra_accepted extra ->
  makeRecord lname lvl message
    (if exc_info then Some (handling (w_env w)) else None) extra w
  = (Ok (facade_record lname lvl message exc_info extra d (w_env w)), w).
Proof.
  intros Hw Hold Hfn Hln Hmd Hex.
  destruct (call_factory_ok (record_factory old d) lname lvl message
              (if exc_info then Some (handling (w_env w)) else None)
              (clock (w_env w))) as [r0 Hr0].
  { simpl. auto. }
  destruct (call_factory_fields _ _ _ _ _ _ _ Hr0) as (F1 & F2 & F3 & F4 & F5 & F6).
  pose proof (call_factory_closure_attrs _ _ _ _ _ _ _ _ Hr0) as F7.
  unfold makeRecord. unfold_m. rewrite Hw, Hr0.
  destruct extra as [ex|].
  - rewrite filter_none.
    + unfold facade_record, with_extra. rewrite F1, F2, F3, F4, F5, F6, F7. reflexivity.
    + intros [k v] Hin [Hstd|Hattr]; simpl in *.
      * apply elem_of_map_to_list in Hin.
        destruct (Hex k) as [Hn _]; [eauto|]. contradiction.
      * apply elem_of_map_to_list in Hin.
        destruct (Hex k) as [_ Hn]; [eauto|].
        rewrite F7 in Hattr. apply custom_attrs_keys in Hattr. contradiction.
  - unfold facade_record, with_extra. destruct r0. simpl in *. subst. reflexivity.
Qed.


(** [_log] of loggers.py on an existing object whose logger is enabled, in
    a process whose factory is well formed, with an accepted [extra]: the call
    is [callHandlers] on the record of the facade, between the installation
    of the closure and the restoration of the factory. *)
Lemma loggers_log_eq (self : nat) (o : LoggerObj) (lvl : Z) (message : string)
    (exc_info : bool) (extra : option PyDict) (stack : list Frame) (w : World)
    (d : PyDict) :
  w_objects w !! self = Some o ->
  enabled_at (_logger o) lvl w = true ->
  factory_ok (w_factory w) ->
  extra_accepted extra ->
  loggers_AutoTracker.get_execution_info
    (loggers_Logger.own_frame "get_execution_info" 40 ∅
       :: loggers_Logger.method_frame "_log" 116 o :: stack) = Ok d ->
  loggers_Logger._log self lvl message exc_info extra stack w =
    let r := facade_record (_logger o) lvl message exc_info extra d (w_env w) in
    let res := callHandlers emit (_logger o) r
                 (set_factory (record_factory (w_factory w) d) w) in
    (fst res, set_factory (w_factory w) (snd res)).
Proof.
  intros Ho Hen Hfac Hex Hd.
  rewrite (loggers_log_unfold _ _ _ _ _ _ _ _ Ho). rewrite Hd. cbv zeta.
  set (w1 := set_factory (record_factory (w_factory w) d) w).
  rewrite Logger_log_unfold.
  change (enabled_at (_logger o) lvl w1) with (enabled_at (_logger o) lvl w).
  rewrite Hen.
  destruct (loggers_exec_info_keys _ _ Hd) as (Hfn & Hln & Hmd).
  rewrite (makeRecord_facade (_logger o) lvl message exc_info extra d (w_factory w) w1
             eq_refl Hfac Hfn Hln Hmd Hex).
  reflexivity.
Qed.


Lemma with_extra_custom (extra : option PyDict) (d : PyDict) (k : string) :
  extra_accepted extra -> k ∈ custom_keys ->
  with_extra extra (custom_attrs d) !! k = custom_attrs d !! k.
Proof.
  intros Hex Hk. destruct extra as [ex|]; [|reflexivity]. simpl.
  destruct (ex !! k) as [v|] eqn:He.
  - destruct (Hex k) as [_ Hn]; [eauto|]. contradiction.
  - now rewrite lookup_union_r.
Qed.



Lemma append_assoc (a b c : string) : (a ++ b) ++ c = a ++ (b ++ c).
Proof.
  induction a as [|x a IH]; [reflexivity|].
  change (String x ((a ++ b) ++ c) = String x (a ++ (b ++ c))). now rewrite IH.
Qed.


Lemma custom_attrs_legacy (f : Frame) :
  custom_attrs (legacy_context_of f) = custom_attrs (context_of f).
Proof.
  unfold custom_attrs, legacy_context_of, context_of, dict_get.
  by simplify_map_eq.
Qed.


(** [_log] of logging.py when called by a level method (frame [lv]) that
    was called from [caller]. *)
Lemma logging_log_eq (self : nat) (o : LoggerObj) (lvl : Z) (message : string)
    (exc_info : bool) (extra : option PyDict) (lv caller : Frame) (rest : list Frame)
    (w : World) :
  w_objects w !! self = Some o ->
  enabled_at (_logger o) lvl w = true ->
  factory_ok (w_factory w) ->
  extra_accepted extra ->
  logging_Logger._log self lvl message exc_info extra (lv :: caller :: rest) w =
    let r := facade_record (_logger o) lvl message exc_info extra (context_of caller)
               (w_env w) in
    let res := callHandlers emit (_logger o) r
                 (set_factory (record_factory (w_factory w) (legacy_context_of caller)) w) in
    (fst res, set_factory (w_factory w) (snd res)).
Proof.
  intros Ho Hen Hfac Hex.
  rewrite (logging_log_unfold _ _ _ _ _ _ _ _ Ho).
  rewrite logging_get_execution_info_caller. fold (legacy_context_of caller). cbv zeta.
  set (w1 := set_factory (record_factory (w_factory w) (legacy_context_of caller)) w).
  rewrite Logger_log_unfold.
  change (enabled_at (_logger o) lvl w1) with (enabled_at (_logger o) lvl w).
  rewrite Hen.
  rewrite (makeRecord_facade (_logger o) lvl message exc_info extra
             (legacy_context_of caller) (w_factory w) w1 eq_refl Hfac).
  - unfold facade_record. rewrite custom_attrs_legacy. reflexivity.
  - unfold legacy_context_of. rewrite lookup_insert_eq. eauto.
  - unfold legacy_context_of. rewrite lookup_insert_ne by discriminate.
    rewrite lookup_insert_eq. eauto.
  - unfold legacy_context_of. rewrite !lookup_insert_ne by discriminate.
    rewrite lookup_insert_eq. eauto.
  - exact Hex.
Qed.


Lemma no_handlers_above_check (lname : string) (w : World) :
  no_handlers_above_b lname w = true -> no_handlers_above lname w.
Proof.
  unfold no_handlers_above_b. rewrite forallb_forall.
  intros H p Hp Hne. apply list_elem_of_In in Hp. specialize (H p Hp).
  apply orb_true_iff in H as [H|H].
  - apply String.eqb_eq in H. contradiction.
  - now destruct (lg_handlers (logger_of p w)).
Qed.

(** ** A level method, from the call to the handlers *)

(** A level method of loggers.py called from the frame [caller], on an
    object whose logger is enabled for the level, in a process whose factory
    is well formed: the call is [callHandlers] on the record of the call,
    between the installation of the closure and the restoration of the
    factory. *)
Lemma loggers_call_dispatch (m : LevelMethod) (self : nat) (o : LoggerObj)
    (message : string) (caller : Frame) (rest : list Frame) (w : World) :
  w_objects w !! self = Some o ->
  enabled_at (_logger o) (levelno_of m) w = true ->
  factory_ok (w_factory w) ->
  loggers_call m self message (caller :: rest) w =
    let res := callHandlers emit (_logger o) (call_record o m message caller (w_env w))
                 (set_factory (record_factory (w_factory w) (context_of caller)) w) in
    (fst res, set_factory (w_factory w) (snd res)).
Proof.
  intros Ho Hen Hfac. rewrite (loggers_call_unfold _ _ _ _ _ _ Ho).
  rewrite (loggers_log_eq self o _ _ _ None _ w (context_of caller) Ho Hen Hfac I).
  - reflexivity.
  - apply loggers_get_execution_info_caller.
Qed.

Lemma logging_call_dispatch (m : LevelMethod) (self : nat) (o : LoggerObj)
    (message : string) (caller : Frame) (rest : list Frame) (w : World) :
  w_objects w !! self = Some o ->
  enabled_at (_logger o) (levelno_of m) w = true ->
  factory_ok (w_factory w) ->
  logging_call m self message (caller :: rest) w =
    let res := callHandlers emit (_logger o) (call_record o m message caller (w_env w))
                 (set_factory (record_factory (w_factory w) (legacy_context_of caller)) w) in
    (fst res, set_factory (w_factory w) (snd res)).
Proof.
  intros Ho Hen Hfac. rewrite (logging_call_unfold _ _ _ _ _ _ Ho).
  rewrite (logging_log_eq self o _ _ _ None _ caller rest w Ho Hen Hfac I).
  reflexivity.
Qed.


(** What holds of the loggers above a logger holds as long as no other
    logger changes. *)
Lemma no_handlers_above_preserved (lname : string) (w w' : World) :
  (forall p, p <> lname -> logger_of p w' = logger_of p w) ->
  no_handlers_above lname w -> no_handlers_above lname w'.
Proof.
  intros Hsame Hno p Hp Hne. rewrite Hsame by exact Hne. now apply Hno.
Qed.

(** [callHandlers] of a facade call when no logger above has a handler:
    the record goes to the handlers of the logger and to no other. *)
Lemma callHandlers_own (lname : string) (r : LogRecord) (f : Factory) (w : World) :
  no_handlers_above lname w ->
  let res := callHandlers emit lname r (set_factory f w) in
  let hs := lg_handlers (logger_of lname w) in
  w_offered (snd res) = (w_offered w ++ offers r (offered_to (w_env w) r hs))%list /\
  is_ok (fst res)
    = forallb (fun h => negb (emit_raises (w_env w) h.2 r)) (offered_to (w_env w) r hs).
Proof.
  intros Hno res hs.
  destruct (callHandlers_spec lname r (set_factory f w)) as (_ & Hoff & Hok).
  rewrite (handlers_in_reach_own lname (set_factory f w) Hno) in Hoff, Hok.
  split; [exact Hoff|exact Hok].
Qed.
(** ** The record of a call and where it goes *)

Lemma call_record_context (o : LoggerObj) (m : LevelMethod) (message : string)
    (caller : Frame) (env : Env) :
  has_context_of caller (call_record o m message caller env).
Proof.
  unfold has_context_of, call_record, facade_record, with_extra, custom_attrs,
    context_of, dict_get. cbn [rec_attrs].
  repeat split; by simplify_map_eq.
Qed.

(** The worlds of the examples have no handler above their loggers. *)
Lemma world_file_logger_alone : no_handlers_above "svc" world_file_logger.
Proof. apply no_handlers_above_check. vm_compute. reflexivity. Qed.

Lemma world_db_logger_down_alone : no_handlers_above "db" world_db_logger_down.
Proof. apply no_handlers_above_check. vm_compute. reflexivity. Qed.


(** ** The message text of the records (C10) *)



(** A run of [debug("hello")] on a logger with a file and a console sink:
    both sinks are handed a record, with the same prefixed text, and both
    write it. *)
Example debug_hello_reaches_both_sinks :
  let res := loggers_Logger.debug 0 "hello" [app_frame] world_file_logger in
  fst res = Ok tt /\
  (fun x => (x.1, rec_msg x.2)) <$> w_offered (snd res)
    = [(1%nat, "Debug: hello"); (2%nat, "Debug: hello")] /\
  w_output (snd res) =
    [ ToFile "logs/app.log"
        "2024-05-01 12:00:00,000 - svc - DEBUG - Debug: hello -> app.views - handle_request - 42";
      ToStderr
        "2024-05-01 12:00:00,000 - svc - DEBUG - Debug: hello -> app.views - handle_request - 42" ].
Proof. vm_compute. repeat split. Qed.


(** ** The caller context of a direct call (C1) *)

(** C1, as the code has it.  For each level method of an object of
    loggers.py called directly from an application frame [caller], by a call
    that no other log call of the process is interleaved with, on a logger
    that is enabled for the level and with a well-formed record factory: the
    resolver, running under [_log] and the level method, skips exactly its
    own frame, the frame of [_log] and the frame of the level method and
    returns the entries of [caller] (function name, line of the call, module
    name); the record the call makes carries these three values; and this
    record is what the handlers of the logger, and then handlers of loggers
    above it, are handed; afterwards the record factory is as before. *)
Theorem direct_call_resolves_the_caller (m : LevelMethod) (self : nat) (o : LoggerObj)
    (message : string) (caller : Frame) (rest : list Frame) (w : World) :
  w_objects w !! self = Some o ->
  enabled_at (_logger o) (levelno_of m) w = true ->
  factory_ok (w_factory w) ->
  let res := loggers_call m self message (caller :: rest) w in
  let r := call_record o m message caller (w_env w) in
  let own := lg_handlers (logger_of (_logger o) w) in
  loggers_AutoTracker.get_execution_info
    (loggers_Logger.own_frame "get_execution_info" 40 ∅
       :: loggers_Logger.method_frame "_log" 116 o
       :: loggers_Logger.method_frame (method_name m) (call_line (lo_class o) m) o
       :: caller :: rest) = Ok (context_of caller) /\
  has_context_of caller r /\
  (exists up,
     from_above (_logger o) w up /\
     w_offered (snd res)
       = (w_offered w ++ offers r (offered_to (w_env w) r (own ++ up)))%list) /\
  w_factory (snd res) = w_factory w.
Proof.
  intros Ho Hen Hfac res r own. subst res.
  split; [reflexivity|]. split; [apply call_record_context|].
  rewrite (loggers_call_dispatch _ _ _ _ _ _ _ Ho Hen Hfac). cbv zeta.
  split; [|reflexivity].
  exists (handlers_above (_logger o) w).
  split; [apply handlers_above_from_above|].
  destruct (callHandlers_spec (_logger o) r
              (set_factory (record_factory (w_factory w) (context_of caller)) w))
    as (_ & Hoff & _).
  exact Hoff.
Qed.

(** C1 at a concrete call: [debug("hello")] from [handle_request] (module
    [app.views], line 42) on the logger with a file and a console sink: both
    sinks are handed a record with the context of [handle_request]. *)
Lemma direct_call_resolves_the_caller_witness :
  (fun x => (x.1, rec_attrs x.2 !! "custom_function", rec_attrs x.2 !! "custom_lineno",
             rec_attrs x.2 !! "custom_module"))
    <$> w_offered (snd (loggers_call m_debug 0 "hello" [app_frame] world_file_logger))
  = [ (1%nat, Some (PyStr "handle_request"), Some (PyInt 42), Some (PyStr "app.views"));
      (2%nat, Some (PyStr "handle_request"), Some (PyInt 42), Some (PyStr "app.views")) ].
Proof.
  destruct (direct_call_resolves_the_caller m_debug 0 file_logger_object "hello"
              app_frame [] world_file_logger)
    as (_ & _ & (up & Hfrom & Hoff) & _).
  - vm_compute. reflexivity.
  - vm_compute. reflexivity.
  - vm_compute. exact I.
  - apply (from_above_none _ _ _ world_file_logger_alone) in Hfrom. subst up.
    rewrite Hoff. vm_compute. reflexivity.
Defined.

(** C1 fails on the code when two calls are interleaved.  [debug("first")]
    is called from [handle_request] and, on another thread, [debug("second")]
    from [run_job]; the second call runs its lines 116-128 between line 128
    and line 131 of the first.  The record of the first call, the one with the
    text ["Debug: first"], is made by the closure of the second call: the
    context it carries to the file sink is that of [run_job], not that of
    [handle_request]. *)
Lemma interleaved_call_carries_the_other_callers_context :
  let res := interleaved_debug 0 0 "first" "second" [app_frame] [worker_frame]
               world_file_logger in
  exists r tail,
    w_offered (snd res) = (1%nat, r) :: tail /\
    rec_msg r = "Debug: first" /\
    has_context_of worker_frame r /\
    ~ has_context_of app_frame r.
Proof.
  intros res.
  assert (H : exists r tail,
            w_offered (snd res) = (1%nat, r) :: tail /\
            (rec_msg r, rec_attrs r !! "custom_function", rec_attrs r !! "custom_lineno",
             rec_attrs r !! "custom_module")
            = ("Debug: first", Some (PyStr "run_job"), Some (PyInt 7),
               Some (PyStr "app.worker"))).
  { vm_compute. eexists _, _. split; reflexivity. }
  destruct H as (r & tail & Hoff & Hr). injection Hr as Hmsg Hfn Hln Hmd.
  exists r, tail. split; [exact Hoff|]. split; [exact Hmsg|]. split.
  - unfold has_context_of. rewrite Hfn, Hln, Hmd. repeat split.
  - intros (Hfn' & _). rewrite Hfn in Hfn'. discriminate Hfn'.
Qed.

(** ** The process-wide record factory (C3) *)





(** ** Failing sinks (C9) *)

Lemma emit_raises_only_db (env : Env) (h : Handler) (r : LogRecord) :
  emit_raises env h r = true -> h_class h = SQLAlchemyLogHandler.
Proof. unfold emit_raises. destruct (h_class h); intros H; congruence. Qed.

Lemma emit_raises_db_down (env : Env) (h : Handler) (r : LogRecord) :
  h_class h = SQLAlchemyLogHandler -> db_up env = false -> emit_raises env h r = true.
Proof.
  intros Hc Hdb. unfold emit_raises. rewrite Hc, Hdb. simpl. apply orb_true_r.
Qed.

Lemma accepting_cons (lvl : Z) (h : nat * Handler) (hs : list (nat * Handler)) :
  accepting lvl (h :: hs) =
    if Z.leb (h_level h.2) lvl then h :: accepting lvl hs else accepting lvl hs.
Proof.
  unfold accepting. destruct (Z.leb_spec (h_level h.2) lvl) as [Hle|Hgt].
  - now rewrite filter_cons_True.
  - rewrite filter_cons_False; [reflexivity|lia].
Qed.

(** Handlers of the standard library only: every handler that takes the
    level is handed the record, and none raises. *)
Lemma offered_to_stdlib (env : Env) (r : LogRecord) (hs : list (nat * Handler)) :
  Forall is_stdlib_handler hs ->
  offered_to env r hs = accepting (rec_levelno r) hs /\
  forallb (fun h => negb (emit_raises env h.2 r)) (offered_to env r hs) = true.
Proof.
  induction 1 as [|h hs Hh _ [IH1 IH2]]; [split; reflexivity|].
  simpl offered_to. rewrite accepting_cons.
  destruct (Z.leb (h_level h.2) (rec_levelno r)); [|now split].
  destruct (emit_raises env h.2 r) eqn:Hr.
  - apply emit_raises_only_db in Hr. contradiction.
  - split; [now rewrite IH1|]. simpl. now rewrite Hr.
Qed.

(** A handler that raises, after handlers of the standard library: it is
    the last one handed the record. *)
Lemma offered_to_cut (env : Env) (r : LogRecord) (pre post : list (nat * Handler))
    (h : nat * Handler) :
  Forall is_stdlib_handler pre ->
  (h_level h.2 <= rec_levelno r)%Z ->
  emit_raises env h.2 r = true ->
  offered_to env r (pre ++ h :: post) = (accepting (rec_levelno r) pre ++ [h])%list /\
  forallb (fun h => negb (emit_raises env h.2 r)) (offered_to env r (pre ++ h :: post))
    = false.
Proof.
  intros Hpre Hlvl Hr. apply Z.leb_le in Hlvl.
  induction Hpre as [|p pre Hp _ [IH1 IH2]].
  - simpl. rewrite Hlvl, Hr. split; [reflexivity|]. simpl. now rewrite Hr.
  - simpl app. simpl offered_to. rewrite accepting_cons.
    destruct (Z.leb (h_level p.2) (rec_levelno r)); [|now split].
    destruct (emit_raises env p.2 r) eqn:Hrp.
    + apply emit_raises_only_db in Hrp. contradiction.
    + split; [now rewrite IH1|]. simpl. now rewrite Hrp.
Qed.

(** C9, as the code has it.  For a level method of an object of loggers.py
    called from a frame [caller], on an enabled logger and with a well-formed
    record factory, the record of the call goes to the handlers of the logger
    and then to handlers of loggers above it, and
    (1) when all these handlers are of the standard library (console, file),
    the call returns normally and every handler that takes the level is handed
    the record, whatever fails inside a handler;
    (2) when a database handler that takes the level stands after handlers
    of the standard library and the database is down, the call raises to its
    caller, and the handlers handed the record are those before the database
    handler and the database handler itself: no handler after it. *)
Theorem sink_failure_isolated_only_in_stdlib_handlers (m : LevelMethod) (self : nat)
    (o : LoggerObj) (message : string) (caller : Frame) (rest : list Frame) (w : World) :
  w_objects w !! self = Some o ->
  enabled_at (_logger o) (levelno_of m) w = true ->
  factory_ok (w_factory w) ->
  let res := loggers_call m self message (caller :: rest) w in
  let r := call_record o m message caller (w_env w) in
  exists up,
    from_above (_logger o) w up /\
    let hs := (lg_handlers (logger_of (_logger o) w) ++ up)%list in
    (Forall is_stdlib_handler hs ->
     fst res = Ok tt /\
     w_offered (snd res) = (w_offered w ++ offers r (accepting (levelno_of m) hs))%list) /\
    (forall pre h post,
       hs = (pre ++ h :: post)%list ->
       Forall is_stdlib_handler pre ->
       h_class h.2 = SQLAlchemyLogHandler ->
       (h_level h.2 <= levelno_of m)%Z ->
       db_up (w_env w) = false ->
       (exists e, fst res = Raise e) /\
       w_offered (snd res)
         = (w_offered w ++ offers r (accepting (levelno_of m) pre ++ [h]))%list).
Proof.
  intros Ho Hen Hfac res r. subst res.
  rewrite (loggers_call_dispatch _ _ _ _ _ _ _ Ho Hen Hfac). cbv zeta. fold r.
  set (w1 := set_factory (record_factory (w_factory w) (context_of caller)) w).
  destruct (callHandlers_spec (_logger o) r w1) as (_ & Hoff & Hok).
  exists (handlers_above (_logger o) w).
  split; [apply handlers_above_from_above|].
  change (handlers_in_reach (_logger o) w1)
    with (lg_handlers (logger_of (_logger o) w) ++ handlers_above (_logger o) w)%list
    in Hoff, Hok.
  change (w_env w1) with (w_env w) in Hoff, Hok.
  change (w_offered w1) with (w_offered w) in Hoff.
  cbn [fst snd].
  change (w_offered (set_factory (w_factory w) (snd (callHandlers emit (_logger o) r w1))))
    with (w_offered (snd (callHandlers emit (_logger o) r w1))).
  split.
  - intros Hstd.
    destruct (offered_to_stdlib (w_env w) r _ Hstd) as [Hacc Hall].
    rewrite Hall in Hok. rewrite Hacc in Hoff.
    split; [now apply is_ok_unit|exact Hoff].
  - intros pre h post Hhs Hpre Hcls Hle Hdown.
    assert (Hraises : emit_raises (w_env w) h.2 r = true)
      by (apply emit_raises_db_down; assumption).
    destruct (offered_to_cut (w_env w) r pre post h Hpre Hle Hraises) as [Hcut Hall].
    rewrite Hhs in Hoff, Hok. rewrite Hall in Hok. rewrite Hcut in Hoff.
    split; [now apply is_not_ok|exact Hoff].
Qed.

(** C9 at a concrete call: [info("hello")] on a [PostgreSQLLogger] whose
    database is down: the call raises, and only the database handler is
    handed the record. *)
Lemma sink_failure_isolated_only_in_stdlib_handlers_witness :
  (exists e, fst (loggers_call m_info 0 "hello" [app_frame] world_db_logger_down)
             = Raise e) /\
  (w_offered (snd (loggers_call m_info 0 "hello" [app_frame] world_db_logger_down))).*1
    = [1%nat].
Proof.
  destruct (sink_failure_isolated_only_in_stdlib_handlers m_info 0 db_logger_object
              "hello" app_frame [] world_db_logger_down) as (up & Hfrom & _ & H).
  - vm_compute. reflexivity.
  - vm_compute. reflexivity.
  - vm_compute. exact I.
  - apply (from_above_none _ _ _ world_db_logger_down_alone) in Hfrom. subst up.
    destruct (H [] (1%nat, mkHandler SQLAlchemyLogHandler DEBUG FormatterLocal)
                [(2%nat, mkHandler StreamHandler INFO FormatterLocal)])
      as [Hres Hoff].
    + vm_compute. reflexivity.
    + constructor.
    + reflexivity.
    + vm_compute. discriminate.
    + reflexivity.
    + split; [exact Hres|]. rewrite Hoff. vm_compute. reflexivity.
Defined.

(** C9 fails on the code.  [info("hello")] on a [PostgreSQLLogger] whose
    database is down: the failure of the database sink's commit leaves
    [info] as an exception, and the console sink, attached after the
    database sink and set to take [INFO], is never handed the record and
    writes nothing. *)
Lemma db_sink_failure_reaches_the_caller :
  let res := loggers_call m_info 0 "hello" [app_frame] world_db_logger_down in
  (lg_handlers (logger_of "db" world_db_logger_down)).*1 = [1%nat; 2%nat] /\
  fst res = Raise (DBError "commit failed") /\
  (w_offered (snd res)).*1 = [1%nat] /\
  w_output (snd res) = [].
Proof. vm_compute. repeat split. Qed.

(** ** The database sink (C4, C5) *)

(** While the database answers, [store_log] ends normally and the row is
    in storage. *)
Lemma store_log_stores
    (name_logger level message module classname func_name lineno
     error_type error_message error_args error_traceback : PyVal) (w : World) :
  db_up (w_env w) = true ->
  let res := loggers_SQLAlchemyLogHandler.store_log name_logger level message module
               classname func_name lineno error_type error_message error_args
               error_traceback w in
  fst res = Ok tt /\
  w_db (snd res)
    = (w_db w ++ [mkLog name_logger level message module classname func_name lineno
                    error_type error_message error_args error_traceback])%list.
Proof.
  intros Hdb res. subst res.
  unfold loggers_SQLAlchemyLogHandler.store_log, Session_new, Session_add,
    Session_commit, Session_close, update_session. unfold_m. simpl.
  rewrite Hdb. simpl. rewrite !lookup_alter_eq, !lookup_insert_eq. simpl.
  split; reflexivity.
Qed.

(** C4: the claim is right and the code is not.  [store_log] opens a
    session of its own under the next fresh identity, adds the row and
    commits.  When the commit goes through, the row is in storage and the
    session is closed.  When the commit fails, the exception leaves
    [store_log] at once: no row is added to storage, but [rollback()] and
    [close()] are never called on the session, which [store_log] drops as
    the failure left it. *)
Theorem store_log_closes_only_after_a_successful_commit
    (name_logger level message module classname func_name lineno
     error_type error_message error_args error_traceback : PyVal) (w : World) :
  let res := loggers_SQLAlchemyLogHandler.store_log name_logger level message module
               classname func_name lineno error_type error_message error_args
               error_traceback w in
  let row := mkLog name_logger level message module classname func_name lineno
               error_type error_message error_args error_traceback in
  exists s,
    w_sessions (snd res) !! w_next w = Some s /\
    if db_up (w_env w)
    then fst res = Ok tt /\
         w_db (snd res) = (w_db w ++ [row])%list /\
         s_closed s = true /\ s_in_transaction s = false /\ s_pending s = []
    else fst res = Raise (DBError "commit failed") /\
         w_db (snd res) = w_db w /\
         s_rolled_back s = false /\ s_closed s = false.
Proof.
  intros res row. subst res row.
  unfold loggers_SQLAlchemyLogHandler.store_log, Session_new, Session_add,
    Session_commit, Session_close, update_session. unfold_m. simpl.
  destruct (db_up (w_env w)); simpl.
  - eexists. rewrite !lookup_alter_eq, !lookup_insert_eq. simpl.
    split; [reflexivity|]. repeat split.
  - eexists. rewrite !lookup_alter_eq, !lookup_insert_eq. simpl.
    split; [reflexivity|]. repeat split.
Qed.

(** C4 at the failing input: [emit] of the database handler on the record
    of [info("hello")] while the database is down.  The commit fails, the
    exception leaves [emit], and the session that [store_log] opened has been
    neither rolled back nor closed. *)
Lemma failed_commit_leaves_the_session_open :
  let res := loggers_SQLAlchemyLogHandler.emit db_handler info_record
               (fresh_world env_db_down) in
  fst res = Raise (DBError "commit failed") /\
  w_db (snd res) = [] /\
  (fun s => (s_rolled_back s, s_closed s)) <$> (w_sessions (snd res) !! 0%nat)
    = Some (false, false).
Proof. vm_compute. repeat split. Qed.

(** C5, as the code has it.  When the record formats and the database
    answers, [emit] commits exactly one row: [name_logger] and [level] are
    the record's name and level name; [message] is the formatted line, not
    the bare message text; each context column ([module], [classname],
    [func_name], [lineno]) and each error column holds the record's attribute
    of that name when the record has it, and otherwise the placeholder ["NA"]
    ([-1] for [lineno]), never null. *)
Theorem emit_stores_one_row_with_placeholders (h : Handler) (record : LogRecord)
    (line : string) (w : World) :
  format (w_env w) (h_formatter h) record = Ok line ->
  db_up (w_env w) = true ->
  fst (loggers_SQLAlchemyLogHandler.emit h record w) = Ok tt /\
  w_db (snd (loggers_SQLAlchemyLogHandler.emit h record w))
    = (w_db w ++ [row_of record line])%list.
Proof.
  intros Hfmt Hdb.
  rewrite db_emit_unfold, Hfmt.
  match goal with
  | |- context [loggers_SQLAlchemyLogHandler.store_log ?a ?b ?c ?d ?e ?f ?g ?i ?j ?k ?l w] =>
      destruct (store_log_stores a b c d e f g i j k l w Hdb) as (Hres & Hrows)
  end.
  split; [exact Hres|exact Hrows].
Qed.

(** C5 at a concrete record: the record of [info("hello")]. *)
Lemma emit_stores_one_row_with_placeholders_witness :
  w_db (snd (loggers_SQLAlchemyLogHandler.emit db_handler info_record (fresh_world env_up)))
    = [ row_of info_record
          "2024-05-01 12:00:00,000 - db - INFO - Info: hello -> app.views - handle_request - 42" ].
Proof.
  apply (emit_stores_one_row_with_placeholders db_handler info_record
           "2024-05-01 12:00:00,000 - db - INFO - Info: hello -> app.views - handle_request - 42"
           (fresh_world env_up)).
  - vm_compute. reflexivity.
  - reflexivity.
Defined.

(** C5 fails on the code: for the record of [info("hello")], which has no
    class and no error attributes, the stored row has ["NA"] in [classname]
    and in the four error columns, not null, and its [message] is the whole
    formatted line, not the record's message text. *)
Lemma absent_fields_are_stored_as_NA :
  rec_attrs info_record !! "custom_class" = None /\
  rec_attrs info_record !! "error_type" = None /\
  rec_msg info_record = "Info: hello" /\
  (fun row => (classname row, error_type row, error_message row, error_args row,
               error_traceback row, message row))
    <$> w_db (snd (loggers_SQLAlchemyLogHandler.emit db_handler info_record
                     (fresh_world env_up)))
    = [ (PyStr "NA", PyStr "NA", PyStr "NA", PyStr "NA", PyStr "NA",
         PyStr "2024-05-01 12:00:00,000 - db - INFO - Info: hello -> app.views - handle_request - 42") ].
Proof. vm_compute. repeat split. Qed.

(** ** [ErrorTracker.capture_error] (C7, C8) *)


Lemma loggers_capture_error_eq (error : ErrorObj) (w : World) :
  loggers_ErrorTracker.capture_error error w =
    (match exc_str error with
     | Ok s =>
         Ok (<["error_type" := PyStr (exc_type error)]>
             (<["error_message" := PyStr s]>
             (<["error_args" := PyTuple (exc_args error)]>
             (<["error_traceback" :=
                  PyList (PyStr <$> format_exception (w_env w) error)]> ∅))))
     | Raise e => Raise e
     end, w).
Proof.
  unfold loggers_ErrorTracker.capture_error. unfold_m.
  destruct (exc_str error); reflexivity.
Qed.






(** ** Setting up a logger *)

Lemma logger_of_update (lname : string) (f : PyLogger -> PyLogger) (w : World) :
  logger_of lname (update_logger lname f w) = f (logger_of lname w).
Proof. unfold logger_of at 1, update_logger. simpl. now rewrite lookup_insert_eq. Qed.

Lemma logger_of_update_ne (lname other : string) (f : PyLogger -> PyLogger) (w : World) :
  lname <> other ->
  w_loggers (update_logger lname f w) !! other = w_loggers w !! other.
Proof. intros H. unfold update_logger. simpl. now rewrite lookup_insert_ne. Qed.

Lemma set_loggers_same (w : World) : set_loggers (w_loggers w) w = w.
Proof. now destruct w. Qed.

Lemma filter_all {A} (P : A -> Prop) `{!forall x, Decision (P x)} (l : list A) :
  (forall x, P x) -> filter P l = l.
Proof.
  intros HP. induction l as [|x l IH]; [reflexivity|].
  rewrite filter_cons_True by apply HP. now rewrite IH.
Qed.

(** The loop that removes the handlers of a logger: those named in [hs]
    are gone. *)
Lemma remove_loop (lname : string) (hs : list (nat * Handler)) (w : World) (lg : PyLogger) :
  w_loggers w !! lname = Some lg ->
  for_each hs (removeHandler lname) w =
    (Ok tt,
     set_loggers
       (<[lname := mkPyLogger (lg_level lg)
                     (filter (fun h => h.1 ∉ hs.*1) (lg_handlers lg))]> (w_loggers w)) w).
Proof.
  revert w lg. induction hs as [|h rest IH]; intros w lg Hlg.
  - simpl. unfold ret. f_equal.
    rewrite filter_all by (intros x; apply not_elem_of_nil).
    destruct lg as [lvl cur]. simpl in *. rewrite insert_id by exact Hlg.
    symmetry. apply set_loggers_same.
  - simpl for_each. unfold bind. unfold removeHandler at 1. unfold modify.
    rewrite (IH _ (mkPyLogger (lg_level lg)
                     (filter (fun x => x.1 <> h.1) (lg_handlers lg)))).
    + f_equal. unfold update_logger. simpl.
      rewrite insert_insert_eq. unfold set_loggers. simpl. f_equal. f_equal. f_equal.
      rewrite list_filter_filter. apply list_filter_iff.
      intros x. rewrite not_elem_of_cons. tauto.
    + unfold update_logger. simpl. rewrite lookup_insert_eq.
      unfold logger_of. rewrite Hlg. reflexivity.
Qed.

(** [Logger._setup_logger] up to line 86: the logger is entered, set to
    [DEBUG] and cleared of its handlers; then the handlers are created. *)
Lemma Logger_setup_logger_unfold (self : nat) (o : LoggerObj) (w : World) :
  w_objects w !! self = Some o ->
  loggers_Logger.Logger_setup_logger self w =
    Logger_provision o (str_or (name o) loggers_Logger.__name__)
      (setup_cleared (str_or (name o) loggers_Logger.__name__) self w).
Proof.
  intros Ho.
  unfold loggers_Logger.Logger_setup_logger.
  unfold bind at 1. rewrite (get_object_some _ _ _ Ho).
  set (lname := str_or (name o) loggers_Logger.__name__).
  unfold bind at 1. unfold getLogger at 1. unfold modify at 1.
  unfold bind at 1. unfold update_object at 1. unfold modify at 1.
  unfold bind at 1. unfold setLevel at 1. unfold modify at 1.
  unfold bind at 1. unfold handlers_copy at 1. unfold gets at 1.
  unfold bind at 1.
  rewrite logger_of_update. simpl lg_handlers.
  erewrite remove_loop; cycle 1.
  { unfold update_logger. simpl. apply lookup_insert_eq. }
  simpl lg_level. simpl lg_handlers.
  rewrite filter_none; cycle 1.
  { intros x Hx Hn. apply Hn. apply list_elem_of_fmap. eauto. }
  unfold update_logger, setup_cleared. simpl.
  rewrite !insert_insert_eq.
  reflexivity.
Qed.

Lemma addHandler_fresh (lname : string) (h : nat * Handler) (w : World) :
  h.1 ∉ (lg_handlers (logger_of lname w)).*1 ->
  addHandler lname h w =
    (Ok tt, update_logger lname
              (fun l => mkPyLogger (lg_level l) (lg_handlers l ++ [h])) w).
Proof.
  intros Hfresh. unfold addHandler, modify. f_equal.
  unfold update_logger. do 2 f_equal.
  now rewrite bool_decide_eq_false_2.
Qed.

Lemma logger_of_set_next (lname : string) (n : nat) (w : World) :
  logger_of lname (set_next n w) = logger_of lname w.
Proof. reflexivity. Qed.

(** The handlers are created as [provisioned] says when the file can be
    opened; otherwise the call raises before any handler is added. *)
Lemma Logger_provision_eq (o : LoggerObj) (lname : string) (w : World) :
  logger_of lname w = mkPyLogger DEBUG [] ->
  Logger_provision o lname w =
    if can_open o (w_env w)
    then (Ok tt,
          set_next (w_next w + length (provisioned o (w_next w)))%nat
            (set_loggers (<[lname := mkPyLogger DEBUG (provisioned o (w_next w))]>
                            (w_loggers w)) w))
    else (Raise (OSError (if has_slash (str_or (log_file o) "")
                          then "makedirs failed" else "FileNotFoundError: ''")), w).
Proof.
  intros Hlg.
  unfold Logger_provision, can_open, provisioned.
  destruct (String.eqb (str_or (log_file o) "") "") eqn:Hfile.
  - unfold bind at 1. unfold ret at 1. unfold StreamHandler_new.
    unfold bind at 1. unfold fresh at 1.
    rewrite addHandler_fresh.
    2: { rewrite logger_of_set_next, Hlg. apply not_elem_of_nil. }
    simpl orb. cbv iota. f_equal.
    unfold update_logger. rewrite logger_of_set_next, Hlg. simpl.
    unfold set_loggers, set_next. simpl. f_equal. lia.
  - simpl orb. unfold makedirs_dirname.
    destruct (has_slash (str_or (log_file o) "")) eqn:Hslash; simpl andb; cbv iota.
    + unfold bind at 1 2. unfold bind at 1. unfold gets at 1.
      destruct (io_ok (w_env w)) eqn:Hio.
      * unfold ret at 1. unfold bind at 1. unfold FileHandler_new.
        unfold bind at 1. unfold gets at 1. rewrite Hio. unfold fresh at 1.
        rewrite addHandler_fresh.
        2: { rewrite logger_of_set_next, Hlg. apply not_elem_of_nil. }
        unfold StreamHandler_new. unfold bind at 1. unfold fresh at 1.
        rewrite addHandler_fresh.
        2: { rewrite logger_of_set_next, logger_of_update, logger_of_set_next, Hlg.
             simpl. rewrite list_elem_of_singleton. lia. }
        f_equal. unfold update_logger at 1.
        rewrite logger_of_set_next, logger_of_update, logger_of_set_next, Hlg.
        unfold update_logger, set_loggers, set_next. simpl.
        rewrite insert_insert_eq. f_equal. lia.
      * reflexivity.
    + reflexivity.
Qed.

Lemma setup_cleared_logger (lname : string) (self : nat) (w : World) :
  logger_of lname (setup_cleared lname self w) = mkPyLogger DEBUG [].
Proof. unfold logger_of, setup_cleared. simpl. now rewrite lookup_insert_eq. Qed.

(** [Logger._setup_logger] on an existing object, in one step. *)
Lemma Logger_setup_logger_eq (self : nat) (o : LoggerObj) (w : World) :
  w_objects w !! self = Some o ->
  let lname := str_or (name o) loggers_Logger.__name__ in
  loggers_Logger.Logger_setup_logger self w =
    if can_open o (w_env w)
    then (Ok tt,
          set_next (w_next w + length (provisioned o (w_next w)))%nat
            (set_loggers (<[lname := mkPyLogger DEBUG (provisioned o (w_next w))]>
                            (w_loggers w))
               (set_objects (alter (set_attr_logger lname) self (w_objects w)) w)))
    else (Raise (OSError (if has_slash (str_or (log_file o) "")
                          then "makedirs failed" else "FileNotFoundError: ''")),
          setup_cleared lname self w).
Proof.
  intros Ho lname.
  rewrite (Logger_setup_logger_unfold _ _ _ Ho). fold lname.
  rewrite Logger_provision_eq by apply setup_cleared_logger.
  change (w_env (setup_cleared lname self w)) with (w_env w).
  change (w_next (setup_cleared lname self w)) with (w_next w).
  destruct (can_open o (w_env w)); [|reflexivity].
  f_equal. unfold setup_cleared, set_next, set_loggers, set_objects. simpl.
  now rewrite insert_insert_eq.
Qed.

Lemma setup_logger_of_Logger (self : nat) (o : LoggerObj) (w : World) :
  w_objects w !! self = Some o -> lo_class o = Logger ->
  loggers_Logger._setup_logger self w = loggers_Logger.Logger_setup_logger self w.
Proof.
  intros Ho Hc. unfold loggers_Logger._setup_logger. unfold bind at 1.
  rewrite (get_object_some _ _ _ Ho). now rewrite Hc.
Qed.

Lemma alter_alter_lookup {A} (f g : A -> A) (i : nat) (x : A) (m : gmap nat A) :
  m !! i = Some x -> alter f i (alter g i m) = <[i := f (g x)]> m.
Proof.
  intros Hx. apply map_eq. intros k.
  destruct (decide (k = i)) as [->|Hk].
  - rewrite lookup_insert_eq, !lookup_alter_eq, Hx. reflexivity.
  - rewrite lookup_insert_ne by congruence. now rewrite !lookup_alter_ne by congruence.
Qed.

(** [set_name] on a [Logger] object: the name is changed and the whole
    setup runs again. *)
Lemma set_name_eq (self : nat) (o : LoggerObj) (new_name : option string) (w : World) :
  w_objects w !! self = Some o -> lo_class o = Logger ->
  let lname := str_or new_name loggers_Logger.__name__ in
  let o' := set_attr_logger lname (set_attr_name new_name o) in
  loggers_Logger.set_name self new_name w =
    if can_open o (w_env w)
    then (Ok tt,
          set_next (w_next w + length (provisioned o (w_next w)))%nat
            (set_loggers (<[lname := mkPyLogger DEBUG (provisioned o (w_next w))]>
                            (w_loggers w))
               (set_objects (<[self := o']> (w_objects w)) w)))
    else (Raise (OSError (if has_slash (str_or (log_file o) "")
                          then "makedirs failed" else "FileNotFoundError: ''")),
          set_loggers (<[lname := mkPyLogger DEBUG []]> (w_loggers w))
            (set_objects (<[self := o']> (w_objects w)) w)).
Proof.
  intros Ho Hc lname o'.
  unfold loggers_Logger.set_name. unfold bind at 1. unfold update_object, modify.
  set (w1 := set_objects (alter (set_attr_name new_name) self (w_objects w)) w).
  assert (Ho1 : w_objects w1 !! self = Some (set_attr_name new_name o)).
  { unfold w1. simpl. now rewrite lookup_alter_eq, Ho. }
  rewrite (setup_logger_of_Logger _ _ _ Ho1) by exact Hc.
  rewrite (Logger_setup_logger_eq _ _ _ Ho1).
  change (can_open (set_attr_name new_name o) (w_env w1)) with (can_open o (w_env w)).
  change (provisioned (set_attr_name new_name o) (w_next w1))
    with (provisioned o (w_next w)).
  change (w_next w1) with (w_next w).
  change (str_or (name (set_attr_name new_name o)) loggers_Logger.__name__) with lname.
  change (log_file (set_attr_name new_name o)) with (log_file o).
  destruct (can_open o (w_env w)); f_equal;
    unfold setup_cleared, w1, set_next, set_loggers, set_objects; simpl;
    now rewrite (alter_alter_lookup _ _ _ _ _ Ho).
Qed.

(** ** The registry (C6) *)

(** [get_logger] on a key that is in the registry. *)
Lemma get_logger_cached_eq (key ft : string) (new_name : option string) (l : nat)
    (o : LoggerObj) (w : World) :
  w_registry w !! key = Some l ->
  w_objects w !! l = Some o ->
  lo_class o = Logger ->
  let lname := str_or new_name loggers_Logger.__name__ in
  let o' := set_attr_logger lname (set_attr_name new_name o) in
  logging_manager_LoggerManager.get_logger key ft new_name w =
    if can_open o (w_env w)
    then (Ok l,
          set_next (w_next w + length (provisioned o (w_next w)))%nat
            (set_loggers (<[lname := mkPyLogger DEBUG (provisioned o (w_next w))]>
                            (w_loggers w))
               (set_objects (<[l := o']> (w_objects w)) w)))
    else (Raise (OSError (if has_slash (str_or (log_file o) "")
                          then "makedirs failed" else "FileNotFoundError: ''")),
          set_loggers (<[lname := mkPyLogger DEBUG []]> (w_loggers w))
            (set_objects (<[l := o']> (w_objects w)) w)).
Proof.
  intros Hreg Ho Hc lname o'.
  unfold logging_manager_LoggerManager.get_logger.
  unfold bind at 1. unfold gets at 1. rewrite Hreg.
  unfold bind at 1. rewrite (set_name_eq _ _ _ _ Ho Hc). fold lname. fold o'.
  destruct (can_open o (w_env w)); [|reflexivity].
  unfold_m. simpl. now rewrite Hreg.
Qed.

(** [get_logger] on a key that is not in the registry. *)
Lemma get_logger_first_eq (key ft : string) (new_name : option string) (w : World) :
  w_registry w !! key = None ->
  let lname := str_or new_name loggers_Logger.__name__ in
  let o := mkLoggerObj Logger (Some key) new_name ft "" in
  let n := w_next w in
  logging_manager_LoggerManager.get_logger key ft new_name w =
    if can_open o (w_env w)
    then (Ok n,
          set_registry (<[key := n]> (w_registry w))
            (set_next (S n + length (provisioned o (S n)))%nat
               (set_loggers (<[lname := mkPyLogger DEBUG (provisioned o (S n))]>
                               (w_loggers w))
                  (set_objects (<[n := set_attr_logger lname o]> (w_objects w)) w))))
    else (Raise (OSError (if has_slash (str_or (log_file o) "")
                          then "makedirs failed" else "FileNotFoundError: ''")),
          set_next (S n)
            (set_loggers (<[lname := mkPyLogger DEBUG []]> (w_loggers w))
               (set_objects (<[n := set_attr_logger lname o]> (w_objects w)) w))).
Proof.
  intros Hreg lname o n.
  unfold logging_manager_LoggerManager.get_logger.
  unfold bind at 1. unfold gets at 1. rewrite Hreg.
  unfold bind at 1 2. unfold loggers_Logger.__init__.
  unfold bind at 1. unfold fresh at 1. fold n.
  unfold bind at 1. unfold modify at 1.
  set (w2 := set_objects _ _).
  assert (Ho2 : w_objects w2 !! n = Some o).
  { unfold w2. simpl. now rewrite lookup_insert_eq. }
  unfold bind at 1.
  rewrite (setup_logger_of_Logger _ _ _ Ho2) by reflexivity.
  rewrite (Logger_setup_logger_eq _ _ _ Ho2).
  change (w_env w2) with (w_env w). change (w_next w2) with (S n).
  change (str_or (name o) loggers_Logger.__name__) with lname.
  destruct (can_open o (w_env w)).
  - unfold_m. simpl. rewrite lookup_insert_eq. f_equal.
    unfold w2, set_registry, set_next, set_loggers, set_objects. simpl.
    f_equal. apply map_eq. intros k.
    destruct (decide (k = n)) as [->|Hk].
    + now rewrite lookup_alter_eq, !lookup_insert_eq.
    + rewrite lookup_alter_ne by congruence. now rewrite !lookup_insert_ne by congruence.
  - f_equal.
    unfold w2, setup_cleared, set_registry, set_next, set_loggers, set_objects. simpl.
    f_equal. apply map_eq. intros k.
    destruct (decide (k = n)) as [->|Hk].
    + now rewrite lookup_alter_eq, !lookup_insert_eq.
    + rewrite lookup_alter_ne by congruence. now rewrite !lookup_insert_ne by congruence.
Qed.

(** C6, as the code has it.  A lookup of a key that is in the registry
    returns the cached object and constructs none, and the registry stays as
    it is; but it always calls [set_name] (also with the name the object
    already has), which runs the whole setup again: the logger under the new
    name loses its handlers and gets the handlers [provisioned] creates, all
    of them new objects (identities from [w_next w] on), and when the log
    file cannot be opened the call raises and leaves that logger without any
    handler.  A lookup of a key that is not in the registry constructs the
    object, creates its handlers and enters it in the registry. *)
Theorem get_logger_sets_up_handlers_on_every_lookup (key ft : string)
    (new_name : option string) (w : World) :
  let res := logging_manager_LoggerManager.get_logger key ft new_name w in
  let lname := str_or new_name loggers_Logger.__name__ in
  (forall l o,
     w_registry w !! key = Some l ->
     w_objects w !! l = Some o ->
     lo_class o = Logger ->
     w_registry (snd res) = w_registry w /\
     w_objects (snd res)
       = <[l := set_attr_logger lname (set_attr_name new_name o)]> (w_objects w) /\
     (can_open o (w_env w) = true ->
        fst res = Ok l /\
        lg_handlers (logger_of lname (snd res)) = provisioned o (w_next w) /\
        w_next (snd res) = (w_next w + length (provisioned o (w_next w)))%nat) /\
     (can_open o (w_env w) = false ->
        (exists e, fst res = Raise (OSError e)) /\
        lg_handlers (logger_of lname (snd res)) = [])) /\
  (w_registry w !! key = None ->
     let o := mkLoggerObj Logger (Some key) new_name ft "" in
     (can_open o (w_env w) = true ->
        fst res = Ok (w_next w) /\
        w_registry (snd res) = <[key := w_next w]> (w_registry w) /\
        w_objects (snd res) !! w_next w = Some (set_attr_logger lname o) /\
        lg_handlers (logger_of lname (snd res)) = provisioned o (S (w_next w))) /\
     (can_open o (w_env w) = false ->
        (exists e, fst res = Raise (OSError e)) /\
        w_registry (snd res) = w_registry w)).
Proof.
  intros res lname. subst res. split.
  - intros l o Hreg Ho Hc.
    rewrite (get_logger_cached_eq _ _ _ _ _ _ Hreg Ho Hc). fold lname.
    destruct (can_open o (w_env w)); simpl.
    + split; [reflexivity|]. split; [reflexivity|]. split; [|intros [=]].
      intros _. split; [reflexivity|]. split; [|reflexivity].
      unfold logger_of. simpl. now rewrite lookup_insert_eq.
    + split; [reflexivity|]. split; [reflexivity|]. split; [intros [=]|].
      intros _. split; [eauto|].
      unfold logger_of. simpl. now rewrite lookup_insert_eq.
  - intros Hreg o.
    rewrite (get_logger_first_eq _ _ _ _ Hreg). fold lname. fold o.
    destruct (can_open o (w_env w)); simpl.
    + split; [|intros [=]]. intros _.
      split; [reflexivity|]. split; [reflexivity|]. split.
      * now rewrite lookup_insert_eq.
      * unfold logger_of. simpl. now rewrite lookup_insert_eq.
    + split; [intros [=]|]. intros _. split; [eauto|reflexivity].
Qed.

(** C6 at a concrete lookup: the second [get_logger("logs/app.log",
    "local", "svc")] of a process. *)
Lemma get_logger_sets_up_handlers_on_every_lookup_witness :
  fst (logging_manager_LoggerManager.get_logger "logs/app.log" "local" (Some "svc")
         world_after_first_lookup) = Ok 0%nat /\
  lg_handlers (logger_of "svc"
     (snd (logging_manager_LoggerManager.get_logger "logs/app.log" "local" (Some "svc")
             world_after_first_lookup)))
    = provisioned file_logger_object 3 /\
  w_next (snd (logging_manager_LoggerManager.get_logger "logs/app.log" "local" (Some "svc")
                 world_after_first_lookup))
    = (3 + length (provisioned file_logger_object 3))%nat.
Proof.
  destruct (get_logger_sets_up_handlers_on_every_lookup "logs/app.log" "local"
              (Some "svc") world_after_first_lookup) as [H _].
  destruct (H 0%nat file_logger_object) as (_ & _ & Hok & _).
  - vm_compute. reflexivity.
  - vm_compute. reflexivity.
  - reflexivity.
  - apply Hok. vm_compute. reflexivity.
Defined.

(** C6 fails on the code.  Two lookups of the key ["logs/app.log"] with
    the same name return the same object, but the sinks are not reused:
    after the first lookup the logger has the handlers 1 and 2, after the
    second it has the handlers 3 and 4, created by the second lookup. *)
Lemma second_lookup_creates_new_handlers :
  let first := logging_manager_LoggerManager.get_logger "logs/app.log" "local"
                 (Some "svc") (fresh_world env_up) in
  let second := logging_manager_LoggerManager.get_logger "logs/app.log" "local"
                  (Some "svc") (snd first) in
  fst first = Ok 0%nat /\
  fst second = Ok 0%nat /\
  (lg_handlers (logger_of "svc" (snd first))).*1 = [1%nat; 2%nat] /\
  (lg_handlers (logger_of "svc" (snd second))).*1 = [3%nat; 4%nat].
Proof. vm_compute. repeat split. Qed.

(** * Further properties of the code *)
(** ** The two resolvers *)

(** X1.  [AutoTracker.get_execution_info] of loggers.py returns on every
    stack.  What it reports is the frame three steps up when the stack is that
    deep, and otherwise the outermost frame of the stack: the last of the
    first four frames.  Only without any frame are the four entries [None]. *)
Theorem loggers_resolver_reports_the_last_of_four_frames (stack : list Frame) :
  loggers_AutoTracker.get_execution_info stack =
    Ok (match last (take 4 stack) with
        | Some f => context_of f
        | None => no_context
        end).
Proof.
  destruct stack as [|f0 [|f1 [|f2 [|f3 rest]]]]; reflexivity.
Qed.

(** X2.  [AutoTracker.get_execution_info] of logging.py returns exactly
    when the stack has a fourth frame, and then reports that frame; on every
    shallower stack it raises [AttributeError]. *)
Theorem logging_resolver_needs_four_frames (stack : list Frame) :
  match stack !! 3%nat with
  | Some f => logging_AutoTracker.get_execution_info stack = Ok (legacy_context_of f)
  | None =>
      (length stack < 4)%nat /\
      exists what, logging_AutoTracker.get_execution_info stack
                   = Raise (AttributeError what)
  end.
Proof.
  destruct stack as [|f0 [|f1 [|f2 [|f3 rest]]]]; simpl;
    try (split; [lia|eexists; reflexivity]).
  reflexivity.
Qed.

(** X3.  Wherever the resolver of logging.py returns, the resolver of
    loggers.py returns the same three entries and one more, ["class"]. *)
Theorem loggers_resolver_extends_logging_resolver (stack : list Frame) (d : PyDict) :
  logging_AutoTracker.get_execution_info stack = Ok d ->
  exists d',
    loggers_AutoTracker.get_execution_info stack = Ok d' /\
    d ⊆ d' /\
    dom d' = dom d ∪ ({["class"]} : gset string).
Proof.
  destruct stack as [|f0 [|f1 [|f2 [|f3 rest]]]]; try discriminate.
  rewrite logging_get_execution_info_caller, loggers_get_execution_info_caller.
  intros [= <-]. eexists. split; [reflexivity|]. split.
  - apply map_subseteq_spec. intros k v Hk.
    destruct (decide (k = "function")) as [->|?]; [by simplify_map_eq|].
    destruct (decide (k = "lineno")) as [->|?]; [by simplify_map_eq|].
    destruct (decide (k = "module")) as [->|?]; [by simplify_map_eq|].
    rewrite !lookup_insert_ne in Hk by congruence. by rewrite lookup_empty in Hk.
  - rewrite !dom_insert_L, dom_empty_L. set_solver.
Qed.

(** X3 on a stack of four frames. *)
Lemma loggers_resolver_extends_logging_resolver_witness :
  exists d',
    loggers_AutoTracker.get_execution_info
      [app_frame; app_frame; app_frame; worker_frame] = Ok d' /\
    legacy_context_of worker_frame ⊆ d' /\
    dom d' = dom (legacy_context_of worker_frame) ∪ ({["class"]} : gset string).
Proof.
  apply (loggers_resolver_extends_logging_resolver
           [app_frame; app_frame; app_frame; worker_frame]).
  reflexivity.
Defined.

(** ** Level methods on shallow stacks *)

(** X4.  A level method of an object of loggers.py that is called without
    any Python caller (from the interpreter itself, as an exit handler is)
    still logs, on an enabled logger and with a well-formed record factory:
    the resolver finds only the three frames of the logging code and reports
    the outermost of them, so the record that is made and handed to the
    handlers names the level method itself as function, the line of the
    [_log] call in the method that the object's class has as line, and
    [logger_system.loggers] as module. *)
Theorem level_method_without_caller_reports_itself (m : LevelMethod) (self : nat)
    (o : LoggerObj) (message : string) (w : World) :
  w_objects w !! self = Some o ->
  enabled_at (_logger o) (levelno_of m) w = true ->
  factory_ok (w_factory w) ->
  let itself :=
    loggers_Logger.method_frame (method_name m) (call_line (lo_class o) m) o in
  let r := call_record o m message itself (w_env w) in
  let own := lg_handlers (logger_of (_logger o) w) in
  rec_attrs r !! "custom_function" = Some (PyStr (method_name m)) /\
  rec_attrs r !! "custom_lineno" = Some (PyInt (call_line (lo_class o) m)) /\
  rec_attrs r !! "custom_module" = Some (PyStr "logger_system.loggers") /\
  exists up,
    from_above (_logger o) w up /\
    w_offered (snd (loggers_call m self message [] w))
      = (w_offered w ++ offers r (offered_to (w_env w) r (own ++ up)))%list.
Proof.
  intros Ho Hen Hfac itself r own.
  destruct (call_record_context o m message itself (w_env w)) as (H1 & H2 & H3).
  split; [exact H1|]. split; [exact H2|]. split; [exact H3|].
  rewrite (loggers_call_unfold _ _ _ _ _ _ Ho).
  rewrite (loggers_log_eq self o _ _ _ None [itself] w (context_of itself)
             Ho Hen Hfac I eq_refl).
  cbv zeta.
  exists (handlers_above (_logger o) w).
  split; [apply handlers_above_from_above|].
  destruct (callHandlers_spec (_logger o) r
              (set_factory (record_factory (w_factory w) (context_of itself)) w))
    as (_ & Hoff & _).
  exact Hoff.
Qed.

(** X4 for [error("late")] called without a caller on the logger with a
    file and a console sink: both sinks are handed a record that names
    [error], line 146. *)
Lemma level_method_without_caller_reports_itself_witness :
  (fun x => (x.1, rec_attrs x.2 !! "custom_function", rec_attrs x.2 !! "custom_lineno"))
    <$> w_offered (snd (loggers_call m_error 0 "late" [] world_file_logger))
  = [ (1%nat, Some (PyStr "error"), Some (PyInt 146));
      (2%nat, Some (PyStr "error"), Some (PyInt 146)) ].
Proof.
  destruct (level_method_without_caller_reports_itself m_error 0 file_logger_object
              "late" world_file_logger)
    as (_ & _ & _ & up & Hfrom & Hoff).
  - vm_compute. reflexivity.
  - vm_compute. reflexivity.
  - vm_compute. exact I.
  - apply (from_above_none _ _ _ world_file_logger_alone) in Hfrom. subst up.
    rewrite Hoff. vm_compute. reflexivity.
Defined.

(** X5.  A level method of [Logger] (logging.py) that is called without
    any Python caller does not log: the resolver raises [AttributeError]
    before the record factory is touched, the exception leaves the level
    method, and the state of the process is exactly what it was. *)
Theorem legacy_level_method_without_caller_raises (m : LevelMethod) (self : nat)
    (o : LoggerObj) (message : string) (w : World) :
  w_objects w !! self = Some o ->
  logging_call m self message [] w
    = (Raise (AttributeError "'NoneType' object has no attribute 'f_code'"), w).
Proof.
  intros Ho.
  rewrite (logging_call_unfold _ _ _ _ _ _ Ho).
  rewrite (logging_log_unfold _ _ _ _ _ _ _ _ Ho).
  reflexivity.
Qed.

(** X5 on the logger made by [Logger("logs/app.log", "svc")] of
    logging.py. *)
Lemma legacy_level_method_without_caller_raises_witness :
  logging_Logger.warning 0 "bye" [] world_legacy_logger
    = (Raise (AttributeError "'NoneType' object has no attribute 'f_code'"),
       world_legacy_logger).
Proof.
  apply (legacy_level_method_without_caller_raises m_warning 0 file_logger_object).
  reflexivity.
Defined.

(** ** What a record of the facade holds *)

(** X6.  The class name the resolver of loggers.py works out is never
    stored.  On every stack the resolver's dictionary has the entry
    ["class"], but no record that a level method of [Logger] hands
    to a handler has an attribute [custom_class], nor any [error_] attribute:
    the database sink therefore writes ["NA"] into [classname] and into the
    four error columns of every row of such a call. *)
Theorem level_method_records_never_carry_the_class (m : LevelMethod) (self : nat)
    (message : string) (stack : list Frame) (w : World) :
  (exists d, loggers_AutoTracker.get_execution_info stack = Ok d /\
             is_Some (d !! "class")) /\
  exists new,
    w_offered (snd (loggers_call m self message stack w)) = (w_offered w ++ new)%list /\
    forall x, x ∈ new ->
      rec_attrs x.2 !! "custom_class" = None /\
      forall line,
        classname (row_of x.2 line) = PyStr "NA" /\
        error_type (row_of x.2 line) = PyStr "NA" /\
        error_message (row_of x.2 line) = PyStr "NA" /\
        error_args (row_of x.2 line) = PyStr "NA" /\
        error_traceback (row_of x.2 line) = PyStr "NA".
Proof.
  split.
  { destruct (loggers_get_execution_info_total stack) as (d & Hd & Hdom).
    exists d. split; [exact Hd|]. apply elem_of_dom. rewrite Hdom.
    rewrite !elem_of_union, !elem_of_singleton. tauto. }
  destruct (w_objects w !! self) as [o|] eqn:Ho.
  - rewrite (loggers_call_unfold _ _ _ _ _ _ Ho).
    rewrite (loggers_log_unfold _ _ _ _ _ _ _ _ Ho).
    destruct (loggers_AutoTracker.get_execution_info _) as [d|e].
    + cbv zeta.
      set (w1 := set_factory (record_factory (w_factory w) d) w).
      destruct (Logger_log_spec (_logger o) (levelno_of m)
                  (capitalized m ++ ": " ++ message) (passes_exc_info m) None w1)
        as (_ & (new & Hoff & Hnew) & _).
      exists new. split; [exact Hoff|].
      intros x Hx. apply Hnew in Hx. rewrite makeRecord_no_extra in Hx. cbn [fst] in Hx.
      assert (Hnone : forall k, k ∉ custom_keys -> rec_attrs x.2 !! k = None).
      { intros k Hk. exact (call_factory_only_custom _ _ _ _ _ _ _ _ Hx Hk). }
      split.
      * apply Hnone. not_custom_key.
      * intros line. unfold row_of. simpl.
        rewrite !Hnone by not_custom_key. simpl. repeat split.
    + exists []. simpl. rewrite app_nil_r. split; [reflexivity|].
      intros x Hx. by apply not_elem_of_nil in Hx.
  - rewrite loggers_call_missing by exact Ho.
    exists []. rewrite app_nil_r. split; [reflexivity|].
    intros x Hx. by apply not_elem_of_nil in Hx.
Qed.
(** ** Constructing, renaming and closing loggers *)

(** [Logger.__init__] of loggers.py in one step. *)
Lemma Logger_init_eq (ft : string) (file new_name : option string) (w : World) :
  let lname := str_or new_name loggers_Logger.__name__ in
  let o := mkLoggerObj Logger file new_name ft "" in
  let n := w_next w in
  loggers_Logger.__init__ ft file new_name w =
    if can_open o (w_env w)
    then (Ok n,
          set_next (S n + length (provisioned o (S n)))%nat
            (set_loggers (<[lname := mkPyLogger DEBUG (provisioned o (S n))]>
                            (w_loggers w))
               (set_objects (<[n := set_attr_logger lname o]> (w_objects w)) w)))
    else (Raise (OSError (if has_slash (str_or file "")
                          then "makedirs failed" else "FileNotFoundError: ''")),
          set_next (S n)
            (set_loggers (<[lname := mkPyLogger DEBUG []]> (w_loggers w))
               (set_objects (<[n := set_attr_logger lname o]> (w_objects w)) w))).
Proof.
  intros lname o n.
  unfold loggers_Logger.__init__.
  unfold bind at 1. unfold fresh at 1. fold n.
  unfold bind at 1. unfold modify at 1.
  set (w2 := set_objects _ _).
  assert (Ho2 : w_objects w2 !! n = Some o).
  { unfold w2. simpl. now rewrite lookup_insert_eq. }
  unfold bind at 1.
  rewrite (setup_logger_of_Logger _ _ _ Ho2) by reflexivity.
  rewrite (Logger_setup_logger_eq _ _ _ Ho2).
  change (w_env w2) with (w_env w). change (w_next w2) with (S n).
  change (str_or (name o) loggers_Logger.__name__) with lname.
  change (log_file o) with file.
  destruct (can_open o (w_env w)).
  - unfold_m. f_equal.
    unfold w2, set_next, set_loggers, set_objects. simpl.
    f_equal. apply map_eq. intros k.
    destruct (decide (k = n)) as [->|Hk].
    + now rewrite lookup_alter_eq, !lookup_insert_eq.
    + rewrite lookup_alter_ne by congruence. now rewrite !lookup_insert_ne by congruence.
  - f_equal.
    unfold w2, setup_cleared, set_next, set_loggers, set_objects. simpl.
    f_equal. apply map_eq. intros k.
    destruct (decide (k = n)) as [->|Hk].
    + now rewrite lookup_alter_eq, !lookup_insert_eq.
    + rewrite lookup_alter_ne by congruence. now rewrite !lookup_insert_ne by congruence.
Qed.

Lemma provisioned_stdlib (o : LoggerObj) (n : nat) :
  Forall is_stdlib_handler (provisioned o n).
Proof.
  unfold provisioned. destruct (String.eqb _ _); repeat constructor; discriminate.
Qed.

Lemma accepting_provisioned (o : LoggerObj) (n : nat) (lvl : Z) :
  (DEBUG <= lvl)%Z -> accepting lvl (provisioned o n) = provisioned o n.
Proof.
  intros Hl. apply Z.leb_le in Hl.
  unfold provisioned. destruct (String.eqb _ _);
    rewrite !accepting_cons; cbn [snd h_level]; rewrite !Hl; reflexivity.
Qed.

Lemma levelno_of_ge_DEBUG (m : LevelMethod) : (DEBUG <= levelno_of m)%Z.
Proof. destruct m; vm_compute; discriminate. Qed.

(** X7.  A new [Logger] (loggers.py) serves every level: in a process
    whose record factory is well formed and in which no logger above the one
    of the new object has a handler, each of the five level methods called
    from a frame [caller] on an object that [Logger(...)] has just returned
    ends normally and hands one and the same record, the record of the call
    with the prefixed message, to every handler the constructor created, in
    the order of their creation, and to no other. *)
Theorem every_level_reaches_every_sink_of_a_new_logger (ft : string)
    (file new_name : option string) (w : World) (m : LevelMethod) (message : string)
    (caller : Frame) (rest : list Frame) :
  let o := mkLoggerObj Logger file new_name ft
             (str_or new_name loggers_Logger.__name__) in
  factory_ok (w_factory w) ->
  can_open o (w_env w) = true ->
  no_handlers_above (_logger o) w ->
  let made := loggers_Logger.__init__ ft file new_name w in
  let res := loggers_call m (w_next w) message (caller :: rest) (snd made) in
  let r := call_record o m message caller (w_env w) in
  fst made = Ok (w_next w) /\
  fst res = Ok tt /\
  rec_msg r = capitalized m ++ ": " ++ message /\
  rec_levelno r = levelno_of m /\
  w_offered (snd res) = (w_offered w ++ offers r (provisioned o (S (w_next w))))%list.
Proof.
  intros o Hfac Hopen Hno made res r. subst made res.
  set (o0 := mkLoggerObj Logger file new_name ft "").
  change (can_open o (w_env w)) with (can_open o0 (w_env w)) in Hopen.
  change (provisioned o) with (provisioned o0).
  rewrite Logger_init_eq. fold o0. rewrite Hopen. cbn [fst snd].
  set (lname := str_or new_name loggers_Logger.__name__) in *.
  set (w1 := set_next _ _).
  assert (Ho1 : w_objects w1 !! w_next w = Some o).
  { unfold w1. simpl. now rewrite lookup_insert_eq. }
  assert (Hlg : logger_of lname w1 = mkPyLogger DEBUG (provisioned o0 (S (w_next w)))).
  { unfold logger_of, w1. simpl. now rewrite lookup_insert_eq. }
  assert (Hno1 : no_handlers_above lname w1).
  { apply (no_handlers_above_preserved lname w); [|exact Hno].
    intros p Hp. unfold logger_of, w1. simpl. now rewrite lookup_insert_ne. }
  split; [reflexivity|].
  rewrite (loggers_call_dispatch _ _ _ _ _ _ _ Ho1).
  2: { cbn [_logger o]. rewrite (enabled_at_DEBUG _ _ _ _ Hlg).
       apply Z.leb_le, levelno_of_ge_DEBUG. }
  2: { exact Hfac. }
  cbv zeta. change (w_env w1) with (w_env w). fold r.
  destruct (callHandlers_own lname r
              (record_factory (w_factory w1) (context_of caller)) w1 Hno1)
    as [Hoff Hok].
  rewrite Hlg in Hoff, Hok. cbn [lg_handlers] in Hoff, Hok.
  destruct (offered_to_stdlib (w_env w1) r _ (provisioned_stdlib o0 (S (w_next w))))
    as [Hacc Hall].
  rewrite Hall in Hok. rewrite Hacc in Hoff.
  change (rec_levelno r) with (levelno_of m) in Hoff.
  rewrite accepting_provisioned in Hoff by apply levelno_of_ge_DEBUG.
  cbn [fst snd].
  split; [now apply is_ok_unit|].
  split; [reflexivity|]. split; [reflexivity|]. exact Hoff.
Qed.

(** X7 for [Logger("local", "logs/app.log", "svc")] and [info("hello")] in
    a fresh process. *)
Lemma every_level_reaches_every_sink_of_a_new_logger_witness :
  (fun x => (x.1, rec_msg x.2))
    <$> w_offered (snd (loggers_call m_info 0 "hello" [app_frame] world_file_logger))
  = [(1%nat, "Info: hello"); (2%nat, "Info: hello")].
Proof.
  destruct (every_level_reaches_every_sink_of_a_new_logger "local" (Some "logs/app.log")
              (Some "svc") (fresh_world env_up) m_info "hello" app_frame [])
    as (_ & _ & _ & _ & H).
  - exact I.
  - reflexivity.
  - apply no_handlers_above_check. vm_compute. reflexivity.
  - etransitivity;
      [exact (f_equal (fmap (fun x : nat * LogRecord => (x.1, rec_msg x.2))) H)|].
    vm_compute. reflexivity.
Defined.

(** X8.  Logger objects of one name share one [logging.Logger].  When a
    second [Logger] is constructed under the name an existing object logs to,
    the existing object is not changed, but the handlers of its logger are
    replaced: afterwards they are exactly the handlers created for the second
    object, all of them new objects, so what is logged through the first
    object goes to the sinks of the second. *)
Theorem second_logger_of_a_name_takes_over (first : nat) (o1 : LoggerObj) (ft : string)
    (file new_name : option string) (w : World) :
  let o2 := mkLoggerObj Logger file new_name ft "" in
  w_objects w !! first = Some o1 ->
  first <> w_next w ->
  _logger o1 = str_or new_name loggers_Logger.__name__ ->
  can_open o2 (w_env w) = true ->
  let res := loggers_Logger.__init__ ft file new_name w in
  fst res = Ok (w_next w) /\
  w_objects (snd res) !! first = Some o1 /\
  lg_handlers (logger_of (_logger o1) (snd res)) = provisioned o2 (S (w_next w)) /\
  forall h, h ∈ lg_handlers (logger_of (_logger o1) (snd res)) -> (w_next w < h.1)%nat.
Proof.
  intros o2 Ho1 Hne Hname Hopen res. subst res.
  rewrite Logger_init_eq. fold o2. rewrite Hopen. cbn [fst snd].
  rewrite Hname.
  assert (Hhs : lg_handlers
                  (logger_of (str_or new_name loggers_Logger.__name__)
                     (set_next (S (w_next w) + length (provisioned o2 (S (w_next w))))
                        (set_loggers
                           (<[str_or new_name loggers_Logger.__name__ :=
                                mkPyLogger DEBUG (provisioned o2 (S (w_next w)))]>
                              (w_loggers w))
                           (set_objects
                              (<[w_next w :=
                                   set_attr_logger
                                     (str_or new_name loggers_Logger.__name__) o2]>
                                 (w_objects w)) w))))
                = provisioned o2 (S (w_next w))).
  { unfold logger_of. simpl. now rewrite lookup_insert_eq. }
  split; [reflexivity|]. split; [|split].
  - simpl. now rewrite lookup_insert_ne by congruence.
  - exact Hhs.
  - intros h. rewrite Hhs. unfold provisioned.
    destruct (String.eqb _ _); intros Hin;
      repeat (apply elem_of_cons in Hin as [->|Hin]; [simpl; lia|]);
      by apply not_elem_of_nil in Hin.
Qed.

(** X8 for a second [Logger("dev", None, "svc")] beside the logger with a
    file and a console sink. *)
Lemma second_logger_of_a_name_takes_over_witness :
  lg_handlers (logger_of "svc"
     (snd (loggers_Logger.__init__ "dev" None (Some "svc") world_file_logger)))
    = [(4%nat, mkHandler StreamHandler DEBUG FormatterPlain)].
Proof.
  destruct (second_logger_of_a_name_takes_over 0 file_logger_object "dev" None
              (Some "svc") world_file_logger) as (_ & _ & H & _).
  - vm_compute. reflexivity.
  - vm_compute. discriminate.
  - reflexivity.
  - reflexivity.
  - exact H.
Defined.

(** X9.  A log file without a directory part cannot be used.  For every
    non-empty path without ["/"], [Logger(formatter_type, path, name)] raises
    the error of [os.makedirs("")] before any handler is created, and leaves
    the logger of that name at level [DEBUG] without a single handler, also
    when it had handlers before. *)
Theorem log_file_without_directory_is_refused (ft path : string)
    (new_name : option string) (w : World) :
  path <> "" ->
  has_slash path = false ->
  let res := loggers_Logger.__init__ ft (Some path) new_name w in
  fst res = Raise (OSError "FileNotFoundError: ''") /\
  logger_of (str_or new_name loggers_Logger.__name__) (snd res) = mkPyLogger DEBUG [].
Proof.
  intros Hne Hslash res. subst res.
  rewrite Logger_init_eq.
  assert (Hopen : can_open (mkLoggerObj Logger (Some path) new_name ft "") (w_env w)
                  = false).
  { unfold can_open. cbn [log_file str_or].
    destruct (String.eqb path "") eqn:He.
    - apply String.eqb_eq in He. contradiction.
    - rewrite He. cbn [orb]. now rewrite Hslash. }
  rewrite Hopen. cbn [fst snd str_or].
  destruct (String.eqb path "") eqn:He.
  - apply String.eqb_eq in He. contradiction.
  - rewrite Hslash. split; [reflexivity|].
    unfold logger_of. simpl. now rewrite lookup_insert_eq.
Qed.

(** X9 for [Logger("local", "app.log", "svc")] beside the logger with a
    file and a console sink, which loses both. *)
Lemma log_file_without_directory_is_refused_witness :
  fst (loggers_Logger.__init__ "local" (Some "app.log") (Some "svc") world_file_logger)
    = Raise (OSError "FileNotFoundError: ''") /\
  logger_of "svc"
    (snd (loggers_Logger.__init__ "local" (Some "app.log") (Some "svc")
            world_file_logger))
    = mkPyLogger DEBUG [].
Proof.
  apply (log_file_without_directory_is_refused "local" "app.log" (Some "svc")
           world_file_logger).
  - discriminate.
  - reflexivity.
Defined.

(** X10.  Renaming does not clean up.  When [set_name] gives a [Logger]
    (loggers.py) a name that resolves to another logger than the one the
    object logs to, the object is switched to the logger of the new name, and
    the logger of the old name is left exactly as it was: its handlers stay
    attached (they are neither removed nor closed), whether the setup under
    the new name succeeds or raises. *)
Theorem set_name_leaves_the_old_logger_as_it_was (self : nat) (o : LoggerObj)
    (new_name : option string) (w : World) :
  w_objects w !! self = Some o ->
  lo_class o = Logger ->
  str_or new_name loggers_Logger.__name__ <> _logger o ->
  let res := loggers_Logger.set_name self new_name w in
  w_loggers (snd res) !! _logger o = w_loggers w !! _logger o /\
  (_logger <$> w_objects (snd res) !! self)
    = Some (str_or new_name loggers_Logger.__name__) /\
  (name <$> w_objects (snd res) !! self) = Some new_name.
Proof.
  intros Ho Hc Hne res. subst res.
  rewrite (set_name_eq _ _ _ _ Ho Hc).
  destruct (can_open o (w_env w)); cbn [snd]; simpl;
    rewrite lookup_insert_ne by exact Hne; rewrite lookup_insert_eq; auto.
Qed.

(** X10 for renaming the logger ["svc"] to ["audit"]. *)
Lemma set_name_leaves_the_old_logger_as_it_was_witness :
  w_loggers (snd (loggers_Logger.set_name 0 (Some "audit") world_file_logger)) !! "svc"
    = w_loggers world_file_logger !! "svc".
Proof.
  apply (set_name_leaves_the_old_logger_as_it_was 0 file_logger_object (Some "audit")
           world_file_logger).
  - vm_compute. reflexivity.
  - reflexivity.
  - discriminate.
Defined.

(** The loop that removes the handlers of a logger, whether the logger is
    in the table or not. *)
Lemma remove_loop_handlers (lname : string) (w : World) :
  let res := for_each (lg_handlers (logger_of lname w)) (removeHandler lname) w in
  fst res = Ok tt /\
  lg_handlers (logger_of lname (snd res)) = [] /\
  lg_level (logger_of lname (snd res)) = lg_level (logger_of lname w) /\
  dispatch_frame_but_loggers w (snd res) /\
  forall other, lname <> other -> w_loggers (snd res) !! other = w_loggers w !! other.
Proof.
  intros res. subst res.
  destruct (w_loggers w !! lname) as [lg|] eqn:Hlg.
  - assert (Hl : logger_of lname w = lg) by (unfold logger_of; now rewrite Hlg).
    rewrite Hl. rewrite (remove_loop _ _ _ _ Hlg). cbn [fst snd].
    split; [reflexivity|]. split; [|split; [|split]].
    + unfold logger_of. simpl. rewrite lookup_insert_eq. simpl.
      apply filter_none. intros x Hx Hn. apply Hn. apply list_elem_of_fmap. eauto.
    + unfold logger_of. simpl. now rewrite lookup_insert_eq.
    + repeat split.
    + intros other Hne. simpl. now rewrite lookup_insert_ne.
  - assert (Hl : logger_of lname w = new_logger lname)
      by (unfold logger_of; now rewrite Hlg).
    rewrite Hl. cbn [new_logger lg_handlers for_each]. unfold ret. cbn [fst snd].
    split; [reflexivity|]. split; [|split; [|split]].
    + now rewrite Hl.
    + now rewrite Hl.
    + repeat split.
    + reflexivity.
Qed.

Lemma close_logger_unfold (self : nat) (o : LoggerObj) (w : World) :
  w_objects w !! self = Some o ->
  loggers_Logger._close_logger self w =
    for_each (lg_handlers (logger_of (_logger o) w)) (removeHandler (_logger o)) w.
Proof.
  intros Ho. unfold loggers_Logger._close_logger.
  unfold bind at 1. rewrite (get_object_some _ _ _ Ho).
  unfold bind at 1. unfold handlers_copy, gets. reflexivity.
Qed.

(** [callHandlers] without any handler in reach: the last-resort handler
    writes a record of level [WARNING] or above to [sys.stderr] in its own
    format, and nothing is written for a lower level. *)
Lemma callHandlers_no_handlers (lname : string) (r : LogRecord) (w : World) :
  handlers_in_reach lname w = [] ->
  callHandlers emit lname r w =
    if Z.leb WARNING (rec_levelno r)
    then if io_ok (w_env w)
         then (Ok tt, set_output (w_output w ++ [ToStderr (default_format (w_env w) r)]) w)
         else (Ok tt, set_output (w_output w ++ [HandleError 0 (OSError "write failed")]) w)
    else (Ok tt, w).
Proof.
  intros Hhs. rewrite callHandlers_unfold, Hhs.
  destruct (Z.leb WARNING (rec_levelno r)); [|reflexivity].
  destruct (io_ok (w_env w)); reflexivity.
Qed.

(** A level method on a logger that has neither handlers of its own nor
    handlers above it: no handler is handed the record, and the last-resort
    handler of [logging] writes it when its level is [WARNING] or above. *)
Lemma loggers_call_last_resort (m : LevelMethod) (self : nat) (o : LoggerObj)
    (message : string) (caller : Frame) (rest : list Frame) (w : World) :
  w_objects w !! self = Some o ->
  enabled_at (_logger o) (levelno_of m) w = true ->
  factory_ok (w_factory w) ->
  lg_handlers (logger_of (_logger o) w) = [] ->
  no_handlers_above (_logger o) w ->
  io_ok (w_env w) = true ->
  loggers_call m self message (caller :: rest) w =
    (Ok tt,
     if Z.leb WARNING (levelno_of m)
     then set_output
            (w_output w
             ++ [ToStderr (default_format (w_env w)
                             (call_record o m message caller (w_env w)))]) w
     else w).
Proof.
  intros Ho Hen Hfac Hhs Hno Hio.
  rewrite (loggers_call_dispatch _ _ _ _ _ _ _ Ho Hen Hfac). cbv zeta.
  rewrite callHandlers_no_handlers.
  2: { rewrite (handlers_in_reach_own (_logger o) (set_factory _ w) Hno). exact Hhs. }
  change (rec_levelno (call_record o m message caller (w_env w))) with (levelno_of m).
  change (w_env (set_factory _ w)) with (w_env w). rewrite Hio.
  destruct (Z.leb WARNING (levelno_of m)); cbn [fst snd]; f_equal; destruct w; reflexivity.
Qed.

(** What the last-resort handler writes for the record of a call: the
    prefixed message, and for [error] and [critical] the text of the exception
    being handled after it. *)
Lemma default_format_call_record (o : LoggerObj) (m : LevelMethod) (message : string)
    (caller : Frame) (env : Env) :
  default_format env (call_record o m message caller env) =
    if passes_exc_info m
    then add_exc_text (capitalized m ++ ": " ++ message)
           (formatException env (handling env))
    else capitalized m ++ ": " ++ message.
Proof. destruct m; reflexivity. Qed.

(** X11.  After [_close_logger] the logger object still accepts calls but
    has no sink.  [_close_logger] removes every handler of the object's
    logger.  When the logger has kept its level and no logger above it has a
    handler, a level method called afterwards from a frame [caller] ends
    normally and hands its record to no handler; for [debug] and [info]
    nothing at all is written, and for [warning], [error] and [critical] the
    last-resort handler of [logging] writes to [sys.stderr] the prefixed
    message, without time, name, level or caller context, and for [error] and
    [critical] with the text of the exception being handled after it
    ([NoneType: None] when there is none). *)
Theorem closed_logger_has_no_sink (m : LevelMethod) (self : nat) (o : LoggerObj)
    (message : string) (caller : Frame) (rest : list Frame) (w : World) :
  w_objects w !! self = Some o ->
  lg_level (logger_of (_logger o) w) = DEBUG ->
  no_handlers_above (_logger o) w ->
  factory_ok (w_factory w) ->
  io_ok (w_env w) = true ->
  let closed := loggers_Logger._close_logger self w in
  let res := loggers_call m self message (caller :: rest) (snd closed) in
  let text := capitalized m ++ ": " ++ message in
  fst closed = Ok tt /\
  lg_handlers (logger_of (_logger o) (snd closed)) = [] /\
  fst res = Ok tt /\
  w_offered (snd res) = w_offered w /\
  w_output (snd res) =
    if Z.leb WARNING (levelno_of m)
    then (w_output w
          ++ [ToStderr (if passes_exc_info m
                        then add_exc_text text
                               (formatException (w_env w) (handling (w_env w)))
                        else text)])%list
    else w_output w.
Proof.
  intros Ho Hdebug Hno Hfac Hio closed res text. subst closed res.
  rewrite (close_logger_unfold _ _ _ Ho).
  destruct (remove_loop_handlers (_logger o) w) as (Hok & Hhs & Hlvl & Hfr & Hother).
  destruct (for_each _ _ w) as [rc wc]. cbn [fst snd] in *.
  destruct Hfr as (Ffac & Fobj & Freg & Foff & Fout & Fdb & Fenv).
  split; [exact Hok|]. split; [exact Hhs|].
  assert (Hoc : w_objects wc !! self = Some o) by (rewrite Fobj; exact Ho).
  assert (Hnoc : no_handlers_above (_logger o) wc).
  { apply (no_handlers_above_preserved _ w); [|exact Hno].
    intros p Hp. unfold logger_of. rewrite Hother by congruence. reflexivity. }
  rewrite (loggers_call_last_resort m self o message caller rest wc Hoc).
  - rewrite default_format_call_record. rewrite Fenv. fold text.
    destruct (Z.leb WARNING (levelno_of m)); cbn [fst snd]; simpl;
      rewrite ?Foff, ?Fout; repeat split.
  - rewrite enabled_at_own; rewrite Hlvl, Hdebug; [|discriminate].
    apply Z.leb_le, levelno_of_ge_DEBUG.
  - rewrite Ffac. exact Hfac.
  - exact Hhs.
  - exact Hnoc.
  - rewrite Fenv. exact Hio.
Qed.

(** X11 for [error("disk full")] on the logger with a file and a console
    sink, closed before, outside any [except] block. *)
Lemma closed_logger_has_no_sink_witness :
  w_output (snd (loggers_call m_error 0 "disk full" [app_frame]
                   (snd (loggers_Logger._close_logger 0 world_file_logger))))
    = [ToStderr ("Error: disk full" ++ NL ++ "NoneType: None")].
Proof.
  destruct (closed_logger_has_no_sink m_error 0 file_logger_object "disk full"
              app_frame [] world_file_logger) as (_ & _ & _ & _ & H).
  - vm_compute. reflexivity.
  - vm_compute. reflexivity.
  - exact world_file_logger_alone.
  - vm_compute. exact I.
  - reflexivity.
  - rewrite H. vm_compute. reflexivity.
Defined.

(** ** The registry, continued *)

(** X12.  The registry cannot close what it holds.  [close_logger] and
    [close_all_loggers] read the attribute [logger] of a registered object,
    which a [Logger] of loggers.py does not have (its attribute is
    [_logger]).  So [close_logger] on a registered key and
    [close_all_loggers] on a registry that is not empty raise
    [AttributeError] and change nothing: no handler is removed and no entry
    leaves the registry.  They end normally only when there is nothing to
    do: [close_logger] on a key that is not registered, and
    [close_all_loggers] on the empty registry. *)
Theorem registry_close_raises_on_registered_loggers (key : string) (w : World) :
  (is_Some (w_registry w !! key) ->
     exists what,
       logging_manager_LoggerManager.close_logger key w = (Raise (AttributeError what), w)) /\
  (w_registry w !! key = None ->
     logging_manager_LoggerManager.close_logger key w = (Ok tt, w)) /\
  (w_registry w <> ∅ ->
     exists what,
       logging_manager_LoggerManager.close_all_loggers w = (Raise (AttributeError what), w)) /\
  (w_registry w = ∅ ->
     fst (logging_manager_LoggerManager.close_all_loggers w) = Ok tt /\
     w_registry (snd (logging_manager_LoggerManager.close_all_loggers w)) = ∅ /\
     w_loggers (snd (logging_manager_LoggerManager.close_all_loggers w)) = w_loggers w).
Proof.
  split; [|split; [|split]].
  - intros [l Hl]. unfold logging_manager_LoggerManager.close_logger.
    unfold bind at 1. unfold gets at 1. rewrite Hl.
    eexists. reflexivity.
  - intros Hl. unfold logging_manager_LoggerManager.close_logger.
    unfold bind at 1. unfold gets at 1. rewrite Hl. reflexivity.
  - intros Hne. unfold logging_manager_LoggerManager.close_all_loggers.
    unfold bind at 1. unfold gets at 1.
    destruct (map_to_list (w_registry w)) as [|[k l] rest] eqn:Hlist.
    + apply map_to_list_empty_iff in Hlist. contradiction.
    + eexists. reflexivity.
  - intros Hempty.
    assert (Heq : logging_manager_LoggerManager.close_all_loggers w
                  = (Ok tt, set_registry ∅ w)).
    { unfold logging_manager_LoggerManager.close_all_loggers.
      unfold bind at 1. unfold gets at 1. rewrite Hempty.
      rewrite map_to_list_empty. reflexivity. }
    rewrite Heq. repeat split.
Qed.

(** X12 for the key ["logs/app.log"] after the first lookup of a
    process. *)
Lemma registry_close_raises_on_registered_loggers_witness :
  is_ok (fst (logging_manager_LoggerManager.close_logger "logs/app.log"
                world_after_first_lookup)) = false /\
  snd (logging_manager_LoggerManager.close_logger "logs/app.log" world_after_first_lookup)
    = world_after_first_lookup.
Proof.
  destruct (registry_close_raises_on_registered_loggers "logs/app.log"
              world_after_first_lookup) as (H & _).
  destruct H as [what ->].
  - exists 0%nat. reflexivity.
  - split; reflexivity.
Defined.

(** X13.  On a key that is registered, [get_logger] does not look at its
    [formatter_type] argument: the outcome and the whole state after the call
    are the same for any two values of it, and every handler the lookup
    attaches has the formatter of the type the object was constructed
    with. *)
Theorem repeated_lookup_ignores_the_formatter_type (key ft1 ft2 : string)
    (new_name : option string) (l : nat) (o : LoggerObj) (w : World) :
  w_registry w !! key = Some l ->
  w_objects w !! l = Some o ->
  lo_class o = Logger ->
  logging_manager_LoggerManager.get_logger key ft1 new_name w
    = logging_manager_LoggerManager.get_logger key ft2 new_name w /\
  forall h,
    h ∈ lg_handlers (logger_of (str_or new_name loggers_Logger.__name__)
                       (snd (logging_manager_LoggerManager.get_logger key ft1 new_name w))) ->
    h_formatter h.2 = formatter_of o.
Proof.
  intros Hreg Ho Hc.
  rewrite (get_logger_cached_eq key ft1 _ _ _ _ Hreg Ho Hc).
  rewrite (get_logger_cached_eq key ft2 _ _ _ _ Hreg Ho Hc).
  split; [reflexivity|].
  intros h. destruct (can_open o (w_env w)); cbn [snd];
    unfold logger_of; simpl; rewrite lookup_insert_eq; simpl.
  - unfold provisioned. destruct (String.eqb _ _); intros Hin;
      repeat (apply elem_of_cons in Hin as [->|Hin]; [reflexivity|]);
      by apply not_elem_of_nil in Hin.
  - intros Hin. by apply not_elem_of_nil in Hin.
Qed.

(** X13 for a second lookup of ["logs/app.log"] that asks for ["prod"]. *)
Lemma repeated_lookup_ignores_the_formatter_type_witness :
  logging_manager_LoggerManager.get_logger "logs/app.log" "prod" (Some "svc")
    world_after_first_lookup
  = logging_manager_LoggerManager.get_logger "logs/app.log" "local" (Some "svc")
      world_after_first_lookup.
Proof.
  apply (repeated_lookup_ignores_the_formatter_type "logs/app.log" "prod" "local"
           (Some "svc") 0 file_logger_object world_after_first_lookup).
  - vm_compute. reflexivity.
  - vm_compute. reflexivity.
  - reflexivity.
Defined.

(** ** [PostgreSQLLogger] *)

Lemma PostgreSQLLogger_setup_logger_unfold (self : nat) (o : LoggerObj) (w : World) :
  w_objects w !! self = Some o ->
  loggers_Logger.PostgreSQLLogger_setup_logger self w =
    PostgreSQLLogger_provision (str_or (name o) loggers_Logger.__name__)
      (setup_cleared (str_or (name o) loggers_Logger.__name__) self w).
Proof.
  intros Ho.
  unfold loggers_Logger.PostgreSQLLogger_setup_logger.
  unfold bind at 1. rewrite (get_object_some _ _ _ Ho).
  set (lname := str_or (name o) loggers_Logger.__name__).
  unfold bind at 1. unfold getLogger at 1. unfold modify at 1.
  unfold bind at 1. unfold update_object at 1. unfold modify at 1.
  unfold bind at 1. unfold setLevel at 1. unfold modify at 1.
  unfold bind at 1. unfold handlers_copy at 1. unfold gets at 1.
  unfold bind at 1.
  rewrite logger_of_update. simpl lg_handlers.
  erewrite remove_loop; cycle 1.
  { unfold update_logger. simpl. apply lookup_insert_eq. }
  simpl lg_level. simpl lg_handlers.
  rewrite filter_none; cycle 1.
  { intros x Hx Hn. apply Hn. apply list_elem_of_fmap. eauto. }
  unfold update_logger, setup_cleared. simpl.
  rewrite !insert_insert_eq.
  reflexivity.
Qed.

Lemma PostgreSQLLogger_provision_eq (lname : string) (w : World) :
  logger_of lname w = mkPyLogger DEBUG [] ->
  PostgreSQLLogger_provision lname w =
    if db_up (w_env w)
    then (Ok tt,
          set_next (S (S (w_next w)))
            (set_loggers (<[lname := mkPyLogger DEBUG (pg_provisioned (w_next w))]>
                            (w_loggers w)) w))
    else (Raise (DBError "cannot connect"), w).
Proof.
  intros Hlg.
  unfold PostgreSQLLogger_provision, loggers_SQLAlchemyLogHandler.__init__,
    create_engine_and_tables.
  unfold bind at 1 2 3. unfold gets at 1.
  destruct (db_up (w_env w)) eqn:Hdb; [|reflexivity].
  unfold ret at 1. unfold fresh at 1. unfold bind at 1.
  rewrite addHandler_fresh.
  2: { rewrite logger_of_set_next, Hlg. apply not_elem_of_nil. }
  unfold StreamHandler_new. unfold bind at 1. unfold fresh at 1.
  rewrite addHandler_fresh.
  2: { rewrite logger_of_set_next, logger_of_update, logger_of_set_next, Hlg.
       simpl. rewrite list_elem_of_singleton. lia. }
  f_equal. unfold update_logger at 1.
  rewrite logger_of_set_next, logger_of_update, logger_of_set_next, Hlg.
  unfold update_logger, set_loggers, set_next. simpl.
  rewrite insert_insert_eq. reflexivity.
Qed.

(** [PostgreSQLLogger.__init__] in one step. *)
Lemma PostgreSQLLogger_init_eq (new_name : option string) (ft : string) (w : World) :
  let lname := str_or new_name loggers_Logger.__name__ in
  let o := mkLoggerObj PostgreSQLLogger None new_name ft "" in
  let n := w_next w in
  loggers_PostgreSQLLogger.__init__ new_name ft w =
    if db_up (w_env w)
    then (Ok n,
          set_next (S (S (S n)))
            (set_loggers (<[lname := mkPyLogger DEBUG (pg_provisioned (S n))]>
                            (w_loggers w))
               (set_objects (<[n := set_attr_logger lname o]> (w_objects w)) w)))
    else (Raise (DBError "cannot connect"),
          set_next (S n)
            (set_loggers (<[lname := mkPyLogger DEBUG []]> (w_loggers w))
               (set_objects (<[n := set_attr_logger lname o]> (w_objects w)) w))).
Proof.
  intros lname o n.
  unfold loggers_PostgreSQLLogger.__init__.
  unfold bind at 1. unfold fresh at 1. fold n.
  unfold bind at 1. unfold modify at 1.
  set (w2 := set_objects _ _).
  assert (Ho2 : w_objects w2 !! n = Some o).
  { unfold w2. simpl. now rewrite lookup_insert_eq. }
  unfold bind at 1.
  unfold loggers_Logger._setup_logger. unfold bind at 1.
  rewrite (get_object_some _ _ _ Ho2). cbn [lo_class o].
  rewrite (PostgreSQLLogger_setup_logger_unfold _ _ _ Ho2).
  rewrite PostgreSQLLogger_provision_eq by apply setup_cleared_logger.
  change (str_or (name o) loggers_Logger.__name__) with lname.
  change (w_env (setup_cleared lname n w2)) with (w_env w).
  change (w_next (setup_cleared lname n w2)) with (S n).
  destruct (db_up (w_env w)).
  - unfold_m. f_equal.
    unfold w2, setup_cleared, set_next, set_loggers, set_objects. simpl.
    rewrite insert_insert_eq.
    f_equal. apply map_eq. intros k.
    destruct (decide (k = n)) as [->|Hk].
    + now rewrite lookup_alter_eq, !lookup_insert_eq.
    + rewrite lookup_alter_ne by congruence. now rewrite !lookup_insert_ne by congruence.
  - f_equal.
    unfold w2, setup_cleared, set_next, set_loggers, set_objects. simpl.
    f_equal. apply map_eq. intros k.
    destruct (decide (k = n)) as [->|Hk].
    + now rewrite lookup_alter_eq, !lookup_insert_eq.
    + rewrite lookup_alter_ne by congruence. now rewrite !lookup_insert_ne by congruence.
Qed.

(** X14.  [PostgreSQLLogger(base, name, formatter_type)] does not use its
    [formatter_type]: when the database answers, the constructor returns a
    new object whose logger has the database handler at [DEBUG] and a console
    handler at [INFO], both with the format that has the time, whatever the
    formatter type is.  When the database does not answer, the constructor
    raises the database error after it has removed the handlers of the logger
    of that name, which is left without any handler. *)
Theorem postgres_logger_construction (new_name : option string) (ft : string) (w : World) :
  let lname := str_or new_name loggers_Logger.__name__ in
  let res := loggers_PostgreSQLLogger.__init__ new_name ft w in
  (db_up (w_env w) = true ->
     fst res = Ok (w_next w) /\
     logger_of lname (snd res) = mkPyLogger DEBUG (pg_provisioned (S (w_next w)))) /\
  (db_up (w_env w) = false ->
     fst res = Raise (DBError "cannot connect") /\
     logger_of lname (snd res) = mkPyLogger DEBUG []).
Proof.
  intros lname res. subst res. rewrite PostgreSQLLogger_init_eq. fold lname.
  split; intros Hdb; rewrite Hdb; cbn [fst snd];
    (split; [reflexivity|]); unfold logger_of; simpl; now rewrite lookup_insert_eq.
Qed.

(** X14 for [PostgreSQLLogger(base, "db", "prod")] in a fresh process
    whose database answers. *)
Lemma postgres_logger_construction_witness :
  let res := loggers_PostgreSQLLogger.__init__ (Some "db") "prod" (fresh_world env_up) in
  fst res = Ok 0%nat /\ logger_of "db" (snd res) = mkPyLogger DEBUG (pg_provisioned 1).
Proof.
  destruct (postgres_logger_construction (Some "db") "prod" (fresh_world env_up))
    as (H & _).
  apply H. reflexivity.
Defined.
(** ** From the call to the row *)


(** [StreamHandler.emit] when the record formats. *)
Lemma StreamHandler_emit_eq (hid : nat) (h : Handler) (r : LogRecord) (line : string)
    (w : World) :
  format (w_env w) (h_formatter h) r = Ok line ->
  StreamHandler_emit hid h r w =
    (Ok tt,
     set_output
       (w_output w ++
        [if io_ok (w_env w)
         then match h_class h with
              | FileHandler path => ToFile path line
              | _ => ToStderr line
              end
         else HandleError hid (OSError "write failed")]) w).
Proof.
  intros Hfmt. unfold StreamHandler_emit, write, handleError. unfold_m.
  rewrite Hfmt. destruct (io_ok (w_env w)); reflexivity.
Qed.


(** The record of a direct call from [caller] formats, and the line is
    [facade_line]. *)
Lemma format_facade_record (fmt : Formatter) (lname : string) (lvl : Z) (message : string)
    (exc_info : bool) (extra : option PyDict) (caller : Frame) (env : Env) :
  extra_accepted extra ->
  format env fmt (facade_record lname lvl message exc_info extra (context_of caller) env)
    = Ok (facade_line fmt lname lvl message exc_info caller env).
Proof.
  intros Hex. unfold format, formatMessage, record_field, facade_record. cbn [rec_attrs].
  rewrite !with_extra_custom by (try exact Hex; unfold custom_keys; rewrite !elem_of_cons; auto).
  unfold custom_attrs, context_of, dict_get.
  simplify_map_eq. cbn [bindR fmt_d default rec_created rec_name rec_levelname rec_msg
                         rec_exc_info py_str].
  unfold facade_line. cbv zeta.
  destruct exc_info; cbn [bindR]; destruct fmt; rewrite ?append_assoc; reflexivity.
Qed.

(** The loop of [callHandlers] over handlers of the standard library that
    all format the record to the same line, while writing works: every
    handler that takes the level is handed the record and writes the line. *)
Lemma for_each_offer_lines (r : LogRecord) (line : string) (hs : list (nat * Handler))
    (w : World) :
  (forall h, h ∈ hs ->
     is_stdlib_handler h /\ format (w_env w) (h_formatter h.2) r = Ok line) ->
  io_ok (w_env w) = true ->
  for_each hs (offer r) w =
    (Ok tt,
     set_output (w_output w ++ lines_written line (accepting (rec_levelno r) hs))
       (set_offered (w_offered w ++ offers r (accepting (rec_levelno r) hs)) w)).
Proof.
  revert w. induction hs as [|h rest IH]; intros w Hhs Hio.
  - simpl. unfold lines_written, offers, accepting. simpl. rewrite !app_nil_r.
    destruct w; reflexivity.
  - destruct (Hhs h) as [Hstd Hfmt]; [left|].
    assert (Hrest : forall x, x ∈ rest ->
              is_stdlib_handler x /\ format (w_env w) (h_formatter x.2) r = Ok line).
    { intros x Hx. apply Hhs. now right. }
    rewrite for_each_cons, offer_unfold, accepting_cons.
    destruct (Z.leb (h_level h.2) (rec_levelno r)).
    + assert (Hemit : forall w0, w_env w0 = w_env w -> io_ok (w_env w0) = true ->
                emit h.1 h.2 r w0 =
                  (Ok tt,
                   set_output (w_output w0 ++
                     [match h_class h.2 with
                      | FileHandler path => ToFile path line
                      | _ => ToStderr line
                      end]) w0)).
      { intros w0 He H0. unfold emit. unfold is_stdlib_handler in Hstd.
        rewrite <- He in Hfmt.
        destruct (h_class h.2) eqn:Hc; try congruence;
          rewrite (StreamHandler_emit_eq _ _ _ line _ Hfmt), H0, ?Hc; reflexivity. }
      rewrite Hemit by (reflexivity || exact Hio).
      rewrite IH; [|exact Hrest|exact Hio].
      unfold lines_written, offers. destruct w; simpl. rewrite <- !app_assoc. reflexivity.
    + now rewrite IH.
Qed.

Lemma callHandlers_lines (lname : string) (r : LogRecord) (line : string) (w : World) :
  let hs := handlers_in_reach lname w in
  hs <> [] ->
  (forall h, h ∈ hs ->
     is_stdlib_handler h /\ format (w_env w) (h_formatter h.2) r = Ok line) ->
  io_ok (w_env w) = true ->
  callHandlers emit lname r w =
    (Ok tt,
     set_output (w_output w ++ lines_written line (accepting (rec_levelno r) hs))
       (set_offered (w_offered w ++ offers r (accepting (rec_levelno r) hs)) w)).
Proof.
  intros hs Hne Hhs Hio. rewrite callHandlers_unfold.
  fold hs. destruct hs as [|h rest] eqn:E; [congruence|].
  now apply for_each_offer_lines.
Qed.

Lemma provisioned_not_nil (o : LoggerObj) (n : nat) : provisioned o n <> [].
Proof. unfold provisioned. destruct (String.eqb _ _); discriminate. Qed.

Lemma provisioned_formatter (o : LoggerObj) (n : nat) (h : nat * Handler) :
  h ∈ provisioned o n -> h_formatter h.2 = formatter_of o.
Proof.
  unfold provisioned. destruct (String.eqb _ _); intros Hh;
    repeat (apply elem_of_cons in Hh as [->|Hh]; [reflexivity|]);
    by apply not_elem_of_nil in Hh.
Qed.

(** The handlers [_setup_logger] made all write the line of a call. *)
Lemma provisioned_write_the_line (o : LoggerObj) (n : nat) (m : LevelMethod)
    (message : string) (caller : Frame) (env : Env) (h : nat * Handler) :
  h ∈ provisioned o n ->
  is_stdlib_handler h /\
  format env (h_formatter h.2) (call_record o m message caller env)
    = Ok (facade_line (formatter_of o) (_logger o) (levelno_of m)
            (capitalized m ++ ": " ++ message) (passes_exc_info m) caller env).
Proof.
  intros Hh. split.
  - pose proof (provisioned_stdlib o n) as Hall.
    rewrite Forall_forall in Hall. now apply Hall.
  - rewrite (provisioned_formatter _ _ _ Hh). apply format_facade_record. exact I.
Qed.

(** A level method of loggers.py called from [caller], on an object whose
    logger has the handlers [_setup_logger] made and no handler above it, in
    one step. *)
Lemma loggers_call_eq (m : LevelMethod) (self : nat) (o : LoggerObj) (n : nat)
    (message : string) (caller : Frame) (rest : list Frame) (w : World) :
  w_objects w !! self = Some o ->
  logger_of (_logger o) w = mkPyLogger DEBUG (provisioned o n) ->
  no_handlers_above (_logger o) w ->
  factory_ok (w_factory w) ->
  io_ok (w_env w) = true ->
  let r := call_record o m message caller (w_env w) in
  let line := facade_line (formatter_of o) (_logger o) (levelno_of m)
                (capitalized m ++ ": " ++ message) (passes_exc_info m) caller (w_env w) in
  loggers_call m self message (caller :: rest) w =
    (Ok tt,
     set_output (w_output w ++ lines_written line (provisioned o n))
       (set_offered (w_offered w ++ offers r (provisioned o n)) w)).
Proof.
  intros Ho Hlg Hno Hfac Hio r line.
  rewrite (loggers_call_dispatch _ _ _ _ _ _ _ Ho).
  2: { rewrite (enabled_at_DEBUG _ _ _ _ Hlg). apply Z.leb_le, levelno_of_ge_DEBUG. }
  2: { exact Hfac. }
  cbv zeta. fold r.
  set (w1 := set_factory _ w).
  assert (Hreach : handlers_in_reach (_logger o) w1 = provisioned o n).
  { rewrite (handlers_in_reach_own (_logger o) w1 Hno).
    change (logger_of (_logger o) w1) with (logger_of (_logger o) w).
    now rewrite Hlg. }
  rewrite (callHandlers_lines (_logger o) r line w1).
  - rewrite Hreach. cbn [fst snd].
    change (rec_levelno r) with (levelno_of m).
    rewrite accepting_provisioned by apply levelno_of_ge_DEBUG.
    unfold w1. destruct w; reflexivity.
  - rewrite Hreach. apply provisioned_not_nil.
  - rewrite Hreach. intros h Hh. apply (provisioned_write_the_line o n). exact Hh.
  - exact Hio.
Qed.

(** X15.  What the sinks of a [Logger] (loggers.py) receive for a direct
    call.  On an object whose logger has the handlers [_setup_logger] made for
    it and no handler above it, in a process whose record factory is well
    formed and whose streams can be written, each level method called from
    [caller] ends normally and makes every handler write the same line, the
    file handler (if any) to the log file and the console handler to
    [sys.stderr]:
    [<time> - ] name - LEVEL - <Level>: message -> module - function - line of
    [caller], with the time only for the formatter of type ["local"], and, for
    [error] and [critical], followed on a new line by the text that
    [logging] renders for the exception being handled (["NoneType: None"]
    when there is none).  Nothing is stored in the database and the record
    factory is as before. *)
Theorem level_method_writes_the_callers_line (m : LevelMethod) (self : nat)
    (o : LoggerObj) (n : nat) (message : string) (caller : Frame) (rest : list Frame)
    (w : World) :
  w_objects w !! self = Some o ->
  logger_of (_logger o) w = mkPyLogger DEBUG (provisioned o n) ->
  no_handlers_above (_logger o) w ->
  factory_ok (w_factory w) ->
  io_ok (w_env w) = true ->
  let line := facade_line (formatter_of o) (_logger o) (levelno_of m)
                (capitalized m ++ ": " ++ message) (passes_exc_info m) caller (w_env w) in
  let res := loggers_call m self message (caller :: rest) w in
  fst res = Ok tt /\
  w_output (snd res) = (w_output w ++ lines_written line (provisioned o n))%list /\
  w_db (snd res) = w_db w /\
  w_factory (snd res) = w_factory w.
Proof.
  intros Ho Hlg Hno Hfac Hio line res. subst res.
  rewrite (loggers_call_eq m self o n message caller rest w Ho Hlg Hno Hfac Hio).
  repeat split.
Qed.

(** X15 for [error("disk full")] from [handle_request] on the logger made
    by [Logger("local", "logs/app.log", "svc")], outside any [except]
    block. *)
Lemma level_method_writes_the_callers_line_witness :
  let line := "2024-05-01 12:00:00,000 - svc - ERROR - Error: disk full"
              ++ " -> app.views - handle_request - 42" ++ NL ++ "NoneType: None" in
  w_output (snd (loggers_call m_error 0 "disk full" [app_frame] world_file_logger))
    = [ToFile "logs/app.log" line; ToStderr line].
Proof.
  intros line.
  destruct (level_method_writes_the_callers_line m_error 0 file_logger_object 1
              "disk full" app_frame [] world_file_logger)
    as (_ & H & _).
  - reflexivity.
  - reflexivity.
  - exact world_file_logger_alone.
  - exact I.
  - reflexivity.
  - rewrite H. vm_compute. reflexivity.
Defined.

(** ** The level methods of [PostgreSQLLogger] *)

Lemma postgres_call_unfold (m : LevelMethod) (self : nat) (o : LoggerObj)
    (message : string) (error_info : option PyDict) (caller_stack : list Frame)
    (w : World) :
  w_objects w !! self = Some o ->
  postgres_call m self message error_info caller_stack w =
    loggers_Logger._log self (levelno_of m) (capitalized m ++ ": " ++ message)
      (passes_exc_info m) (postgres_extra m error_info)
      (loggers_Logger.method_frame (method_name m) (postgres_line m) o :: caller_stack) w.
Proof.
  intros Ho.
  destruct m; unfold postgres_call;
    [rewrite (loggers_call_unfold m_debug _ _ _ _ _ Ho); destruct (lo_class o); reflexivity
    |rewrite (loggers_call_unfold m_info _ _ _ _ _ Ho); destruct (lo_class o); reflexivity
    |rewrite (loggers_call_unfold m_warning _ _ _ _ _ Ho); destruct (lo_class o); reflexivity
    | |];
    simpl; unfold loggers_PostgreSQLLogger.error, loggers_PostgreSQLLogger.critical;
    unfold bind at 1; rewrite (get_object_some _ _ _ Ho); reflexivity.
Qed.




Lemma legacy_capture_keys (e : ErrorObj) (info : PyDict) (w0 : World) :
  fst (logging_ErrorTracker.capture_error e w0) = Ok info ->
  is_Some (info !! "message") /\
  forall k, is_Some (info !! k) ->
    k ∈ ["type"; "message"; "args"; "traceback"; "timestamp"].
Proof.
  unfold logging_ErrorTracker.capture_error, logging_ErrorTracker.datetime_now_isoformat.
  unfold_m.
  destruct (exc_str e) as [s|x]; simpl; [|discriminate].
  intros [= <-]. split.
  - rewrite lookup_insert_ne by discriminate. rewrite lookup_insert_eq. eauto.
  - intros k [v Hv].
    destruct (decide (k = "type")) as [->|?]; [set_solver|].
    destruct (decide (k = "message")) as [->|?]; [set_solver|].
    destruct (decide (k = "args")) as [->|?]; [set_solver|].
    destruct (decide (k = "traceback")) as [->|?]; [set_solver|].
    destruct (decide (k = "timestamp")) as [->|?]; [set_solver|].
    rewrite !lookup_insert_ne in Hv by congruence. by rewrite lookup_empty in Hv.
Qed.

(** X17.  The dictionary of [capture_error] of logging.py cannot be
    passed as [error_info].  It has the keys ["message"] and ["args"], which
    a [LogRecord] already has: [error] and [critical] of a
    [PostgreSQLLogger], given that dictionary, raise [KeyError] from
    [makeRecord] on every stack; no handler is handed anything, nothing is
    written or stored, and the state of the process, the record factory
    included, is as before the call. *)
Theorem legacy_error_dict_is_refused (m : LevelMethod) (self : nat) (o : LoggerObj)
    (message : string) (e : ErrorObj) (info : PyDict) (stack : list Frame)
    (w0 w : World) :
  w_objects w !! self = Some o ->
  enabled_at (_logger o) (levelno_of m) w = true ->
  factory_ok (w_factory w) ->
  passes_exc_info m = true ->
  fst (logging_ErrorTracker.capture_error e w0) = Ok info ->
  let res := postgres_call m self message (Some info) stack w in
  (exists k, k ∈ ["message"; "args"] /\
     fst res = Raise (KeyError ("Attempt to overwrite '" ++ k ++ "' in LogRecord"))) /\
  snd res = w.
Proof.
  intros Ho Hen Hfac Hm Hinfo res. subst res.
  rewrite (postgres_call_unfold _ _ _ _ _ _ _ Ho).
  unfold postgres_extra. rewrite Hm. cbn [default].
  rewrite (loggers_log_unfold _ _ _ _ _ _ _ _ Ho).
  destruct (loggers_get_execution_info_total
              (loggers_Logger.own_frame "get_execution_info" 40 ∅
                 :: loggers_Logger.method_frame "_log" 116 o
                 :: loggers_Logger.method_frame (method_name m) (postgres_line m) o
                 :: stack))
    as (d & Hd & _).
  rewrite Hd. cbv zeta.
  set (w1 := set_factory (record_factory (w_factory w) d) w).
  rewrite Logger_log_unfold.
  change (enabled_at (_logger o) (levelno_of m) w1)
    with (enabled_at (_logger o) (levelno_of m) w).
  rewrite Hen.
  destruct (loggers_exec_info_keys _ _ Hd) as (Hfn & Hln & Hmd).
  destruct (call_factory_ok (record_factory (w_factory w) d) (_logger o) (levelno_of m)
              (capitalized m ++ ": " ++ message) (Some (handling (w_env w1)))
              (clock (w_env w1))) as [r0 Hr0].
  { simpl. auto. }
  pose proof (call_factory_closure_attrs _ _ _ _ _ _ _ _ Hr0) as Hattrs.
  destruct (legacy_capture_keys _ _ _ Hinfo) as ([v0 Hmsg] & Hkeys). clear Hinfo.
  unfold makeRecord. unfold_m.
  change (w_factory w1) with (record_factory (w_factory w) d).
  rewrite Hr0. unfold id.
  match goal with
  | |- context [filter ?P (map_to_list info)] =>
      destruct (filter P (map_to_list info)) as [|kv l] eqn:Hflt
  end.
  - exfalso.
    assert (Hin : ("message", v0) ∈
              filter (fun kv : string * PyVal =>
                        kv.1 ∈ std_record_keys \/ is_Some (rec_attrs r0 !! kv.1))
                     (map_to_list info)).
    { apply list_elem_of_filter. split.
      - left. cbn [fst]. unfold std_record_keys.
        rewrite !elem_of_cons. repeat first [left; reflexivity|right].
      - apply elem_of_map_to_list. exact Hmsg. }
    rewrite Hflt in Hin. by apply not_elem_of_nil in Hin.
  - assert (Hin : kv ∈ filter (fun kv : string * PyVal =>
                        kv.1 ∈ std_record_keys \/ is_Some (rec_attrs r0 !! kv.1))
                     (map_to_list info)).
    { rewrite Hflt. left. }
    apply list_elem_of_filter in Hin as [Hp Hin]. destruct kv as [k v].
    apply elem_of_map_to_list in Hin. cbn [fst snd] in Hp, Hin |- *.
    split; [|destruct w; reflexivity].
    exists k. split; [|reflexivity].
    assert (Hcustom : ~ ((k ∉ custom_keys) /\ (k ∉ std_record_keys))).
    { intros [H1 H2]. destruct Hp as [Hp|Hp]; [contradiction|].
      rewrite Hattrs in Hp. apply custom_attrs_keys in Hp. contradiction. }
    assert (Hk : k ∈ ["type"; "message"; "args"; "traceback"; "timestamp"])
      by (apply Hkeys; eauto).
    clear - Hk Hcustom.
    rewrite !elem_of_cons in Hk.
    destruct Hk as [->|[->|[->|[->|[->|Hk]]]]].
    + exfalso. apply Hcustom. split; [|unfold std_record_keys]; not_custom_key.
    + rewrite !elem_of_cons. auto.
    + rewrite !elem_of_cons. auto.
    + exfalso. apply Hcustom. split; [|unfold std_record_keys]; not_custom_key.
    + exfalso. apply Hcustom. split; [|unfold std_record_keys]; not_custom_key.
    + by apply not_elem_of_nil in Hk.
Qed.

(** X17 for the dictionary captured from [ValueError("boom")] and
    [error("failed", info)] on the logger made by
    [PostgreSQLLogger(base, "db")]. *)
Lemma legacy_error_dict_is_refused_witness :
  let res := loggers_PostgreSQLLogger.error 0 "failed" (Some legacy_capture) [app_frame]
               world_db_logger in
  is_ok (fst res) = false /\ snd res = world_db_logger.
Proof.
  intros res.
  destruct (legacy_error_dict_is_refused m_error 0 db_logger_object "failed"
              value_error_never_raised legacy_capture [app_frame] (fresh_world env_up)
              world_db_logger)
    as ((k & _ & Hres) & Hw).
  - reflexivity.
  - reflexivity.
  - exact I.
  - reflexivity.
  - reflexivity.
  - split; [|exact Hw].
    change (is_ok (fst (postgres_call m_error 0 "failed" (Some legacy_capture) [app_frame]
                          world_db_logger)) = false).
    now rewrite Hres.
Defined.

Lemma capture_error_accepted (e : ErrorObj) (info : PyDict) (w0 : World) :
  fst (loggers_ErrorTracker.capture_error e w0) = Ok info ->
  extra_accepted (Some info) /\
  exists s, exc_str e = Ok s /\
    info !! "error_type" = Some (PyStr (exc_type e)) /\
    info !! "error_message" = Some (PyStr s) /\
    info !! "error_args" = Some (PyTuple (exc_args e)) /\
    info !! "error_traceback"
      = Some (PyList (PyStr <$> format_exception (w_env w0) e)) /\
    info !! "custom_class" = None.
Proof.
  unfold loggers_ErrorTracker.capture_error. unfold_m.
  destruct (exc_str e) as [s|x]; simpl; [|discriminate].
  intros [= <-]. split.
  - intros k [v Hv].
    destruct (decide (k = "error_type")) as [->|?];
      [split; [unfold std_record_keys|]; not_custom_key|].
    destruct (decide (k = "error_message")) as [->|?];
      [split; [unfold std_record_keys|]; not_custom_key|].
    destruct (decide (k = "error_args")) as [->|?];
      [split; [unfold std_record_keys|]; not_custom_key|].
    destruct (decide (k = "error_traceback")) as [->|?];
      [split; [unfold std_record_keys|]; not_custom_key|].
    rewrite !lookup_insert_ne in Hv by congruence. by rewrite lookup_empty in Hv.
  - exists s. split; [reflexivity|]. repeat split; by simplify_map_eq.
Qed.

(** X18.  The dictionary of [capture_error] of loggers.py is what
    [error_info] takes.  When [error] or [critical] of a [PostgreSQLLogger]
    whose logger has the handlers [_setup_logger] made is called from
    [caller] with the dictionary captured from an exception, in a process
    whose record factory is well formed, [makeRecord] accepts it: the record
    that is made carries the context of [caller] and the four [error_]
    entries, and it is handed to the database handler, which comes first; the
    row that handler builds from it has the exception's type name and message
    in [error_type] and [error_message], ["NA"] as class, and in [error_args]
    and [error_traceback] the values of the dictionary as they are: a tuple
    and a list of strings, not text. *)
Theorem captured_error_travels_with_the_record (m : LevelMethod) (self : nat)
    (o : LoggerObj) (n : nat) (message : string) (e : ErrorObj) (info : PyDict)
    (caller : Frame) (rest : list Frame) (w0 w : World) :
  w_objects w !! self = Some o ->
  lo_class o = PostgreSQLLogger ->
  logger_of (_logger o) w = mkPyLogger DEBUG (pg_provisioned n) ->
  factory_ok (w_factory w) ->
  passes_exc_info m = true ->
  fst (loggers_ErrorTracker.capture_error e w0) = Ok info ->
  let res := postgres_call m self message (Some info) (caller :: rest) w in
  let r := facade_record (_logger o) (levelno_of m) (capitalized m ++ ": " ++ message)
             true (Some info) (context_of caller) (w_env w) in
  (exists later, w_offered (snd res) = (w_offered w ++ (n, r) :: later)%list) /\
  has_context_of caller r /\
  (forall line,
     error_type (row_of r line) = PyStr (exc_type e) /\
     Ok (py_str (w_env w) (error_message (row_of r line))) = exc_str e /\
     error_args (row_of r line) = PyTuple (exc_args e) /\
     error_traceback (row_of r line)
       = PyList (PyStr <$> format_exception (w_env w0) e) /\
     classname (row_of r line) = PyStr "NA").
Proof.
  intros Ho _ Hlg Hfac Hm Hinfo res r. subst res.
  destruct (capture_error_accepted _ _ _ Hinfo)
    as (Hex & s & Hs & I1 & I2 & I3 & I4 & I5).
  rewrite (postgres_call_unfold _ _ _ _ _ _ _ Ho).
  unfold postgres_extra. rewrite Hm.
  change (default ∅ (Some info)) with info.
  rewrite (loggers_log_eq self o (levelno_of m) (capitalized m ++ ": " ++ message)
             true (Some info) _ w (context_of caller) Ho).
  2: { rewrite (enabled_at_DEBUG _ _ _ _ Hlg). apply Z.leb_le, levelno_of_ge_DEBUG. }
  2: { exact Hfac. }
  2: { exact Hex. }
  2: { apply loggers_get_execution_info_caller. }
  cbv zeta. fold r.
  set (w1 := set_factory _ w).
  destruct (callHandlers_spec (_logger o) r w1) as (_ & Hoff & _).
  split.
  { rewrite handlers_in_reach_split in Hoff.
    change (logger_of (_logger o) w1) with (logger_of (_logger o) w) in Hoff.
    rewrite Hlg in Hoff. cbn [lg_handlers pg_provisioned app offered_to] in Hoff.
    cbn [snd h_level] in Hoff. change (rec_levelno r) with (levelno_of m) in Hoff.
    assert (Hl : Z.leb DEBUG (levelno_of m) = true)
      by apply Z.leb_le, levelno_of_ge_DEBUG.
    rewrite Hl in Hoff. eexists. exact Hoff. }
  assert (Hattr : forall k v, info !! k = Some v -> rec_attrs r !! k = Some v).
  { intros k v Hk. unfold r, facade_record, with_extra. cbn [rec_attrs].
    apply lookup_union_Some_l. exact Hk. }
  split.
  - unfold has_context_of, r, facade_record. cbn [rec_attrs].
    rewrite !with_extra_custom
      by (try exact Hex; unfold custom_keys; rewrite !elem_of_cons; auto).
    destruct (context_of_entries caller) as (C1 & C2 & C3).
    unfold custom_attrs, dict_get. rewrite C1, C2, C3.
    repeat split; by simplify_map_eq.
  - intros line. unfold row_of. cbn [error_type error_message error_args error_traceback
                                     classname].
    rewrite (Hattr _ _ I1), (Hattr _ _ I2), (Hattr _ _ I3), (Hattr _ _ I4).
    cbn [default from_option id py_str]. rewrite Hs.
    repeat split.
    unfold r, facade_record, with_extra. cbn [rec_attrs].
    rewrite lookup_union_r by exact I5.
    unfold custom_attrs. by simplify_map_eq.
Qed.

(** X18 for the dictionary captured from [ValueError("boom")] and
    [error("failed", info)] from [handle_request] on the logger made by
    [PostgreSQLLogger(base, "db")]. *)
Lemma captured_error_travels_with_the_record_witness :
  let res := postgres_call m_error 0 "failed" (Some loggers_capture) [app_frame]
               world_db_logger in
  (fun x => (x.1, rec_msg x.2, rec_attrs x.2 !! "error_type",
             rec_attrs x.2 !! "custom_function")) <$> head (w_offered (snd res))
  = Some (1%nat, "Error: failed", Some (PyStr "ValueError"),
          Some (PyStr "handle_request")).
Proof.
  intros res.
  destruct (captured_error_travels_with_the_record m_error 0 db_logger_object 1 "failed"
              value_error_never_raised loggers_capture app_frame [] (fresh_world env_up)
              world_db_logger)
    as ((later & Hoff) & _).
  - reflexivity.
  - reflexivity.
  - reflexivity.
  - exact I.
  - reflexivity.
  - reflexivity.
  - subst res. rewrite Hoff. vm_compute. reflexivity.
Defined.

(** ** Records that do not come from the facade *)









(** ** The facade of logging.py *)

(** A level method of logging.py called from [caller], on an object whose
    logger has the handlers [_setup_logger] made and no handler above it, in
    one step. *)
Lemma logging_call_eq (m : LevelMethod) (self : nat) (o : LoggerObj) (n : nat)
    (message : string) (caller : Frame) (rest : list Frame) (w : World) :
  w_objects w !! self = Some o ->
  logger_of (_logger o) w = mkPyLogger DEBUG (provisioned o n) ->
  no_handlers_above (_logger o) w ->
  factory_ok (w_factory w) ->
  io_ok (w_env w) = true ->
  let r := call_record o m message caller (w_env w) in
  let line := facade_line (formatter_of o) (_logger o) (levelno_of m)
                (capitalized m ++ ": " ++ message) (passes_exc_info m) caller (w_env w) in
  logging_call m self message (caller :: rest) w =
    (Ok tt,
     set_output (w_output w ++ lines_written line (provisioned o n))
       (set_offered (w_offered w ++ offers r (provisioned o n)) w)).
Proof.
  intros Ho Hlg Hno Hfac Hio r line.
  rewrite (logging_call_dispatch _ _ _ _ _ _ _ Ho).
  2: { rewrite (enabled_at_DEBUG _ _ _ _ Hlg). apply Z.leb_le, levelno_of_ge_DEBUG. }
  2: { exact Hfac. }
  cbv zeta. fold r.
  set (w1 := set_factory _ w).
  assert (Hreach : handlers_in_reach (_logger o) w1 = provisioned o n).
  { rewrite (handlers_in_reach_own (_logger o) w1 Hno).
    change (logger_of (_logger o) w1) with (logger_of (_logger o) w).
    now rewrite Hlg. }
  rewrite (callHandlers_lines (_logger o) r line w1).
  - rewrite Hreach. cbn [fst snd].
    change (rec_levelno r) with (levelno_of m).
    rewrite accepting_provisioned by apply levelno_of_ge_DEBUG.
    unfold w1. destruct w; reflexivity.
  - rewrite Hreach. apply provisioned_not_nil.
  - rewrite Hreach. intros h Hh. apply (provisioned_write_the_line o n). exact Hh.
  - exact Hio.
Qed.

(** X21.  A [CustomException] logs its own constructor.  Constructing
    [CustomException(message, logger)] with a [Logger] of logging.py whose
    logger has the handlers [_setup_logger] made and no handler above it, in a
    process whose record factory is well formed and whose streams can be
    written, succeeds from every stack, the empty one included, and returns an
    exception without traceback whose [args] is [(message,)].  Every handler
    writes one line, [Error: message] at level ERROR followed by the text that
    [logging] renders for the exception being handled, and the context in that
    line is never the code that constructs or raises the exception: it is
    function [__init__], line 111 of module [logger_system.logging]. *)
Theorem custom_exception_logs_its_own_constructor (message : string) (logger : nat)
    (o : LoggerObj) (n : nat) (caller_stack : list Frame) (w : World) :
  w_objects w !! logger = Some o ->
  logger_of (_logger o) w = mkPyLogger DEBUG (provisioned o n) ->
  no_handlers_above (_logger o) w ->
  factory_ok (w_factory w) ->
  io_ok (w_env w) = true ->
  let res := logging_CustomException.__init__ message logger caller_stack w in
  let line :=
    add_exc_text
      ((match formatter_of o with
        | FormatterLocal => clock (w_env w) ++ " - "
        | FormatterPlain => ""
        end)
       ++ _logger o ++ " - ERROR - Error: " ++ message
       ++ " -> logger_system.logging - __init__ - 111")
      (formatException (w_env w) (handling (w_env w))) in
  fst res = Ok (mkErrorObj "CustomException" "logger_system.logging" (Ok message)
                  [PyStr message] None) /\
  w_output (snd res) = (w_output w ++ lines_written line (provisioned o n))%list /\
  w_factory (snd res) = w_factory w.
Proof.
  intros Ho Hlg Hno Hfac Hio res line. subst res.
  pose proof (logging_call_eq m_error logger o n message
                (logging_CustomException.init_frame message) caller_stack w
                Ho Hlg Hno Hfac Hio) as Herr.
  cbv zeta in Herr.
  change (logging_call m_error logger message
            (logging_CustomException.init_frame message :: caller_stack) w)
    with (logging_Logger.error logger message
            (logging_CustomException.init_frame message :: caller_stack) w) in Herr.
  unfold logging_CustomException.__init__, bind.
  rewrite Herr.
  unfold logging_ErrorTracker.capture_error, logging_ErrorTracker.datetime_now_isoformat.
  unfold_m. cbn [exc_str fst snd w_output w_factory set_output set_offered].
  split; [reflexivity|]. split; [|reflexivity].
  unfold facade_line, line. destruct (formatter_of o); reflexivity.
Qed.

(** X21 for [CustomException("bad input", logger)] at module level, with
    the logger made by [Logger("logs/app.log", "svc")] of logging.py. *)
Lemma custom_exception_logs_its_own_constructor_witness :
  let line := "2024-05-01 12:00:00,000 - svc - ERROR - Error: bad input"
              ++ " -> logger_system.logging - __init__ - 111" ++ NL ++ "NoneType: None" in
  w_output (snd (logging_CustomException.__init__ "bad input" 0 [] world_legacy_logger))
    = [ToFile "logs/app.log" line; ToStderr line].
Proof.
  intros line.
  destruct (custom_exception_logs_its_own_constructor "bad input" 0
              file_logger_object 1 [] world_legacy_logger)
    as (_ & H & _).
  - reflexivity.
  - reflexivity.
  - apply no_handlers_above_check. vm_compute. reflexivity.
  - exact I.
  - reflexivity.
  - rewrite H. vm_compute. reflexivity.
Defined.

(** X22.  What the sinks of a [Logger] of logging.py receive.  On an
    object whose logger has the handlers [_setup_logger] made and no handler
    above it, in a process whose record factory is well formed and whose
    streams can be written, each level method called from [caller] ends
    normally, hands the record of the call to every handler and makes each of
    them write the same line, with the module, function and line of [caller]
    (and for [error] and [critical] the text that [logging] renders for the
    exception being handled); nothing is stored in the database and the record
    factory is as before. *)
Theorem legacy_level_method_writes_the_callers_line (m : LevelMethod) (self : nat)
    (o : LoggerObj) (n : nat) (message : string) (caller : Frame) (rest : list Frame)
    (w : World) :
  w_objects w !! self = Some o ->
  logger_of (_logger o) w = mkPyLogger DEBUG (provisioned o n) ->
  no_handlers_above (_logger o) w ->
  factory_ok (w_factory w) ->
  io_ok (w_env w) = true ->
  let line := facade_line (formatter_of o) (_logger o) (levelno_of m)
                (capitalized m ++ ": " ++ message) (passes_exc_info m) caller (w_env w) in
  let res := logging_call m self message (caller :: rest) w in
  fst res = Ok tt /\
  w_output (snd res) = (w_output w ++ lines_written line (provisioned o n))%list /\
  w_offered (snd res)
    = (w_offered w
       ++ offers (call_record o m message caller (w_env w)) (provisioned o n))%list /\
  w_db (snd res) = w_db w /\
  w_factory (snd res) = w_factory w.
Proof.
  intros Ho Hlg Hno Hfac Hio line res. subst res.
  rewrite (logging_call_eq m self o n message caller rest w Ho Hlg Hno Hfac Hio).
  cbn [fst snd]. repeat split.
Qed.

(** X22 for [info("started")] from [handle_request] on the logger made by
    [Logger("logs/app.log", "svc")] of logging.py. *)
Lemma legacy_level_method_writes_the_callers_line_witness :
  let line := "2024-05-01 12:00:00,000 - svc - CRITICAL - Critical: started"
              ++ " -> app.views - handle_request - 42" ++ NL ++ "NoneType: None" in
  w_output (snd (logging_call m_critical 0 "started" [app_frame] world_legacy_logger))
    = [ToFile "logs/app.log" line; ToStderr line].
Proof.
  intros line.
  destruct (legacy_level_method_writes_the_callers_line m_critical 0 file_logger_object 1
              "started" app_frame [] world_legacy_logger)
    as (_ & H & _).
  - reflexivity.
  - reflexivity.
  - apply no_handlers_above_check. vm_compute. reflexivity.
  - exact I.
  - reflexivity.
  - rewrite H. vm_compute. reflexivity.
Defined.

(** ** [capture_error] on the package's own exception *)

(** X23.  [capture_error] (loggers.py) on a [DBRecordsErrors] that was
    constructed and not raised, with a message and a code that are strings,
    integers or [None].  The call never changes the state.  It returns
    exactly when [str] of the exception does: when [code] is truthy, or when
    [message] is a string; with a falsy [code] and any other [message] it
    raises.  When it returns, [error_type] is ["DBRecordsErrors"],
    [error_args] is the one-element tuple of the message ([code] and [record]
    are not in it), the trace is what [traceback.format_exception] renders for
    the exception, and the message entry is, with a truthy [code], the text
    with the code, the message and the record, and otherwise the message
    itself. *)
Theorem capture_error_of_db_records_error (message code : PyVal) (record_dict : string)
    (w : World) :
  plain message ->
  plain code ->
  let e := errors.DBRecordsErrors (w_env w) message code record_dict in
  let res := loggers_ErrorTracker.capture_error e w in
  snd res = w /\
  is_ok (fst res)
    = (truthy code || match message with PyStr _ => true | _ => false end) /\
  (forall d, fst res = Ok d ->
     d !! "error_type" = Some (PyStr "DBRecordsErrors") /\
     d !! "error_args" = Some (PyTuple [message]) /\
     d !! "error_traceback" = Some (PyList (PyStr <$> format_exception (w_env w) e)) /\
     (exists s,
        d !! "error_message" = Some (PyStr s) /\
        (truthy code = true ->
           s = "[Error code " ++ py_str (w_env w) code ++ "]: "
               ++ py_str (w_env w) message ++ ". " ++ NL ++ " " ++ record_dict) /\
        (truthy code = false -> message = PyStr s))).
Proof.
  intros _ _ e res. subst res.
  rewrite loggers_capture_error_eq. subst e.
  unfold errors.DBRecordsErrors. cbn [exc_str exc_type exc_args].
  destruct (truthy code) eqn:Hc.
  - cbn [fst snd is_ok orb]. split; [reflexivity|]. split; [reflexivity|].
    intros d [= <-]. split; [by simplify_map_eq|]. split; [by simplify_map_eq|].
    split; [by simplify_map_eq|].
    eexists. split; [by simplify_map_eq|]. split; [reflexivity|discriminate].
  - destruct message as [|s| | | |]; cbn [fst snd is_ok orb];
      (split; [reflexivity|]); (split; [reflexivity|]);
      try (intros d Hd; discriminate Hd).
    intros d [= <-]. split; [by simplify_map_eq|]. split; [by simplify_map_eq|].
    split; [by simplify_map_eq|].
    exists s. split; [by simplify_map_eq|]. split; [discriminate|reflexivity].
Qed.

(** X23 for [DBRecordsErrors("lost row", 7, record)]. *)
Lemma capture_error_of_db_records_error_witness :
  let e := errors.DBRecordsErrors env_up (PyStr "lost row") (PyInt 7) "{}" in
  bindR (fst (loggers_ErrorTracker.capture_error e (fresh_world env_up)))
        (fun d => Ok (d !! "error_message", d !! "error_args"))
  = Ok (Some (PyStr ("[Error code 7]: lost row. " ++ NL ++ " {}")),
        Some (PyTuple [PyStr "lost row"])).
Proof.
  intros e.
  destruct (capture_error_of_db_records_error (PyStr "lost row") (PyInt 7) "{}"
              (fresh_world env_up)) as (_ & Hok & Hd).
  - exact I.
  - exact I.
  - cbv zeta in Hok, Hd. subst e.
    change (w_env (fresh_world env_up)) with env_up in Hok, Hd.
    destruct (fst (loggers_ErrorTracker.capture_error _ (fresh_world env_up)))
      as [d|x]; [|discriminate Hok].
    destruct (Hd d eq_refl) as (_ & Hargs & _ & s & Hmsg & Hs & _).
    cbn [bindR]. rewrite Hmsg, Hargs, (Hs eq_refl). reflexivity.
Defined.

(** ** The finalizer of logging.py *)

Lemma del_unfold (self : nat) (o : LoggerObj) (w : World) :
  w_objects w !! self = Some o ->
  logging_Logger_finalizer.__del__ self w =
    for_each (lg_handlers (logger_of (_logger o) w)) (removeHandler (_logger o)) w.
Proof.
  intros Ho. unfold logging_Logger_finalizer.__del__.
  unfold bind at 1. rewrite (get_object_some _ _ _ Ho).
  unfold bind at 1. unfold handlers_copy, gets. reflexivity.
Qed.

(** A level method of logging.py on a logger that has neither handlers of
    its own nor handlers above it. *)
Lemma logging_call_last_resort (m : LevelMethod) (self : nat) (o : LoggerObj)
    (message : string) (caller : Frame) (rest : list Frame) (w : World) :
  w_objects w !! self = Some o ->
  enabled_at (_logger o) (levelno_of m) w = true ->
  factory_ok (w_factory w) ->
  lg_handlers (logger_of (_logger o) w) = [] ->
  no_handlers_above (_logger o) w ->
  io_ok (w_env w) = true ->
  logging_call m self message (caller :: rest) w =
    (Ok tt,
     if Z.leb WARNING (levelno_of m)
     then set_output
            (w_output w
             ++ [ToStderr (default_format (w_env w)
                             (call_record o m message caller (w_env w)))]) w
     else w).
Proof.
  intros Ho Hen Hfac Hhs Hno Hio.
  rewrite (logging_call_dispatch _ _ _ _ _ _ _ Ho Hen Hfac). cbv zeta.
  rewrite callHandlers_no_handlers.
  2: { rewrite (handlers_in_reach_own (_logger o) (set_factory _ w) Hno). exact Hhs. }
  change (rec_levelno (call_record o m message caller (w_env w))) with (levelno_of m).
  change (w_env (set_factory _ w)) with (w_env w). rewrite Hio.
  destruct (Z.leb WARNING (levelno_of m)); cbn [fst snd]; f_equal; destruct w; reflexivity.
Qed.

(** X24.  Deleting a [Logger] of logging.py silences its namesakes.
    [__del__] removes every handler of the [logging.Logger] the object refers
    to, and that logger is shared by all objects of the same name.  So when an
    object [a] is finalized while another object [b] of the same logger name
    is in use (as after rebinding a variable to a new [Logger] of the same
    name), [b] is left without sinks.  When the logger has kept its level and
    no logger above it has a handler, the level methods of [b] still end
    normally, but no handler is handed the record; [debug] and [info] write
    nothing, and for [warning], [error] and [critical] the last-resort handler
    of [logging] writes to [sys.stderr] the prefixed message alone, for
    [error] and [critical] with the text of the exception being handled after
    it ([NoneType: None] when there is none). *)
Theorem deleting_a_logger_silences_its_namesake (m : LevelMethod) (a b : nat)
    (oa ob : LoggerObj) (message : string) (caller : Frame) (rest : list Frame)
    (w : World) :
  w_objects w !! a = Some oa ->
  w_objects w !! b = Some ob ->
  _logger oa = _logger ob ->
  lg_level (logger_of (_logger ob) w) = DEBUG ->
  no_handlers_above (_logger ob) w ->
  factory_ok (w_factory w) ->
  io_ok (w_env w) = true ->
  let deleted := logging_Logger_finalizer.__del__ a w in
  let res := logging_call m b message (caller :: rest) (snd deleted) in
  let text := capitalized m ++ ": " ++ message in
  fst deleted = Ok tt /\
  lg_handlers (logger_of (_logger ob) (snd deleted)) = [] /\
  fst res = Ok tt /\
  w_offered (snd res) = w_offered w /\
  w_output (snd res) =
    if Z.leb WARNING (levelno_of m)
    then (w_output w
          ++ [ToStderr (if passes_exc_info m
                        then add_exc_text text
                               (formatException (w_env w) (handling (w_env w)))
                        else text)])%list
    else w_output w.
Proof.
  intros Ha Hb Hab Hdebug Hno Hfac Hio deleted res text. subst deleted res.
  rewrite (del_unfold _ _ _ Ha). rewrite Hab.
  destruct (remove_loop_handlers (_logger ob) w) as (Hok & Hhs & Hlvl & Hfr & Hother).
  destruct (for_each _ _ w) as [rc wc]. cbn [fst snd] in *.
  destruct Hfr as (Ffac & Fobj & Freg & Foff & Fout & Fdb & Fenv).
  split; [exact Hok|]. split; [exact Hhs|].
  assert (Hoc : w_objects wc !! b = Some ob) by (rewrite Fobj; exact Hb).
  assert (Hnoc : no_handlers_above (_logger ob) wc).
  { apply (no_handlers_above_preserved _ w); [|exact Hno].
    intros p Hp. unfold logger_of. rewrite Hother by congruence. reflexivity. }
  rewrite (logging_call_last_resort m b ob message caller rest wc Hoc).
  - rewrite default_format_call_record. rewrite Fenv. fold text.
    destruct (Z.leb WARNING (levelno_of m)); cbn [fst snd]; simpl;
      rewrite ?Foff, ?Fout; repeat split.
  - rewrite enabled_at_own; rewrite Hlvl, Hdebug; [|discriminate].
    apply Z.leb_le, levelno_of_ge_DEBUG.
  - rewrite Ffac. exact Hfac.
  - exact Hhs.
  - exact Hnoc.
  - rewrite Fenv. exact Hio.
Qed.

(** X24 for two [Logger("logs/app.log", "svc")] of logging.py made one
    after the other (objects 0 and 3), the first finalized, and
    [error("lost")] on the second, outside any [except] block. *)
Lemma deleting_a_logger_silences_its_namesake_witness :
  let w := snd (logging_Logger.__init__ (Some "logs/app.log") (Some "svc")
                  world_legacy_logger) in
  w_output (snd (logging_call m_error 3 "lost" [app_frame]
                   (snd (logging_Logger_finalizer.__del__ 0 w))))
    = [ToStderr ("Error: lost" ++ NL ++ "NoneType: None")].
Proof.
  intros w.
  destruct (deleting_a_logger_silences_its_namesake m_error 0 3 file_logger_object
              file_logger_object "lost" app_frame [] w) as (_ & _ & _ & _ & H).
  - reflexivity.
  - reflexivity.
  - reflexivity.
  - reflexivity.
  - apply no_handlers_above_check. vm_compute. reflexivity.
  - exact I.
  - reflexivity.
  - rewrite H. vm_compute. reflexivity.
Defined.

(** ** Constructing a [Logger] of logging.py *)

(** On an object with a name, [_setup_logger] of logging.py does what
    [_setup_logger] of loggers.py does for the formatter type ["local"]. *)
Lemma legacy_setup_logger_eq (self : nat) (o : LoggerObj) (w : World) :
  w_objects w !! self = Some o ->
  str_or (name o) logging_Logger.__name__ = str_or (name o) loggers_Logger.__name__ ->
  formatter_type o = "local" ->
  logging_Logger._setup_logger self w = loggers_Logger.Logger_setup_logger self w.
Proof.
  intros Ho Hn Hf.
  unfold logging_Logger._setup_logger, loggers_Logger.Logger_setup_logger, bind.
  rewrite (get_object_some _ _ _ Ho). cbv zeta. rewrite Hn, Hf. reflexivity.
Qed.

Lemma legacy_init_eq (file : option string) (s : string) (w : World) :
  s <> "" ->
  logging_Logger.__init__ file (Some s) w = loggers_Logger.__init__ "local" file (Some s) w.
Proof.
  intros Hs.
  unfold logging_Logger.__init__, loggers_Logger.__init__.
  unfold bind, fresh, modify, ret. cbv beta iota.
  set (w2 := set_objects _ _).
  assert (Ho2 : w_objects w2 !! w_next w
                = Some (mkLoggerObj Logger file (Some s) "local" "")).
  { unfold w2. simpl. now rewrite lookup_insert_eq. }
  rewrite (setup_logger_of_Logger _ _ _ Ho2) by reflexivity.
  rewrite (legacy_setup_logger_eq _ _ _ Ho2); [reflexivity| |reflexivity].
  cbn [name str_or]. apply String.eqb_neq in Hs. now rewrite Hs.
Qed.

(** X25.  [Logger(log_file, name)] of logging.py with a name.  The
    constructor registers the object and sets the logger of that name to
    [DEBUG].  When there is no log file, or its path has a directory part and
    the file system works, it returns the object and the logger has exactly
    the new handlers in the order file, console, all at [DEBUG] and all with
    the format that has the time.  Otherwise it raises and leaves the logger
    of that name at [DEBUG] with no handler at all, whatever handlers it had
    before. *)
Theorem legacy_logger_construction (file : option string) (s : string) (w : World) :
  s <> "" ->
  let o := mkLoggerObj Logger file (Some s) "local" "" in
  let res := logging_Logger.__init__ file (Some s) w in
  if can_open o (w_env w)
  then fst res = Ok (w_next w) /\
       w_objects (snd res) !! w_next w = Some (set_attr_logger s o) /\
       logger_of s (snd res) = mkPyLogger DEBUG (provisioned o (S (w_next w))) /\
       Forall (fun h => h_formatter h.2 = FormatterLocal /\ h_level h.2 = DEBUG)
              (provisioned o (S (w_next w)))
  else is_ok (fst res) = false /\ logger_of s (snd res) = mkPyLogger DEBUG [].
Proof.
  intros Hs o res. subst res.
  rewrite (legacy_init_eq _ _ _ Hs). rewrite Logger_init_eq. fold o.
  assert (Hn : str_or (Some s) loggers_Logger.__name__ = s).
  { cbn [str_or]. apply String.eqb_neq in Hs. now rewrite Hs. }
  rewrite Hn.
  destruct (can_open o (w_env w)); cbn [fst snd].
  - split; [reflexivity|]. split; [simpl; now rewrite lookup_insert_eq|].
    split; [unfold logger_of; simpl; now rewrite lookup_insert_eq|].
    unfold provisioned. destruct (String.eqb _ _); repeat constructor.
  - split; [reflexivity|]. unfold logger_of. simpl. now rewrite lookup_insert_eq.
Qed.

(** X25 for [Logger("logs/app.log", "svc")] in a fresh process. *)
Lemma legacy_logger_construction_witness :
  fst (logging_Logger.__init__ (Some "logs/app.log") (Some "svc") (fresh_world env_up))
    = Ok 0%nat /\
  logger_of "svc" world_legacy_logger
    = mkPyLogger DEBUG [(1%nat, mkHandler (FileHandler "logs/app.log") DEBUG FormatterLocal);
                        (2%nat, mkHandler StreamHandler DEBUG FormatterLocal)].
Proof.
  pose proof (legacy_logger_construction (Some "logs/app.log") "svc" (fresh_world env_up))
    as H.
  destruct H as (H1 & _ & H3 & _).
  - discriminate.
  - split; [exact H1|exact H3].
Defined.
